(** * Maintenance agent: work-order tools, duplicate detector, knowledge
      search and conversation controller

    A shallow embedding of [server/agent/tools.js], [server/agent/knowledge.js]
    and [server/agent/chat.js] (latest revision of each), of the
    [readJSON]/[writeJSON] pair of [server/db.js] and of three routes of
    [server.js], followed by the properties of the specification that
    concern them.

    Conventions of the embedding:
    - a JavaScript property that may be absent is an [option]; [None] is
      [undefined];
    - strings are byte strings holding ASCII text: the case mapping and the
      white space are the ASCII ones;
    - the JSON files behind [readJSON]/[writeJSON] are fields of [world];
      a field is [None] when [readJSON] returns [null];
    - the wall clock, the file system's answer to a write, the reasoning
      engine and the secondary comparison call are oracles, variables of the
      section [Agent]; every use is counted in [world]. *)

From Stdlib Require Import String Ascii NArith ZArith List Lia Bool Sorted.
From stdpp Require Import base option list strings pretty.

Local Open Scope string_scope.
Local Open Scope list_scope.

(** ** JavaScript values and string primitives *)

(** The double quote character, for messages that quote their arguments. *)
Definition dquote : string := String (ascii_of_nat 34) EmptyString.

Definition lower_ascii (c : ascii) : ascii :=
  let n := nat_of_ascii c in
  if (65 <=? n)%nat && (n <=? 90)%nat then ascii_of_nat (n + 32) else c.

(** [s.toLowerCase()] *)
Fixpoint toLowerCase (s : string) : string :=
  match s with
  | EmptyString => EmptyString
  | String c r => String (lower_ascii c) (toLowerCase r)
  end.

(** [s.includes(sub)] *)
Fixpoint includes (s sub : string) : bool :=
  String.prefix sub s ||
  match s with
  | EmptyString => false
  | String _ r => includes r sub
  end.

(** Truthiness of a possibly absent string: [undefined] and the empty string
    are falsy. *)
Definition truthy (x : option string) : bool :=
  match x with
  | Some s => negb (String.eqb s "")
  | None => false
  end.

(** [a || b] on possibly absent strings. *)
Definition js_or (a b : option string) : option string :=
  if truthy a then a else b.

(** [`${x}`]: an absent value prints as [undefined]. *)
Definition js_str (x : option string) : string :=
  match x with
  | Some s => s
  | None => "undefined"
  end.

(** [l.join(sep)] *)
Fixpoint join (sep : string) (l : list string) : string :=
  match l with
  | [] => ""
  | [x] => x
  | x :: r => x +:+ sep +:+ join sep r
  end.

(** Result of a computation that may throw. *)
Inductive outcome (A : Type) : Type :=
| Returns (a : A)
| Throws (msg : string).
Arguments Returns {A} a.
Arguments Throws {A} msg.

(** The message of the [TypeError] for reading property [prop] of [value],
    which is [undefined] or [null]. *)
Definition type_error (value prop : string) : string :=
  "Cannot read properties of " +:+ value +:+ " (reading '" +:+ prop +:+ "')".

(** The message of the [TypeError] for assigning property [prop] of
    [undefined]. *)
Definition assignment_error (prop : string) : string :=
  "Cannot set properties of undefined (setting '" +:+ prop +:+ "')".

(** Calling [method] on a possibly absent string. *)
Definition receiver (x : option string) (method : string) : outcome string :=
  match x with
  | Some s => Returns s
  | None => Throws (type_error "undefined" method)
  end.

(** [l.find(p)] for a callback that may throw: the first throw aborts. *)
Fixpoint find_throwing {A} (p : A -> outcome bool) (l : list A)
  : outcome (option A) :=
  match l with
  | [] => Returns None
  | x :: r =>
      match p x with
      | Throws e => Throws e
      | Returns true => Returns (Some x)
      | Returns false => find_throwing p r
      end
  end.

(** ** Data model *)

Record attachment := {
  att_id : string;
  att_url : string;
  att_filename : string;
  att_mediaType : string
}.

Record tenant := {
  t_id : string;
  t_name : string;
  t_unit : string
}.

(** A contractor of the read-only store; every contractor has an id and a
    display name, [c_rest] stands for the contact and rate properties. *)
Record contractor := {
  c_id : string;
  c_name : string;
  c_service : option string;
  c_rest : list (string * string)
}.

(** A stored work order.  Both the current and the legacy property names
    read by the code are present; [wo_rest] stands for any further
    properties, which the tools carry along untouched. *)
Record work_order := {
  wo_id : string;
  wo_tenant_id : option string;
  wo_tenantId : option string;
  wo_issue_summary : option string;
  wo_issueDescription : option string;
  wo_contractor_id : option string;
  wo_contractorId : option string;
  wo_contractor_name : option string;
  wo_trade : option string;
  wo_priority : option string;
  wo_status : option string;
  wo_created_at : option string;
  wo_createdAt : option string;
  wo_updated_at : option string;
  wo_resolved_at : option string;
  wo_resolution_notes : option string;
  wo_attachments : option (list attachment);
  wo_rest : list (string * string)
}.

Definition set_issue_summary (v : option string) (wo : work_order) :=
  {| wo_id := wo_id wo; wo_tenant_id := wo_tenant_id wo;
     wo_tenantId := wo_tenantId wo; wo_issue_summary := v;
     wo_issueDescription := wo_issueDescription wo;
     wo_contractor_id := wo_contractor_id wo;
     wo_contractorId := wo_contractorId wo;
     wo_contractor_name := wo_contractor_name wo; wo_trade := wo_trade wo;
     wo_priority := wo_priority wo; wo_status := wo_status wo;
     wo_created_at := wo_created_at wo; wo_createdAt := wo_createdAt wo;
     wo_updated_at := wo_updated_at wo; wo_resolved_at := wo_resolved_at wo;
     wo_resolution_notes := wo_resolution_notes wo;
     wo_attachments := wo_attachments wo; wo_rest := wo_rest wo |}.

Definition set_priority (v : option string) (wo : work_order) :=
  {| wo_id := wo_id wo; wo_tenant_id := wo_tenant_id wo;
     wo_tenantId := wo_tenantId wo; wo_issue_summary := wo_issue_summary wo;
     wo_issueDescription := wo_issueDescription wo;
     wo_contractor_id := wo_contractor_id wo;
     wo_contractorId := wo_contractorId wo;
     wo_contractor_name := wo_contractor_name wo; wo_trade := wo_trade wo;
     wo_priority := v; wo_status := wo_status wo;
     wo_created_at := wo_created_at wo; wo_createdAt := wo_createdAt wo;
     wo_updated_at := wo_updated_at wo; wo_resolved_at := wo_resolved_at wo;
     wo_resolution_notes := wo_resolution_notes wo;
     wo_attachments := wo_attachments wo; wo_rest := wo_rest wo |}.

Definition set_status (v : option string) (wo : work_order) :=
  {| wo_id := wo_id wo; wo_tenant_id := wo_tenant_id wo;
     wo_tenantId := wo_tenantId wo; wo_issue_summary := wo_issue_summary wo;
     wo_issueDescription := wo_issueDescription wo;
     wo_contractor_id := wo_contractor_id wo;
     wo_contractorId := wo_contractorId wo;
     wo_contractor_name := wo_contractor_name wo; wo_trade := wo_trade wo;
     wo_priority := wo_priority wo; wo_status := v;
     wo_created_at := wo_created_at wo; wo_createdAt := wo_createdAt wo;
     wo_updated_at := wo_updated_at wo; wo_resolved_at := wo_resolved_at wo;
     wo_resolution_notes := wo_resolution_notes wo;
     wo_attachments := wo_attachments wo; wo_rest := wo_rest wo |}.

Definition set_updated_at (v : option string) (wo : work_order) :=
  {| wo_id := wo_id wo; wo_tenant_id := wo_tenant_id wo;
     wo_tenantId := wo_tenantId wo; wo_issue_summary := wo_issue_summary wo;
     wo_issueDescription := wo_issueDescription wo;
     wo_contractor_id := wo_contractor_id wo;
     wo_contractorId := wo_contractorId wo;
     wo_contractor_name := wo_contractor_name wo; wo_trade := wo_trade wo;
     wo_priority := wo_priority wo; wo_status := wo_status wo;
     wo_created_at := wo_created_at wo; wo_createdAt := wo_createdAt wo;
     wo_updated_at := v; wo_resolved_at := wo_resolved_at wo;
     wo_resolution_notes := wo_resolution_notes wo;
     wo_attachments := wo_attachments wo; wo_rest := wo_rest wo |}.

Definition set_resolved_at (v : option string) (wo : work_order) :=
  {| wo_id := wo_id wo; wo_tenant_id := wo_tenant_id wo;
     wo_tenantId := wo_tenantId wo; wo_issue_summary := wo_issue_summary wo;
     wo_issueDescription := wo_issueDescription wo;
     wo_contractor_id := wo_contractor_id wo;
     wo_contractorId := wo_contractorId wo;
     wo_contractor_name := wo_contractor_name wo; wo_trade := wo_trade wo;
     wo_priority := wo_priority wo; wo_status := wo_status wo;
     wo_created_at := wo_created_at wo; wo_createdAt := wo_createdAt wo;
     wo_updated_at := wo_updated_at wo; wo_resolved_at := v;
     wo_resolution_notes := wo_resolution_notes wo;
     wo_attachments := wo_attachments wo; wo_rest := wo_rest wo |}.

Definition set_resolution_notes (v : option string) (wo : work_order) :=
  {| wo_id := wo_id wo; wo_tenant_id := wo_tenant_id wo;
     wo_tenantId := wo_tenantId wo; wo_issue_summary := wo_issue_summary wo;
     wo_issueDescription := wo_issueDescription wo;
     wo_contractor_id := wo_contractor_id wo;
     wo_contractorId := wo_contractorId wo;
     wo_contractor_name := wo_contractor_name wo; wo_trade := wo_trade wo;
     wo_priority := wo_priority wo; wo_status := wo_status wo;
     wo_created_at := wo_created_at wo; wo_createdAt := wo_createdAt wo;
     wo_updated_at := wo_updated_at wo; wo_resolved_at := wo_resolved_at wo;
     wo_resolution_notes := v;
     wo_attachments := wo_attachments wo; wo_rest := wo_rest wo |}.

(** [const { attachments, ...orderWithoutAttachments } = wo] *)
Definition without_attachments (wo : work_order) :=
  {| wo_id := wo_id wo; wo_tenant_id := wo_tenant_id wo;
     wo_tenantId := wo_tenantId wo; wo_issue_summary := wo_issue_summary wo;
     wo_issueDescription := wo_issueDescription wo;
     wo_contractor_id := wo_contractor_id wo;
     wo_contractorId := wo_contractorId wo;
     wo_contractor_name := wo_contractor_name wo; wo_trade := wo_trade wo;
     wo_priority := wo_priority wo; wo_status := wo_status wo;
     wo_created_at := wo_created_at wo; wo_createdAt := wo_createdAt wo;
     wo_updated_at := wo_updated_at wo; wo_resolved_at := wo_resolved_at wo;
     wo_resolution_notes := wo_resolution_notes wo;
     wo_attachments := None; wo_rest := wo_rest wo |}.

(** The argument object of a tool call, after [JSON.parse]: every property
    any tool destructures, each possibly absent. *)
Record tool_args := {
  arg_query : option string;
  arg_trade : option string;
  arg_tenant_id : option string;
  arg_new_issue_description : option string;
  arg_issue_summary : option string;
  arg_contractor_id : option string;
  arg_priority : option string;
  arg_attachments : option (list attachment);
  arg_status_filter : option string;
  arg_work_order_id : option string;
  arg_status : option string;
  arg_resolution_notes : option string
}.

Definition no_args : tool_args :=
  {| arg_query := None; arg_trade := None; arg_tenant_id := None;
     arg_new_issue_description := None; arg_issue_summary := None;
     arg_contractor_id := None; arg_priority := None;
     arg_attachments := None; arg_status_filter := None;
     arg_work_order_id := None; arg_status := None;
     arg_resolution_notes := None |}.

(** [{ ...args, tenant_id: v }] *)
Definition with_tenant_id (v : option string) (a : tool_args) : tool_args :=
  {| arg_query := arg_query a; arg_trade := arg_trade a; arg_tenant_id := v;
     arg_new_issue_description := arg_new_issue_description a;
     arg_issue_summary := arg_issue_summary a;
     arg_contractor_id := arg_contractor_id a; arg_priority := arg_priority a;
     arg_attachments := arg_attachments a;
     arg_status_filter := arg_status_filter a;
     arg_work_order_id := arg_work_order_id a; arg_status := arg_status a;
     arg_resolution_notes := arg_resolution_notes a |}.

(** [{ ...args, attachments: v }] *)
Definition with_attachments (v : option (list attachment)) (a : tool_args)
  : tool_args :=
  {| arg_query := arg_query a; arg_trade := arg_trade a;
     arg_tenant_id := arg_tenant_id a;
     arg_new_issue_description := arg_new_issue_description a;
     arg_issue_summary := arg_issue_summary a;
     arg_contractor_id := arg_contractor_id a; arg_priority := arg_priority a;
     arg_attachments := v;
     arg_status_filter := arg_status_filter a;
     arg_work_order_id := arg_work_order_id a; arg_status := arg_status a;
     arg_resolution_notes := arg_resolution_notes a |}.

Record article := {
  art_id : option string;
  art_title : option string;
  art_content : option string;
  art_tags : option (list string);
  art_rest : list (string * string)
}.

(** [{ ...article, title: displayTitle, score }] *)
Record scored_article := {
  sa_article : article;
  sa_score : nat
}.

(** What the tools return for one work order: the record without its
    attachments, their count, and (creation only) a note. *)
Record order_view := {
  ov_order : work_order;
  ov_attachments_count : nat;
  ov_note : option string
}.

(** One element of the list returned by [get_work_orders]. *)
Record order_summary := {
  os_id : string;
  os_tenant_id : option string;
  os_issue_summary : option string;
  os_contractor_id : option string;
  os_contractor_name : option string;
  os_trade : option string;
  os_priority : option string;
  os_status : option string;
  os_created_at : option string;
  os_attachments_count : nat;
  os_has_photos : bool
}.

(** An active order as it is presented to the comparison call. *)
Record existing_issue := {
  ei_id : string;
  ei_issue_summary : option string;
  ei_trade : option string;
  ei_priority : option string;
  ei_status : option string;
  ei_created_at : option string
}.

Record issue_brief := {
  ib_id : string;
  ib_issue_summary : option string;
  ib_trade : option string
}.

(** The parsed answer of the comparison call. *)
Record verdict := {
  is_similar : bool;
  matching_order_id : option string;
  reasoning : option string
}.

(** The comparison call either throws (transport error, unparsable answer)
    or yields a verdict. *)
Inductive judge_reply :=
| JudgeThrows (msg : string)
| JudgeVerdict (v : verdict).

(** Return value of [compareIssuesWithLLM]. *)
Record comparison := {
  cmp_has_similar : bool;
  cmp_similar_order : option existing_issue;
  cmp_reasoning : option string
}.

(** Return value of [check_similar_issues]; the three object literals of the
    source differ in which properties they carry. *)
Record similar_check := {
  has_similar : bool;
  similar_order : option existing_issue;
  sc_reasoning : option string;
  error : option string;
  active_orders_count : option nat;
  existing_issues : option (list issue_brief);
  message : string
}.

Record deletion := {
  del_success : bool;
  deleted_order : order_view;
  del_message : string
}.

(** The value a tool call leaves in the conversation. *)
Inductive tool_result :=
| RArticles (l : list scored_article)
| RContractors (l : list contractor)
| RSimilar (r : similar_check)
| ROrder (o : order_view)
| ROrders (l : list order_summary)
| RDeleted (d : deletion)
| RError (msg : string).

(** ** The stores and the oracles *)

Record world := {
  tenants_json : option (list tenant);
  contractors_json : option (list contractor);
  knowledge_json : option (list article);
  work_orders_json : option (list work_order);
  ticks : nat;
  writes : nat;
  judge_calls : nat;
  engine_calls : nat
}.

(** The file [work_orders.json] after [writeFileSync] has written [l]. *)
Definition store_work_orders (l : list work_order) (w : world) : world :=
  {| tenants_json := tenants_json w; contractors_json := contractors_json w;
     knowledge_json := knowledge_json w; work_orders_json := Some l;
     ticks := ticks w; writes := writes w; judge_calls := judge_calls w;
     engine_calls := engine_calls w |}.

Definition tick (w : world) : world :=
  {| tenants_json := tenants_json w; contractors_json := contractors_json w;
     knowledge_json := knowledge_json w;
     work_orders_json := work_orders_json w;
     ticks := S (ticks w); writes := writes w; judge_calls := judge_calls w;
     engine_calls := engine_calls w |}.

Definition count_write (w : world) : world :=
  {| tenants_json := tenants_json w; contractors_json := contractors_json w;
     knowledge_json := knowledge_json w;
     work_orders_json := work_orders_json w;
     ticks := ticks w; writes := S (writes w); judge_calls := judge_calls w;
     engine_calls := engine_calls w |}.

Definition count_judge_call (w : world) : world :=
  {| tenants_json := tenants_json w; contractors_json := contractors_json w;
     knowledge_json := knowledge_json w;
     work_orders_json := work_orders_json w;
     ticks := ticks w; writes := writes w; judge_calls := S (judge_calls w);
     engine_calls := engine_calls w |}.

Definition count_engine_call (w : world) : world :=
  {| tenants_json := tenants_json w; contractors_json := contractors_json w;
     knowledge_json := knowledge_json w;
     work_orders_json := work_orders_json w;
     ticks := ticks w; writes := writes w; judge_calls := judge_calls w;
     engine_calls := S (engine_calls w) |}.

(** [readJSON("work_orders.json") || []] *)
Definition read_work_orders (w : world) : list work_order :=
  default [] (work_orders_json w).

(** [wo.id === work_order_id] *)
Definition has_id (work_order_id : option string) (wo : work_order) : Prop :=
  Some (wo_id wo) = work_order_id.

Global Instance has_id_dec k wo : Decision (has_id k wo).
Proof. unfold has_id. apply _. Defined.

(** [(attachments || []).length] *)
Definition attachments_length (a : option (list attachment)) : nat :=
  length (default [] a).

Definition view_of (wo : work_order) : order_view :=
  {| ov_order := without_attachments wo;
     ov_attachments_count := attachments_length (wo_attachments wo);
     ov_note := None |}.

Definition not_found_message (work_order_id : option string) : string :=
  "Work order " +:+ js_str work_order_id +:+ " not found.".

(** What a route sends: [res.json(body)] or
    [res.status(code).json({ error })]. *)
Inductive route_response (A : Type) : Type :=
| Sent (body : A)
| Failed (code : nat) (error : string).
Arguments Sent {A} body.
Arguments Failed {A} code error.

Section Agent.

(** The wall clock: [clock k] is the epoch time in milliseconds observed by
    the [k]-th reading, and [toISOString] formats it. *)
Variable clock : nat -> N.
Variable toISOString : N -> string.

(** [Date.now()] *)
Definition Date_now (w : world) : N * world :=
  (clock (ticks w), tick w).

(** [new Date().toISOString()] *)
Definition Date_toISOString (w : world) : string * world :=
  (toISOString (clock (ticks w)), tick w).

(** The file system: [disk k] tells whether the [k]-th [writeFileSync] of
    the run returns ([true]) or throws ([false]). *)
Variable disk : nat -> bool.

(** [writeJSON("work_orders.json", l)]: an exception of [writeFileSync] is
    caught and logged, the answer is then [false] and the file keeps its
    content. *)
Definition writeJSON_work_orders (l : list work_order) (w : world)
  : bool * world :=
  if disk (writes w)
  then (true, count_write (store_work_orders l w))
  else (false, count_write w).

(** ** Tool implementations *)

(** *** get_available_contractors *)

Definition get_available_contractors (args : tool_args) (w : world)
  : list contractor :=
  match contractors_json w with
  | None => []
  | Some contractors =>
      let trade := toLowerCase (default "" (arg_trade args)) in
      filter (fun c =>
                toLowerCase (default "" (c_service c)) = trade \/
                includes (toLowerCase (c_name c)) trade = true)
             contractors
  end.

(** *** create_work_order *)

(** The three lookups at the head of [create_work_order]: by id, then by
    case-insensitive name, then by case-insensitive part of the name. *)
Definition find_contractor (contractors : list contractor)
    (contractor_id : option string) : outcome (option contractor) :=
  let contractor :=
    find (fun c => bool_decide (Some (c_id c) = contractor_id)) contractors in
  match
    match contractor with
    | Some _ => Returns contractor
    | None =>
        find_throwing
          (fun c =>
             match receiver contractor_id "toLowerCase" with
             | Throws e => Throws e
             | Returns s =>
                 Returns (String.eqb (toLowerCase (c_name c)) (toLowerCase s))
             end)
          contractors
    end
  with
  | Throws e => Throws e
  | Returns (Some c) => Returns (Some c)
  | Returns None =>
      find_throwing
        (fun c =>
           match receiver contractor_id "toLowerCase" with
           | Throws e => Throws e
           | Returns s =>
               Returns (includes (toLowerCase (c_name c)) (toLowerCase s))
           end)
        contractors
  end.

Definition contractor_not_found (contractors : list contractor)
    (contractor_id : option string) : string :=
  "Contractor with ID or name " +:+ dquote +:+ js_str contractor_id +:+
  dquote +:+ " not found. Available contractors: " +:+
  join ", " (map (fun c => c_id c +:+ " (" +:+ c_name c +:+ ")") contractors).

Definition create_work_order (args : tool_args) (w : world)
  : outcome order_view * world :=
  let workOrders := read_work_orders w in
  let contractors := default [] (contractors_json w) in
  match find_contractor contractors (arg_contractor_id args) with
  | Throws e => (Throws e, w)
  | Returns None =>
      (Throws (contractor_not_found contractors (arg_contractor_id args)), w)
  | Returns (Some contractor) =>
      let (ms, w1) := Date_now w in
      let (iso, w2) := Date_toISOString w1 in
      let attachments := arg_attachments args in
      let newOrder :=
        {| wo_id := "wo-" +:+ pretty ms;
           wo_tenant_id := arg_tenant_id args;
           wo_tenantId := None;
           wo_issue_summary := arg_issue_summary args;
           wo_issueDescription := None;
           wo_contractor_id := Some (c_id contractor);
           wo_contractorId := None;
           wo_contractor_name := Some (c_name contractor);
           wo_trade := c_service contractor;
           wo_priority := arg_priority args;
           wo_status := Some "assigned";
           wo_created_at := Some iso;
           wo_createdAt := None;
           wo_updated_at := None;
           wo_resolved_at := None;
           wo_resolution_notes := None;
           wo_attachments := Some (default [] attachments);
           wo_rest := [] |} in
      let w3 := snd (writeJSON_work_orders (workOrders ++ [newOrder]) w2) in
      (Returns
         {| ov_order := without_attachments newOrder;
            ov_attachments_count := attachments_length attachments;
            ov_note :=
              if (0 <? attachments_length attachments)%nat
              then Some (pretty (attachments_length attachments) +:+
                         " photo(s) attached and saved with work order")
              else None |},
       w3)
  end.

(** *** get_work_orders *)

Definition summary_of (wo : work_order) : order_summary :=
  {| os_id := wo_id wo;
     os_tenant_id := js_or (wo_tenant_id wo) (wo_tenantId wo);
     os_issue_summary := js_or (wo_issue_summary wo) (wo_issueDescription wo);
     os_contractor_id := js_or (wo_contractor_id wo) (wo_contractorId wo);
     os_contractor_name := wo_contractor_name wo;
     os_trade := wo_trade wo;
     os_priority := wo_priority wo;
     os_status := wo_status wo;
     os_created_at := js_or (wo_created_at wo) (wo_createdAt wo);
     os_attachments_count := attachments_length (wo_attachments wo);
     os_has_photos := (0 <? attachments_length (wo_attachments wo))%nat |}.

Definition get_work_orders (args : tool_args) (w : world)
  : list order_summary :=
  let workOrders := read_work_orders w in
  let filtered :=
    filter (fun wo => js_or (wo_tenant_id wo) (wo_tenantId wo)
                      = arg_tenant_id args) workOrders in
  let filtered :=
    if truthy (arg_status_filter args)
    then filter (fun wo => toLowerCase (default "" (wo_status wo))
                           = toLowerCase (js_str (arg_status_filter args)))
                filtered
    else filtered in
  map summary_of filtered.

(** *** update_work_order *)

(** The value [writeJSON] returns is not looked at.  The index found lies
    within the array, so the last case of the definition does not arise;
    the same holds for [complete_work_order]. *)
Definition update_work_order (args : tool_args) (w : world)
  : outcome order_view * world :=
  let workOrders := read_work_orders w in
  match list_find (has_id (arg_work_order_id args)) workOrders with
  | None => (Throws (not_found_message (arg_work_order_id args)), w)
  | Some (orderIndex, _) =>
      let workOrders :=
        match arg_issue_summary args with
        | Some v => alter (set_issue_summary (Some v)) orderIndex workOrders
        | None => workOrders
        end in
      let workOrders :=
        match arg_priority args with
        | Some v => alter (set_priority (Some v)) orderIndex workOrders
        | None => workOrders
        end in
      let workOrders :=
        match arg_status args with
        | Some v => alter (set_status (Some v)) orderIndex workOrders
        | None => workOrders
        end in
      let (iso, w1) := Date_toISOString w in
      let workOrders := alter (set_updated_at (Some iso)) orderIndex workOrders in
      let w2 := snd (writeJSON_work_orders workOrders w1) in
      match workOrders !! orderIndex with
      | Some wo => (Returns (view_of wo), w2)
      | None => (Throws (assignment_error "updated_at"), w)
      end
  end.

(** *** complete_work_order *)

Definition complete_work_order (args : tool_args) (w : world)
  : outcome order_view * world :=
  let workOrders := read_work_orders w in
  match list_find (has_id (arg_work_order_id args)) workOrders with
  | None => (Throws (not_found_message (arg_work_order_id args)), w)
  | Some (orderIndex, _) =>
      let workOrders := alter (set_status (Some "solved")) orderIndex workOrders in
      let (iso1, w1) := Date_toISOString w in
      let workOrders := alter (set_updated_at (Some iso1)) orderIndex workOrders in
      let (iso2, w2) := Date_toISOString w1 in
      let workOrders := alter (set_resolved_at (Some iso2)) orderIndex workOrders in
      let workOrders :=
        if truthy (arg_resolution_notes args)
        then alter (set_resolution_notes (arg_resolution_notes args))
                   orderIndex workOrders
        else workOrders in
      let w3 := snd (writeJSON_work_orders workOrders w2) in
      match workOrders !! orderIndex with
      | Some wo => (Returns (view_of wo), w3)
      | None => (Throws (assignment_error "status"), w)
      end
  end.

(** *** delete_work_order *)

Definition delete_work_order (args : tool_args) (w : world)
  : outcome deletion * world :=
  let workOrders := read_work_orders w in
  match list_find (has_id (arg_work_order_id args)) workOrders with
  | None => (Throws (not_found_message (arg_work_order_id args)), w)
  | Some (orderIndex, deletedOrder) =>
      let workOrders := delete orderIndex workOrders in
      let w1 := snd (writeJSON_work_orders workOrders w) in
      (Returns
         {| del_success := true;
            deleted_order := view_of deletedOrder;
            del_message := "Work order " +:+ js_str (arg_work_order_id args)
                           +:+ " has been deleted." |},
       w1)
  end.

(** *** check_similar_issues *)

(** The secondary reasoning call, as a function of what the prompt is built
    from: the new description and the active orders. *)
Variable judge : option string -> list existing_issue -> judge_reply.

Definition compareIssuesWithLLM (newIssue : option string)
    (existingIssues : list existing_issue) (w : world)
  : outcome comparison * world :=
  let w1 := count_judge_call w in
  match judge newIssue existingIssues with
  | JudgeThrows e => (Throws e, w1)
  | JudgeVerdict result =>
      if is_similar result && truthy (matching_order_id result)
      then
        let matchedOrder :=
          find (fun o => bool_decide (Some (ei_id o) = matching_order_id result))
               existingIssues in
        (Returns {| cmp_has_similar := true;
                    cmp_similar_order := matchedOrder;
                    cmp_reasoning := reasoning result |}, w1)
      else
        (Returns {| cmp_has_similar := false;
                    cmp_similar_order := None;
                    cmp_reasoning := reasoning result |}, w1)
  end.

(** The callback of [workOrders.filter] in [check_similar_issues]. *)
Definition is_active_for (tenant_id : option string) (wo : work_order) : Prop :=
  let woTenantId := js_or (wo_tenant_id wo) (wo_tenantId wo) in
  let woStatus := toLowerCase (default "" (wo_status wo)) in
  woTenantId = tenant_id /\
  (woStatus = "assigned" \/ woStatus = "pending" \/ woStatus = "in_progress").

Global Instance is_active_for_dec t wo : Decision (is_active_for t wo).
Proof. unfold is_active_for. apply _. Defined.

Definition issue_of (wo : work_order) : existing_issue :=
  {| ei_id := wo_id wo;
     ei_issue_summary := js_or (wo_issue_summary wo) (wo_issueDescription wo);
     ei_trade := js_or (wo_trade wo) (Some "unknown");
     ei_priority := wo_priority wo;
     ei_status := wo_status wo;
     ei_created_at := js_or (wo_created_at wo) (wo_createdAt wo) |}.

Definition brief_of (o : existing_issue) : issue_brief :=
  {| ib_id := ei_id o;
     ib_issue_summary := ei_issue_summary o;
     ib_trade := ei_trade o |}.

Definition check_similar_issues (args : tool_args) (w : world)
  : similar_check * world :=
  let workOrders := read_work_orders w in
  let activeOrders := filter (is_active_for (arg_tenant_id args)) workOrders in
  if (length activeOrders =? 0)%nat
  then
    ({| has_similar := false; similar_order := None; sc_reasoning := None;
        error := None; active_orders_count := Some 0%nat;
        existing_issues := None;
        message := "No active work orders found for this tenant. Safe to create a new work order." |},
     w)
  else
    let existingIssues := map issue_of activeOrders in
    let '(attempt, w1) :=
      match
        compareIssuesWithLLM (arg_new_issue_description args) existingIssues w
      with
      | (Throws e, w1) => (Throws e, w1)
      | (Returns comparisonResult, w1) =>
          if cmp_has_similar comparisonResult
          then
            match cmp_similar_order comparisonResult with
            | None => (Throws (type_error "undefined" "issue_summary"), w1)
            | Some similar =>
                (Returns
                   {| has_similar := true; similar_order := Some similar;
                      sc_reasoning := cmp_reasoning comparisonResult;
                      error := None; active_orders_count := None;
                      existing_issues := None;
                      message :=
                        "A similar issue was found: " +:+ dquote +:+
                        js_str (ei_issue_summary similar) +:+ dquote +:+
                        " (Work Order: " +:+ ei_id similar +:+
                        "). Please ask the tenant to confirm if this is the same issue or a genuinely different one before creating a new work order." |},
                 w1)
            end
          else
            (Returns
               {| has_similar := false; similar_order := None;
                  sc_reasoning := None; error := None;
                  active_orders_count := Some (length activeOrders);
                  existing_issues := Some (map brief_of existingIssues);
                  message := "No similar issues found among active work orders. Safe to create a new work order if needed." |},
             w1)
      end in
    match attempt with
    | Returns r => (r, w1)
    | Throws _ =>
        ({| has_similar := false; similar_order := None; sc_reasoning := None;
            error := Some "Could not perform semantic comparison";
            active_orders_count := Some (length activeOrders);
            existing_issues := Some (map brief_of existingIssues);
            message := "Unable to automatically compare issues. Please review existing orders manually before creating a new one." |},
         w1)
    end.

(** ** Knowledge search *)

(** ASCII white space: the characters matched by [\s] and removed by
    [trim]. *)
Definition is_space (c : ascii) : bool :=
  let n := nat_of_ascii c in
  (n =? 32)%nat || ((9 <=? n)%nat && (n <=? 13)%nat).

(** [s.split(/\s+/)]: [cur] is the piece being read and [gap] tells that the
    previous character belonged to a separator. *)
Fixpoint split_ws (cur : string) (gap : bool) (s : string) : list string :=
  match s with
  | EmptyString => [cur]
  | String c r =>
      if is_space c
      then if gap then split_ws "" true r else cur :: split_ws "" true r
      else split_ws (cur +:+ String c "") false r
  end.

(** [s.split("\n")[0]] *)
Fixpoint first_line (s : string) : string :=
  match s with
  | EmptyString => ""
  | String c r =>
      if (nat_of_ascii c =? 10)%nat then "" else String c (first_line r)
  end.

Fixpoint trim_start (s : string) : string :=
  match s with
  | EmptyString => ""
  | String c r => if is_space c then trim_start r else s
  end.

Fixpoint trim_end (s : string) : string :=
  match s with
  | EmptyString => ""
  | String c r =>
      let r' := trim_end r in
      if is_space c && String.eqb r' "" then "" else String c r'
  end.

(** [s.trim()] *)
Definition trim (s : string) : string := trim_end (trim_start s).

(** The body of [terms.forEach] for one term. *)
Definition add_term (text safeTitle : string) (score : nat) (term : string)
  : nat :=
  if includes text term
  then
    let score := score + 1 in
    if negb (String.eqb safeTitle "") && includes (toLowerCase safeTitle) term
    then score + 2
    else score
  else score.

Definition score_of (terms : list string) (a : article) : nat :=
  let safeTitle := default "" (art_title a) in
  let safeContent := default "" (art_content a) in
  let safeTags := default [] (art_tags a) in
  let text :=
    toLowerCase (safeTitle +:+ " " +:+ safeContent +:+ " " +:+ join " " safeTags) in
  fold_left (add_term text safeTitle) terms 0.

Definition display_title (a : article) : option string :=
  let safeContent := default "" (art_content a) in
  let displayTitle := art_title a in
  if negb (truthy displayTitle) && negb (String.eqb safeContent "")
  then
    let firstLine := trim (first_line safeContent) in
    Some (if (50 <? String.length firstLine)%nat
          then String.substring 0 47 firstLine +:+ "..."
          else firstLine)
  else displayTitle.

(** The callback of [knowledge.map]. *)
Definition score_article (terms : list string) (a : article) : scored_article :=
  {| sa_article :=
       {| art_id := art_id a; art_title := display_title a;
          art_content := art_content a; art_tags := art_tags a;
          art_rest := art_rest a |};
     sa_score := score_of terms a |}.

(** [Array.prototype.sort] with a comparator.  The language guarantees a
    stable sort; for a comparator that orders by a key the stable sorted
    arrangement is unique, and insertion from the right computes it: an
    element moves past a later one only when the comparator is positive. *)
Fixpoint sort_insert {A} (cmp : A -> A -> Z) (x : A) (l : list A) : list A :=
  match l with
  | [] => [x]
  | y :: r => if (0 <? cmp x y)%Z then y :: sort_insert cmp x r else x :: l
  end.

Definition sort {A} (cmp : A -> A -> Z) (l : list A) : list A :=
  foldr (sort_insert cmp) [] l.

(** [(a, b) => b.score - a.score] *)
Definition by_score_desc (a b : scored_article) : Z :=
  (Z.of_nat (sa_score b) - Z.of_nat (sa_score a))%Z.

Definition searchKnowledge (query : option string) (w : world)
  : outcome (list scored_article) :=
  match knowledge_json w with
  | None => Returns []
  | Some knowledge =>
      match receiver query "toLowerCase" with
      | Throws e => Throws e
      | Returns q =>
          let terms := split_ws "" false (toLowerCase q) in
          let results := map (score_article terms) knowledge in
          Returns
            (take 3 (sort by_score_desc
                       (filter (fun r => 0 < sa_score r) results)))
      end
  end.

(** ** Conversation controller *)

(** A tool call of the reasoning engine.  [tc_arguments] is the value of
    [JSON.parse(toolCall.function.arguments)], [None] when parsing throws. *)
Record tool_call := {
  tc_id : string;
  tc_name : string;
  tc_arguments : option tool_args
}.

(** [response.choices[0].message]; [am_tool_calls] is [None] when the
    property is absent or null, and an array (even an empty one) otherwise. *)
Record assistant_message := {
  am_content : option string;
  am_tool_calls : option (list tool_call)
}.

(** A message of the conversation.  A tool message holds the result of the
    tool as a value, where the source holds its [JSON.stringify] image. *)
Inductive chat_message :=
| Msystem (content : string)
| Mchat (role content : string)
| Massistant (m : assistant_message)
| Mtool (tool_call_id name : string) (content : tool_result).

Inductive engine_reply :=
| EngineThrows (msg : string)
| EngineMessage (m : assistant_message).

Record tool_trace := {
  tr_name : string;
  tr_content : tool_result
}.

(** [req.body] *)
Record request := {
  req_messages : list chat_message;
  req_tenantId : option string;
  req_attachments : option (list attachment)
}.

(** What [chatHandler] sends: [res.json({...})] or
    [res.status(500).json({ error })]. *)
Inductive response :=
| Json (message : assistant_message) (toolCalls : list tool_call)
       (toolResults : list tool_trace)
| Status500 (error : string).

(** The reasoning engine as a function of the conversation it is sent. *)
Variable engine : list chat_message -> engine_reply.

(** The instruction template, with its [{{TENANT_ID}}], [{{TENANT_NAME}}] and
    [{{TENANT_UNIT}}] placeholders. *)
Variable SYSTEM_PROMPT : string.

Definition MAX_LOOPS : nat := 5.
Definition MAX_HISTORY_MESSAGES : nat := 4.

(** The text a replacement string stands for at one match of a pattern
    without capture groups: [$$] is a dollar sign, [$&] the matched text,
    [$`] the text before the match, [$'] the text after it, and any other
    character, a lone dollar sign included, stands for itself. *)
Fixpoint expand_replacement (matched before after rep : string) : string :=
  match rep with
  | EmptyString => ""
  | String c r =>
      if Ascii.eqb c "$"
      then
        match r with
        | EmptyString => String c ""
        | String d r' =>
            if Ascii.eqb d "$"
            then String "$" (expand_replacement matched before after r')
            else if Ascii.eqb d "&"
            then matched +:+ expand_replacement matched before after r'
            else if Ascii.eqb d "`"
            then before +:+ expand_replacement matched before after r'
            else if Ascii.eqb d "'"
            then after +:+ expand_replacement matched before after r'
            else String c (expand_replacement matched before after r)
        end
      else String c (expand_replacement matched before after r)
  end.

(** [s.slice(n)] *)
Fixpoint string_drop (n : nat) (s : string) : string :=
  match n, s with
  | S k, String _ r => string_drop k r
  | _, _ => s
  end.

(** [s.replace(/pat/g, rep)] for a literal, non-empty pattern, read from
    left to right: [before] is the part of the subject already read and
    [skip] counts the characters of a match still to be dropped. *)
Fixpoint replace_from (pat rep : string) (skip : nat) (before s : string)
  : string :=
  match s with
  | EmptyString => ""
  | String c r =>
      match skip with
      | S k => replace_from pat rep k (before +:+ String c "") r
      | O =>
          if String.prefix pat s
          then expand_replacement pat before
                 (string_drop (String.length pat) s) rep
               +:+ replace_from pat rep (String.length pat - 1)
                     (before +:+ String c "") r
          else String c (replace_from pat rep 0 (before +:+ String c "") r)
      end
  end.

Definition replace_all (pat rep s : string) : string :=
  replace_from pat rep 0 "" s.

(** [tenants.find((t) => t.id === tenantId) || tenants[0]], followed by the
    first read of a property of the result. *)
Definition load_tenant (tenantId : option string) (w : world) : outcome tenant :=
  match tenants_json w with
  | None => Throws (type_error "null" "find")
  | Some tenants =>
      match find (fun t => bool_decide (Some (t_id t) = tenantId)) tenants with
      | Some t => Returns t
      | None =>
          match tenants with
          | t :: _ => Returns t
          | [] => Throws (type_error "undefined" "id")
          end
      end
  end.

(** The three [replace] calls on the instruction template. *)
Definition tenant_context (t : tenant) : string :=
  replace_all "{{TENANT_UNIT}}" (t_unit t)
    (replace_all "{{TENANT_NAME}}" (t_name t)
       (replace_all "{{TENANT_ID}}" (t_id t) SYSTEM_PROMPT)).

(** [if (attachments && attachments.length > 0) systemPrompt += ...] *)
Definition with_attachments_note (attachments : option (list attachment))
    (systemPrompt : string) : string :=
  match attachments with
  | Some ((_ :: _) as l) =>
      systemPrompt +:+ String (ascii_of_nat 10) (String (ascii_of_nat 10) "") +:+
      "NOTE: The tenant has attached " +:+ pretty (length l) +:+
      " photo(s) of the issue. These photos will be automatically included in any work order you create. You don't need to mention this unless relevant to the conversation."
  | _ => systemPrompt
  end.

Definition system_prompt (t : tenant) (attachments : option (list attachment))
  : string :=
  with_attachments_note attachments (tenant_context t).

(** [messages.slice(-MAX_HISTORY_MESSAGES)] when the history is longer. *)
Definition recent_messages (messages : list chat_message) : list chat_message :=
  if (MAX_HISTORY_MESSAGES <? length messages)%nat
  then drop (length messages - MAX_HISTORY_MESSAGES) messages
  else messages.

Definition lift {A} (f : A -> tool_result) (r : outcome A * world)
  : outcome tool_result * world :=
  match r with
  | (Returns a, w) => (Returns (f a), w)
  | (Throws e, w) => (Throws e, w)
  end.

(** The [try]/[catch] around the dispatch of one tool call. *)
Definition execute_tool (t : tenant) (attachments : option (list attachment))
    (functionName : string) (args : tool_args) (w : world)
  : tool_result * world :=
  let '(attempt, w1) :=
    if String.eqb functionName "search_knowledge_base"
    then lift RArticles (searchKnowledge (arg_query args) w, w)
    else if String.eqb functionName "check_similar_issues"
    then
      let '(r, w1) :=
        check_similar_issues (with_tenant_id (Some (t_id t)) args) w in
      (Returns (RSimilar r), w1)
    else if String.eqb functionName "get_available_contractors"
    then (Returns (RContractors (get_available_contractors args w)), w)
    else if String.eqb functionName "create_work_order"
    then
      lift ROrder
        (create_work_order
           (with_attachments (Some (default [] attachments))
              (with_tenant_id (Some (t_id t)) args)) w)
    else if String.eqb functionName "get_work_orders"
    then
      (Returns
         (ROrders (get_work_orders (with_tenant_id (Some (t_id t)) args) w)),
       w)
    else if String.eqb functionName "update_work_order"
    then lift ROrder (update_work_order args w)
    else if String.eqb functionName "complete_work_order"
    then lift ROrder (complete_work_order args w)
    else if String.eqb functionName "delete_work_order"
    then lift RDeleted (delete_work_order args w)
    else (Returns (RError "Unknown tool"), w) in
  match attempt with
  | Returns result => (result, w1)
  | Throws msg => (RError msg, w1)
  end.

(** The [for] loop over the tool calls of one response.  [JSON.parse] sits
    outside the inner [try], so its exception leaves the loop. *)
Fixpoint run_tool_calls (t : tenant) (attachments : option (list attachment))
    (calls : list tool_call) (conversation : list chat_message)
    (allToolResults : list tool_trace) (w : world)
  : outcome (list chat_message * list tool_trace) * world :=
  match calls with
  | [] => (Returns (conversation, allToolResults), w)
  | toolCall :: rest =>
      let functionName := tc_name toolCall in
      match tc_arguments toolCall with
      | None => (Throws "Unexpected token in JSON", w)
      | Some args =>
          let '(result, w1) := execute_tool t attachments functionName args w in
          run_tool_calls t attachments rest
            (conversation ++ [Mtool (tc_id toolCall) functionName result])
            (allToolResults ++
               [{| tr_name := functionName; tr_content := result |}])
            w1
      end
  end.

(** The [while (loopCount < MAX_LOOPS)] loop; [remaining] is
    [MAX_LOOPS - loopCount]. *)
Fixpoint agent_loop (remaining : nat) (t : tenant)
    (attachments : option (list attachment))
    (conversation : list chat_message) (allToolCalls : list tool_call)
    (allToolResults : list tool_trace) (w : world)
  : outcome response * world :=
  match remaining with
  | O => (Returns (Status500 "Agent loop limit exceeded"), w)
  | S remaining' =>
      let w1 := count_engine_call w in
      match engine conversation with
      | EngineThrows e => (Throws e, w1)
      | EngineMessage responseMessage =>
          match am_tool_calls responseMessage with
          | None =>
              (Returns (Json responseMessage allToolCalls allToolResults), w1)
          | Some tool_calls =>
              match
                run_tool_calls t attachments tool_calls
                  (conversation ++ [Massistant responseMessage])
                  allToolResults w1
              with
              | (Throws e, w2) => (Throws e, w2)
              | (Returns (conversation', allToolResults'), w2) =>
                  agent_loop remaining' t attachments conversation'
                    (allToolCalls ++ tool_calls) allToolResults' w2
              end
          end
      end
  end.

(** The part of [chatHandler] that follows the choice of the tenant. *)
Definition turn_for (t : tenant) (req : request) (w : world)
  : outcome response * world :=
  let systemPrompt := system_prompt t (req_attachments req) in
  let conversation :=
    Msystem systemPrompt :: recent_messages (req_messages req) in
  agent_loop MAX_LOOPS t (req_attachments req) conversation [] [] w.

(** The outer [catch] of [chatHandler]. *)
Definition or_internal_error (r : outcome response * world) : response * world :=
  match r with
  | (Returns resp, w) => (resp, w)
  | (Throws _, w) => (Status500 "Internal Server Error", w)
  end.

Definition chatHandler (req : request) (w : world) : response * world :=
  or_internal_error
    match load_tenant (req_tenantId req) w with
    | Throws e => (Throws e, w)
    | Returns t => turn_for t req w
    end.


(** ** The work-order operations as a state machine *)

Inductive op :=
| OpCreate (args : tool_args)
| OpUpdate (args : tool_args)
| OpComplete (args : tool_args).

(** One operation; a thrown error is reported to the caller and leaves the
    world as the operation left it. *)
Definition apply_op (o : op) (w : world) : world :=
  match o with
  | OpCreate a => snd (create_work_order a w)
  | OpUpdate a => snd (update_work_order a w)
  | OpComplete a => snd (complete_work_order a w)
  end.

Definition run (ops : list op) (w : world) : world :=
  fold_left (fun w o => apply_op o w) ops w.

(** The status marks the order as resolved. *)
Definition resolved_status (wo : work_order) : Prop :=
  wo_status wo = Some "completed" \/ wo_status wo = Some "solved".







(** The record [update_work_order] leaves at the index it found. *)
Definition updated_record (args : tool_args) (iso : string) (wo : work_order)
  : work_order :=
  let wo := match arg_issue_summary args with
            | Some v => set_issue_summary (Some v) wo
            | None => wo
            end in
  let wo := match arg_priority args with
            | Some v => set_priority (Some v) wo
            | None => wo
            end in
  let wo := match arg_status args with
            | Some v => set_status (Some v) wo
            | None => wo
            end in
  set_updated_at (Some iso) wo.

(** The record [complete_work_order] leaves at the index it found. *)
Definition completed_record (args : tool_args) (iso1 iso2 : string)
    (wo : work_order) : work_order :=
  let wo := set_resolved_at (Some iso2)
              (set_updated_at (Some iso1) (set_status (Some "solved") wo)) in
  if truthy (arg_resolution_notes args)
  then set_resolution_notes (arg_resolution_notes args) wo
  else wo.

(** The contractor the specification designates for a raw argument: the
    first with that id, else the first whose name equals it up to case, else
    the first whose name contains it up to case. *)
Definition first_where (P : contractor -> Prop) `{forall c, Decision (P c)}
    (l : list contractor) : option contractor :=
  snd <$> list_find P l.

Definition designated_contractor (contractors : list contractor) (raw : string)
  : option contractor :=
  match first_where (fun c => c_id c = raw) contractors with
  | Some c => Some c
  | None =>
      match
        first_where (fun c => toLowerCase (c_name c) = toLowerCase raw)
                    contractors
      with
      | Some c => Some c
      | None =>
          first_where
            (fun c => includes (toLowerCase (c_name c)) (toLowerCase raw) = true)
            contractors
      end
  end.

(** The instruction template as a sequence of pieces: literal text and the
    three placeholders. *)
Inductive piece :=
| Text (s : string)
| TenantId
| TenantName
| TenantUnit.

Definition piece_text (p : piece) : string :=
  match p with
  | Text s => s
  | TenantId => "{{TENANT_ID}}"
  | TenantName => "{{TENANT_NAME}}"
  | TenantUnit => "{{TENANT_UNIT}}"
  end.

(** The template the pieces spell. *)
Definition template_of (pieces : list piece) : string :=
  foldr (fun p s => piece_text p +:+ s) "" pieces.

(** The pieces with the identity of a tenant in the place of the
    placeholders. *)
Definition filled_piece (t : tenant) (p : piece) : string :=
  match p with
  | Text s => s
  | TenantId => t_id t
  | TenantName => t_name t
  | TenantUnit => t_unit t
  end.

Definition filled_with (t : tenant) (pieces : list piece) : string :=
  foldr (fun p s => filled_piece t p +:+ s) "" pieces.

(** No character of the string is [c]. *)
Fixpoint free_of (c : ascii) (s : string) : bool :=
  match s with
  | EmptyString => true
  | String d r => negb (Ascii.eqb d c) && free_of c r
  end.

(** The literal text of a template holds no brace; a tenant property is
    plain when it holds neither a brace nor a dollar sign, the characters
    that a placeholder and a replacement pattern start with. *)
Definition plain_piece (p : piece) : bool :=
  match p with
  | Text s => free_of "{" s
  | _ => true
  end.

Definition plain_field (s : string) : bool :=
  free_of "{" s && free_of "$" s.

(** One placeholder of a template replaced by a text. *)
Definition same_placeholder (which p : piece) : bool :=
  match which, p with
  | TenantId, TenantId | TenantName, TenantName | TenantUnit, TenantUnit =>
      true
  | _, _ => false
  end.

Definition substituted (which : piece) (rep : string) (p : piece) : piece :=
  if same_placeholder which p then Text rep else p.

(** Descending order of scores. *)
Definition descending (l : list scored_article) : Prop :=
  forall i j a b, i < j -> l !! i = Some a -> l !! j = Some b ->
                  sa_score b <= sa_score a.

(** The tool implementation a name selects, applied to an argument object
    as it stands. *)
Definition call_tool (functionName : string) (args : tool_args) (w : world)
  : outcome tool_result * world :=
  if String.eqb functionName "search_knowledge_base"
  then lift RArticles (searchKnowledge (arg_query args) w, w)
  else if String.eqb functionName "check_similar_issues"
  then let '(r, w1) := check_similar_issues args w in (Returns (RSimilar r), w1)
  else if String.eqb functionName "get_available_contractors"
  then (Returns (RContractors (get_available_contractors args w)), w)
  else if String.eqb functionName "create_work_order"
  then lift ROrder (create_work_order args w)
  else if String.eqb functionName "get_work_orders"
  then (Returns (ROrders (get_work_orders args w)), w)
  else if String.eqb functionName "update_work_order"
  then lift ROrder (update_work_order args w)
  else if String.eqb functionName "complete_work_order"
  then lift ROrder (complete_work_order args w)
  else if String.eqb functionName "delete_work_order"
  then lift RDeleted (delete_work_order args w)
  else (Returns (RError "Unknown tool"), w).

(** The argument object a tool implementation is to receive: the tenant of
    the session replaces [tenant_id] for the tools that take one, and the
    attachments of the request replace those of a creation. *)
Definition dispatched_args (t : tenant) (attachments : option (list attachment))
    (functionName : string) (args : tool_args) : tool_args :=
  if String.eqb functionName "check_similar_issues"
  then with_tenant_id (Some (t_id t)) args
  else if String.eqb functionName "create_work_order"
  then with_attachments (Some (default [] attachments))
         (with_tenant_id (Some (t_id t)) args)
  else if String.eqb functionName "get_work_orders"
  then with_tenant_id (Some (t_id t)) args
  else args.

(** A thrown error becomes an error result. *)
Definition or_error_result (r : outcome tool_result * world)
  : tool_result * world :=
  match r with
  | (Returns result, w) => (result, w)
  | (Throws msg, w) => (RError msg, w)
  end.

(** The tools whose argument object carries a [tenant_id]. *)
Definition tenant_scoped (functionName : string) : Prop :=
  functionName = "check_similar_issues" \/
  functionName = "create_work_order" \/
  functionName = "get_work_orders".

(** The engine never answers without tool calls. *)
Definition always_calls_tools : Prop :=
  forall conversation, exists m tool_calls,
    engine conversation = EngineMessage m /\
    am_tool_calls m = Some tool_calls.

(** Every tool call the engine emits carries parsable arguments. *)
Definition arguments_parse : Prop :=
  forall conversation m tool_calls,
    engine conversation = EngineMessage m ->
    am_tool_calls m = Some tool_calls ->
    Forall (fun tc => is_Some (tc_arguments tc)) tool_calls.

(** [{ ...req.body, tenantId: v }] *)
Definition with_tenantId (v : option string) (req : request) : request :=
  {| req_messages := req_messages req; req_tenantId := v;
     req_attachments := req_attachments req |}.

(** ** Sample data

    A small instance of the stores and of the oracles, on which the
    definitions above can be evaluated. *)

Definition sample_clock (k : nat) : N := (1700000000000 + N.of_nat k)%N.

(** A file system that accepts every write, and one that refuses all. *)
Definition sample_disk (_ : nat) : bool := true.

Definition sample_disk_full (_ : nat) : bool := false.

Definition sample_iso (ms : N) : string := "T+" +:+ pretty ms.

Definition sample_contractors : list contractor :=
  [ {| c_id := "contractor-001"; c_name := "AquaFix Plumbing";
       c_service := Some "plumbing"; c_rest := [] |};
    {| c_id := "contractor-002"; c_name := "Bright Sparks";
       c_service := Some "electrical"; c_rest := [] |};
    {| c_id := "contractor-003"; c_name := "Bright Sparks Gas";
       c_service := Some "gas"; c_rest := [] |} ].

Definition sample_tenants : list tenant :=
  [ {| t_id := "tenant-001"; t_name := "Ada"; t_unit := "1A" |};
    {| t_id := "tenant-002"; t_name := "Grace"; t_unit := "2B" |} ].

Definition sample_article (title : option string) (content : string)
  : article :=
  {| art_id := None; art_title := title; art_content := Some content;
     art_tags := None; art_rest := [] |}.

Definition sample_knowledge : list article :=
  [ sample_article (Some "Boiler reset") "press the reset button";
    sample_article None "smoke alarm beeping means battery";
    sample_article (Some "Smoke alarm") "replace the battery";
    sample_article None "alarm panel code";
    sample_article (Some "Alarm") "call us";
    sample_article None "an alarm clock is not covered" ].

Definition sample_world : world :=
  {| tenants_json := Some sample_tenants;
     contractors_json := Some sample_contractors;
     knowledge_json := Some sample_knowledge;
     work_orders_json := None;
     ticks := 0; writes := 0; judge_calls := 0; engine_calls := 0 |}.

(** A stored order of tenant-001, as [create_work_order] writes it. *)
Definition sample_order (id status : string) : work_order :=
  {| wo_id := id; wo_tenant_id := Some "tenant-001"; wo_tenantId := None;
     wo_issue_summary := Some "kitchen tap is dripping";
     wo_issueDescription := None;
     wo_contractor_id := Some "contractor-001"; wo_contractorId := None;
     wo_contractor_name := Some "AquaFix Plumbing";
     wo_trade := Some "plumbing"; wo_priority := Some "Medium";
     wo_status := Some status; wo_created_at := Some "T+1";
     wo_createdAt := None; wo_updated_at := None; wo_resolved_at := None;
     wo_resolution_notes := None;
     wo_attachments :=
       Some [ {| att_id := "a1"; att_url := "data:1"; att_filename := "tap.jpg";
                 att_mediaType := "image/jpeg" |} ];
     wo_rest := [("scheduledDate", "tomorrow")] |}.

Definition sample_world_with_orders : world :=
  store_work_orders
    [ sample_order "wo-1" "solved"; sample_order "wo-2" "assigned" ]
    sample_world.

Definition sample_create (contractor : string) : tool_args :=
  {| arg_query := None; arg_trade := None;
     arg_tenant_id := Some "tenant-001";
     arg_new_issue_description := None;
     arg_issue_summary := Some "kitchen tap is dripping";
     arg_contractor_id := Some contractor; arg_priority := Some "Medium";
     arg_attachments := None; arg_status_filter := None;
     arg_work_order_id := None; arg_status := None;
     arg_resolution_notes := None |}.


Definition sample_check (tenant_id : string) : tool_args :=
  {| arg_query := None; arg_trade := None; arg_tenant_id := Some tenant_id;
     arg_new_issue_description := Some "faucet in kitchen leaks";
     arg_issue_summary := None; arg_contractor_id := None;
     arg_priority := None; arg_attachments := None;
     arg_status_filter := None; arg_work_order_id := None;
     arg_status := None; arg_resolution_notes := None |}.

(** A comparison call that claims similarity with an order that does not
    exist. *)
Definition sample_judge_hallucinating (_ : option string)
    (_ : list existing_issue) : judge_reply :=
  JudgeVerdict {| is_similar := true; matching_order_id := Some "wo-999";
                  reasoning := Some "same leak" |}.

(** An engine that asks for the list of work orders at every turn. *)
Definition sample_engine_busy (_ : list chat_message) : engine_reply :=
  EngineMessage
    {| am_content := None;
       am_tool_calls :=
         Some [ {| tc_id := "call-1"; tc_name := "get_work_orders";
                   tc_arguments := Some (sample_check "tenant-002") |} ] |}.

Definition sample_prompt : string :=
  "Tenant ID: {{TENANT_ID}}; Tenant: {{TENANT_NAME}}; Unit: {{TENANT_UNIT}}".

Definition sample_pieces : list piece :=
  [ Text "Tenant ID: "; TenantId; Text "; Tenant: "; TenantName;
    Text "; Unit: "; TenantUnit ].

(** A world whose tenant file holds the empty array. *)
Definition sample_world_no_tenants : world :=
  {| tenants_json := Some [];
     contractors_json := Some sample_contractors;
     knowledge_json := Some sample_knowledge;
     work_orders_json := None;
     ticks := 0; writes := 0; judge_calls := 0; engine_calls := 0 |}.

Definition sample_request (tenantId : string) : request :=
  {| req_messages := [Mchat "user" "my tap drips"];
     req_tenantId := Some tenantId; req_attachments := None |}.


(** ** The REST routes of [server.js] over the same stores *)

Definition validStatuses : list string :=
  ["assigned"; "pending"; "in_progress"; "completed"; "solved"].

(** [app.patch("/api/work-orders/:id")].  [write_ok] is the value
    [writeJSON] returns to the route, which, unlike the tools, looks at it:
    the file system decides it, and a failed write leaves the file as it
    was. *)
Definition patch_work_order (write_ok : bool) (workOrderId : string)
    (status : option string) (w : world)
  : route_response work_order * world :=
  let workOrders := read_work_orders w in
  if negb (truthy status)
  then (Failed 400 "Status is required", w)
  else if negb (bool_decide (js_str status ∈ validStatuses))
  then
    (Failed 400
       ("Invalid status. Must be one of: " +:+ join ", " validStatuses), w)
  else
    match list_find (has_id (Some workOrderId)) workOrders with
    | None => (Failed 404 "Work order not found", w)
    | Some (orderIndex, _) =>
        let workOrders := alter (set_status status) orderIndex workOrders in
        let (iso1, w1) := Date_toISOString w in
        let workOrders :=
          alter (set_updated_at (Some iso1)) orderIndex workOrders in
        let '(workOrders, w2) :=
          if bool_decide (status = Some "solved" \/ status = Some "completed")
          then
            let (iso2, w2) := Date_toISOString w1 in
            (alter (set_resolved_at (Some iso2)) orderIndex workOrders, w2)
          else (workOrders, w1) in
        if write_ok
        then
          let w3 := store_work_orders workOrders w2 in
          match workOrders !! orderIndex with
          | Some wo => (Sent wo, w3)
          | None => (Failed 500 (assignment_error "status"), w)
          end
        else (Failed 500 "Failed to update work order", w2)
    end.

(** A further property of a stored order, read from [wo_rest]. *)
Definition rest_property (key : string) (wo : work_order) : option string :=
  snd <$> find (fun p => String.eqb (fst p) key) (wo_rest wo).

(** One element of the list sent by [GET /api/work-orders/:tenantId];
    [None] stands for both an absent property and [null]. *)
Record order_listing := {
  ol_id : string;
  ol_tenant_id : option string;
  ol_issue_summary : option string;
  ol_contractor_id : option string;
  ol_contractor_name : option string;
  ol_trade : option string;
  ol_priority : option string;
  ol_status : option string;
  ol_created_at : option string;
  ol_scheduled_date : option string;
  ol_scheduled_time : option string;
  ol_attachments : list attachment
}.

Definition listing_of (wo : work_order) : order_listing :=
  {| ol_id := wo_id wo;
     ol_tenant_id := js_or (wo_tenant_id wo) (wo_tenantId wo);
     ol_issue_summary := js_or (wo_issue_summary wo) (wo_issueDescription wo);
     ol_contractor_id := js_or (wo_contractor_id wo) (wo_contractorId wo);
     ol_contractor_name := js_or (wo_contractor_name wo) None;
     ol_trade := js_or (wo_trade wo) None;
     ol_priority := wo_priority wo;
     ol_status := wo_status wo;
     ol_created_at := js_or (wo_created_at wo) (wo_createdAt wo);
     ol_scheduled_date := js_or (rest_property "scheduledDate" wo) None;
     ol_scheduled_time := js_or (rest_property "scheduledTime" wo) None;
     ol_attachments := default [] (wo_attachments wo) |}.

(** [app.get("/api/work-orders/:tenantId")] *)
Definition list_work_orders_route (tenantId : string) (w : world)
  : list order_listing :=
  let workOrders := read_work_orders w in
  let tenantOrders :=
    filter (fun wo => wo_tenant_id wo = Some tenantId \/
                      wo_tenantId wo = Some tenantId) workOrders in
  map listing_of tenantOrders.

(** [app.get("/api/tenants/:id")]; a missing tenant file makes
    [tenants.find] throw. *)
Definition get_tenant_route (id : string) (w : world)
  : outcome (route_response tenant) :=
  match tenants_json w with
  | None => Throws (type_error "null" "find")
  | Some tenants =>
      match find (fun t => bool_decide (t_id t = id)) tenants with
      | Some t => Returns (Sent t)
      | None => Returns (Failed 404 "Tenant not found")
      end
  end.

(** ** Notions used by the further properties *)

(** A tool result holds no attachment payload. *)
Definition without_payload (r : tool_result) : Prop :=
  match r with
  | ROrder o => wo_attachments (ov_order o) = None
  | RDeleted d => wo_attachments (ov_order (deleted_order d)) = None
  | _ => True
  end.

(** The tools that write the work-order store. *)
Definition writes_orders (functionName : string) : Prop :=
  functionName = "create_work_order" \/
  functionName = "update_work_order" \/
  functionName = "complete_work_order" \/
  functionName = "delete_work_order".

(** The tools that address an order by its id alone. *)
Definition addressed_by_id (functionName : string) : Prop :=
  functionName = "update_work_order" \/
  functionName = "complete_work_order" \/
  functionName = "delete_work_order".

(** [{ ...args, work_order_id: v }] on the empty argument object. *)
Definition by_id (id : option string) : tool_args :=
  {| arg_query := None; arg_trade := None; arg_tenant_id := None;
     arg_new_issue_description := None; arg_issue_summary := None;
     arg_contractor_id := None; arg_priority := None;
     arg_attachments := None; arg_status_filter := None;
     arg_work_order_id := id; arg_status := None;
     arg_resolution_notes := None |}.

(** The stores a turn only reads. *)
Definition same_reference_data (w w' : world) : Prop :=
  tenants_json w' = tenants_json w /\
  contractors_json w' = contractors_json w /\
  knowledge_json w' = knowledge_json w.

(** The query terms of [searchKnowledge]. *)
Definition terms_of (q : string) : list string :=
  split_ws "" false (toLowerCase q).

(** The haystack of [searchKnowledge] for one article. *)
Definition text_of (a : article) : string :=
  toLowerCase (default "" (art_title a) +:+ " " +:+
               default "" (art_content a) +:+ " " +:+
               join " " (default [] (art_tags a))).

(** A term occurs in the (non-empty) title of an article. *)
Definition in_title (a : article) (term : string) : bool :=
  negb (String.eqb (default "" (art_title a)) "") &&
  includes (toLowerCase (default "" (art_title a))) term.

(** The object literal [newOrder] of [create_work_order] for the contractor
    found, at the clock readings of the world. *)
Definition created_record (args : tool_args) (c : contractor) (w : world)
  : work_order :=
  {| wo_id := "wo-" +:+ pretty (clock (ticks w));
     wo_tenant_id := arg_tenant_id args;
     wo_tenantId := None;
     wo_issue_summary := arg_issue_summary args;
     wo_issueDescription := None;
     wo_contractor_id := Some (c_id c);
     wo_contractorId := None;
     wo_contractor_name := Some (c_name c);
     wo_trade := c_service c;
     wo_priority := arg_priority args;
     wo_status := Some "assigned";
     wo_created_at := Some (toISOString (clock (S (ticks w))));
     wo_createdAt := None;
     wo_updated_at := None;
     wo_resolved_at := None;
     wo_resolution_notes := None;
     wo_attachments := Some (default [] (arg_attachments args));
     wo_rest := [] |}.

(** Between two worlds, nothing but the work-order store and the clock
    reading count may differ. *)
Definition touches_only_orders (w w' : world) : Prop :=
  same_reference_data w w' /\
  judge_calls w' = judge_calls w /\
  engine_calls w' = engine_calls w.

(** The points one query term brings to an article. *)
Definition term_points (a : article) (term : string) : nat :=
  if in_title a term then 3
  else if includes (text_of a) term then 1
  else 0.

(** What identifies a stored order and is fixed at its creation. *)
Definition identity_of (wo : work_order)
  : string * option string * option string * option string
    * option (list attachment) :=
  (wo_id wo, wo_tenant_id wo, wo_contractor_id wo, wo_created_at wo,
   wo_attachments wo).

(** The status is one the REST route accepts. *)
Definition valid_status (status : option string) : Prop :=
  exists s, status = Some s /\ s ∈ validStatuses.

(** Further sample oracles and requests. *)

(** A clock that stands still. *)
Definition sample_frozen_clock (_ : nat) : N := 1700000000000%N.

(** A comparison call that recognises the order [wo-2]. *)
Definition sample_judge_matching (_ : option string)
    (_ : list existing_issue) : judge_reply :=
  JudgeVerdict {| is_similar := true; matching_order_id := Some "wo-2";
                  reasoning := Some "same tap" |}.

Definition sample_create_call : tool_call :=
  {| tc_id := "call-1"; tc_name := "create_work_order";
     tc_arguments := Some (sample_create "contractor-001") |}.

Definition sample_broken_call : tool_call :=
  {| tc_id := "call-2"; tc_name := "get_work_orders";
     tc_arguments := None |}.

(** An engine that asks for one creation and then answers. *)
Definition sample_engine_once (conversation : list chat_message)
  : engine_reply :=
  if (length conversation <=? 2)%nat
  then EngineMessage {| am_content := None;
                        am_tool_calls := Some [sample_create_call] |}
  else EngineMessage {| am_content := Some "Your work order is booked.";
                        am_tool_calls := None |}.

(** An engine whose second tool call has arguments that do not parse. *)
Definition sample_engine_broken (_ : list chat_message) : engine_reply :=
  EngineMessage
    {| am_content := None;
       am_tool_calls := Some ([sample_create_call] ++
                              sample_broken_call :: []) |}.

Definition sample_history : list chat_message :=
  [ Mchat "user" "hello"; Mchat "assistant" "hi";
    Mchat "user" "my tap drips"; Mchat "assistant" "since when?";
    Mchat "user" "since monday" ].

Definition sample_listing (tenant_id status_filter : string) : tool_args :=
  {| arg_query := None; arg_trade := None; arg_tenant_id := Some tenant_id;
     arg_new_issue_description := None; arg_issue_summary := None;
     arg_contractor_id := None; arg_priority := None;
     arg_attachments := None; arg_status_filter := Some status_filter;
     arg_work_order_id := None; arg_status := None;
     arg_resolution_notes := None |}.

(** ** General lemmas *)

Lemma alter_as_insert {A} (f : A -> A) (l : list A) i x :
  l !! i = Some x -> alter f i l = <[i := f x]> l.
Proof.
  intros Hx. apply list_eq. intros j.
  destruct (decide (i = j)) as [->|Hne].
  - rewrite list_lookup_alter_eq, Hx. simpl.
    symmetry. apply list_lookup_insert_eq. eapply lookup_lt_Some; eauto.
  - rewrite list_lookup_alter_ne, list_lookup_insert_ne; auto.
Qed.

Lemma list_find_lookup {A} (P : A -> Prop) `{forall x, Decision (P x)}
    (l : list A) i x :
  list_find P l = Some (i, x) -> l !! i = Some x /\ P x.
Proof.
  intros Hf. apply list_find_Some in Hf as (Hi & HP & _).
  split; assumption.
Qed.

Lemma read_stored (w : world) (l : list work_order) :
  work_orders_json w = Some l -> read_work_orders w = l.
Proof. unfold read_work_orders. intros ->. reflexivity. Qed.

Lemma read_stored_orders (l : list work_order) (w : world) :
  read_work_orders (store_work_orders l w) = l.
Proof. reflexivity. Qed.

Lemma read_after_write (l : list work_order) (w : world) :
  disk (writes w) = true ->
  read_work_orders (snd (writeJSON_work_orders l w)) = l.
Proof. intros H. unfold writeJSON_work_orders. rewrite H. reflexivity. Qed.

Lemma read_after_refused_write (l : list work_order) (w : world) :
  disk (writes w) = false ->
  read_work_orders (snd (writeJSON_work_orders l w)) = read_work_orders w.
Proof. intros H. unfold writeJSON_work_orders. rewrite H. reflexivity. Qed.

Lemma read_written (l : list work_order) (w : world) :
  read_work_orders (snd (writeJSON_work_orders l w))
  = if disk (writes w) then l else read_work_orders w.
Proof. unfold writeJSON_work_orders. destruct (disk (writes w)); reflexivity. Qed.

Lemma stored_after_write (l : list work_order) (w : world) :
  work_orders_json (snd (writeJSON_work_orders l w))
  = if disk (writes w) then Some l else work_orders_json w.
Proof. unfold writeJSON_work_orders. destruct (disk (writes w)); reflexivity. Qed.

Lemma writes_after_write (l : list work_order) (w : world) :
  writes (snd (writeJSON_work_orders l w)) = S (writes w).
Proof. unfold writeJSON_work_orders. destruct (disk (writes w)); reflexivity. Qed.

Lemma writeJSON_touches (l : list work_order) (w : world) :
  touches_only_orders w (snd (writeJSON_work_orders l w)) /\
  ticks (snd (writeJSON_work_orders l w)) = ticks w.
Proof.
  unfold writeJSON_work_orders. destruct (disk (writes w)); repeat split.
Qed.

Lemma update_found args w i wo :
  list_find (has_id (arg_work_order_id args)) (read_work_orders w)
    = Some (i, wo) ->
  let wo' := updated_record args (toISOString (clock (ticks w))) wo in
  update_work_order args w =
    (Returns (view_of wo'),
     snd (writeJSON_work_orders (<[i := wo']> (read_work_orders w)) (tick w))).
Proof.
  intros Hf wo'. pose proof (list_find_lookup _ _ _ _ Hf) as [Hi _].
  assert (Hlt : i < length (read_work_orders w))
    by (eapply lookup_lt_Some; eauto).
  unfold update_work_order. rewrite Hf. cbn [Date_toISOString].
  set (final := alter _ i _).
  assert (Hfinal : final = <[i := wo']> (read_work_orders w)).
  { subst final wo'. unfold updated_record.
    destruct (arg_issue_summary args), (arg_priority args), (arg_status args);
      rewrite ?list_alter_alter_eq;
      (erewrite alter_as_insert by eassumption); reflexivity. }
  rewrite Hfinal, list_lookup_insert_eq by assumption. reflexivity.
Qed.

Lemma update_missing args w :
  list_find (has_id (arg_work_order_id args)) (read_work_orders w) = None ->
  update_work_order args w =
    (Throws (not_found_message (arg_work_order_id args)), w).
Proof. intros Hf. unfold update_work_order. rewrite Hf. reflexivity. Qed.

Lemma complete_found args w i wo :
  list_find (has_id (arg_work_order_id args)) (read_work_orders w)
    = Some (i, wo) ->
  let wo' := completed_record args (toISOString (clock (ticks w)))
               (toISOString (clock (S (ticks w)))) wo in
  complete_work_order args w =
    (Returns (view_of wo'),
     snd (writeJSON_work_orders (<[i := wo']> (read_work_orders w))
            (tick (tick w)))).
Proof.
  intros Hf wo'. pose proof (list_find_lookup _ _ _ _ Hf) as [Hi _].
  assert (Hlt : i < length (read_work_orders w))
    by (eapply lookup_lt_Some; eauto).
  unfold complete_work_order. rewrite Hf. cbn [Date_toISOString].
  set (final := if truthy _ then _ else _).
  assert (Hfinal : final = <[i := wo']> (read_work_orders w)).
  { subst final wo'. unfold completed_record.
    destruct (truthy (arg_resolution_notes args));
      rewrite ?list_alter_alter_eq;
      (erewrite alter_as_insert by eassumption); reflexivity. }
  rewrite Hfinal, list_lookup_insert_eq by assumption. reflexivity.
Qed.

Lemma complete_missing args w :
  list_find (has_id (arg_work_order_id args)) (read_work_orders w) = None ->
  complete_work_order args w =
    (Throws (not_found_message (arg_work_order_id args)), w).
Proof. intros Hf. unfold complete_work_order. rewrite Hf. reflexivity. Qed.


Lemma list_find_absent {A} (P : A -> Prop) `{forall x, Decision (P x)}
    (l : list A) :
  (forall x, x ∈ l -> ~ P x) -> list_find P l = None.
Proof. intros Hno. apply list_find_None, Forall_forall. exact Hno. Qed.

(** ** complete_work_order *)


(** ** update_work_order *)


(** ** create_work_order *)

Lemma find_first_where {A} (b : A -> bool) (P : A -> Prop)
    `{forall x, Decision (P x)} (l : list A) :
  (forall x, b x = true <-> P x) ->
  find b l = snd <$> list_find P l.
Proof.
  intros Hb. induction l as [|x l IH]; [reflexivity|].
  cbn [find list_find]. destruct (b x) eqn:Hx.
  - rewrite decide_True by (apply Hb; exact Hx). reflexivity.
  - rewrite decide_False
      by (intros HP; apply Hb in HP; rewrite HP in Hx; discriminate).
    rewrite IH. destruct (list_find P l) as [[j y]|]; reflexivity.
Qed.

Lemma find_throwing_total {A} (b : A -> bool) (l : list A) :
  find_throwing (fun x => Returns (b x)) l = Returns (find b l).
Proof.
  induction l as [|x l IH]; [reflexivity|].
  cbn [find_throwing find]. destruct (b x); [reflexivity|exact IH].
Qed.

Lemma find_contractor_designated (contractors : list contractor) (raw : string) :
  find_contractor contractors (Some raw)
  = Returns (designated_contractor contractors raw).
Proof.
  unfold find_contractor, designated_contractor, first_where.
  cbn [receiver]. rewrite !find_throwing_total.
  rewrite (find_first_where _ (fun c => c_id c = raw)).
  2:{ intros c. rewrite bool_decide_eq_true.
      split; [intros [= ->]; reflexivity | intros ->; reflexivity]. }
  rewrite (find_first_where _
             (fun c => toLowerCase (c_name c) = toLowerCase raw))
    by (intros c; apply String.eqb_eq).
  rewrite (find_first_where _
             (fun c => includes (toLowerCase (c_name c)) (toLowerCase raw)
                       = true))
    by (intros c; reflexivity).
  destruct (list_find (fun c => c_id c = raw) contractors) as [[? ?]|];
    [reflexivity|].
  cbn [fmap option_fmap option_map].
  destruct (list_find _ contractors) as [[? ?]|]; reflexivity.
Qed.

Lemma first_where_elem (P : contractor -> Prop) `{forall c, Decision (P c)}
    (l : list contractor) (c : contractor) :
  first_where P l = Some c -> c ∈ l /\ P c.
Proof.
  unfold first_where. destruct (list_find P l) as [[i y]|] eqn:Hf;
    [|discriminate].
  cbn. intros [= ->]. apply list_find_Some in Hf as (Hi & HP & _).
  split; [eapply list_elem_of_lookup_2; eauto | exact HP].
Qed.

Lemma designated_contractor_elem (contractors : list contractor) raw c :
  designated_contractor contractors raw = Some c -> c ∈ contractors.
Proof.
  unfold designated_contractor. intros Hd.
  destruct (first_where (fun c => c_id c = raw) contractors) eqn:H1.
  { injection Hd as ->. destruct (first_where_elem _ _ _ H1); assumption. }
  destruct (first_where (fun c => toLowerCase (c_name c) = toLowerCase raw)
              contractors) eqn:H2.
  { injection Hd as ->. destruct (first_where_elem _ _ _ H2); assumption. }
  destruct (first_where_elem _ _ _ Hd); assumption.
Qed.

(** C3. For a contractor argument [raw], the contractor is looked up by id,
    then by name up to case, then by part of the name up to case, the first
    hit of the first successful step winning.  When a step succeeds with
    contractor [c], an element of the contractor store, the call returns
    and hands to [writeJSON] the collection grown by exactly one record,
    whose contractor id and name are those of [c] and whose legacy
    contractor property is absent; this is the collection stored when the
    write is accepted, and when the write is refused nothing is stored.
    When no step succeeds the call throws and the world is unchanged. *)
Theorem create_work_order_resolves_contractor (args : tool_args) (w : world)
    (raw : string) :
  arg_contractor_id args = Some raw ->
  let contractors := default [] (contractors_json w) in
  match designated_contractor contractors raw with
  | Some c =>
      exists newOrder view w',
        create_work_order args w = (Returns view, w') /\
        work_orders_json w' =
          (if disk (writes w)
           then Some (read_work_orders w ++ [newOrder])
           else work_orders_json w) /\
        c ∈ contractors /\
        wo_contractor_id newOrder = Some (c_id c) /\
        wo_contractor_name newOrder = Some (c_name c) /\
        wo_contractorId newOrder = None /\
        wo_trade newOrder = c_service c /\
        wo_tenant_id newOrder = arg_tenant_id args /\
        wo_status newOrder = Some "assigned" /\
        ov_order view = without_attachments newOrder
  | None =>
      create_work_order args w =
        (Throws (contractor_not_found contractors (Some raw)), w)
  end.
Proof.
  intros Hraw contractors. unfold create_work_order.
  rewrite Hraw, find_contractor_designated. fold contractors.
  destruct (designated_contractor contractors raw) as [c|] eqn:Hd;
    [|reflexivity].
  cbn [Date_now Date_toISOString].
  eexists _, _, _. split; [reflexivity|].
  split; [exact (stored_after_write _ _)|].
  split; [eapply designated_contractor_elem; eauto|].
  cbn. auto 10.
Qed.

(** Whatever the arguments, a failing [create_work_order] stores nothing. *)
Lemma create_work_order_failure_atomic (args : tool_args) (w : world) e w' :
  create_work_order args w = (Throws e, w') -> w' = w.
Proof.
  unfold create_work_order.
  destruct (find_contractor _ _) as [[c|]|]; cbn; congruence.
Qed.

(** ** Status and timestamps *)

(** What one operation does to the stored collection: nothing (the call
    throws, or the write is refused), or the effect of the tool. *)
Lemma apply_op_cases (o : op) (w : world) :
  read_work_orders (apply_op o w) = read_work_orders w \/
  (exists a c,
     o = OpCreate a /\
     read_work_orders (apply_op o w)
     = read_work_orders w ++ [created_record a c w]) \/
  (exists a i wo,
     o = OpUpdate a /\
     list_find (has_id (arg_work_order_id a)) (read_work_orders w)
       = Some (i, wo) /\
     read_work_orders (apply_op o w)
     = <[i := updated_record a (toISOString (clock (ticks w))) wo]>
         (read_work_orders w)) \/
  (exists a i wo,
     o = OpComplete a /\
     list_find (has_id (arg_work_order_id a)) (read_work_orders w)
       = Some (i, wo) /\
     read_work_orders (apply_op o w)
     = <[i := completed_record a (toISOString (clock (ticks w)))
                 (toISOString (clock (S (ticks w)))) wo]>
         (read_work_orders w)).
Proof.
  destruct o as [a|a|a]; cbn [apply_op].
  - unfold create_work_order.
    destruct (find_contractor _ _) as [[c|]|]; [|left; reflexivity..].
    cbn [Date_now Date_toISOString snd]. rewrite read_written.
    change (writes (tick (tick w))) with (writes w).
    destruct (disk (writes w)); [|left; reflexivity].
    right. left. exists a, c. split; reflexivity.
  - destruct (list_find (has_id (arg_work_order_id a)) (read_work_orders w))
      as [[i wo]|] eqn:Hf.
    + rewrite (update_found a w i wo Hf). cbn [snd]. rewrite read_written.
      change (writes (tick w)) with (writes w).
      destruct (disk (writes w)); [|left; reflexivity].
      right. right. left. exists a, i, wo. split; [reflexivity|]. split; [exact Hf|reflexivity].
    + rewrite (update_missing a w Hf). left. reflexivity.
  - destruct (list_find (has_id (arg_work_order_id a)) (read_work_orders w))
      as [[i wo]|] eqn:Hf.
    + rewrite (complete_found a w i wo Hf). cbn [snd]. rewrite read_written.
      change (writes (tick (tick w))) with (writes w).
      destruct (disk (writes w)); [|left; reflexivity].
      right. right. right. exists a, i, wo. split; [reflexivity|]. split; [exact Hf|reflexivity].
    + rewrite (complete_missing a w Hf). left. reflexivity.
Qed.











(** ** check_similar_issues *)

Lemma filter_none {A} (P : A -> Prop) `{forall x, Decision (P x)} (l : list A) :
  (forall x, x ∈ l -> ~ P x) -> filter P l = [].
Proof.
  induction l as [|x l IH]; intros Hno; [reflexivity|].
  rewrite filter_cons_False by (apply Hno; left).
  apply IH. intros y Hy. apply Hno. right. exact Hy.
Qed.

Lemma find_issue_none (id : string) (active : list work_order) :
  (forall wo, wo ∈ active -> wo_id wo <> id) ->
  find (fun o => bool_decide (Some (ei_id o) = Some id)) (map issue_of active)
  = None.
Proof.
  induction active as [|wo l IH]; intros Hno; [reflexivity|].
  cbn [map find issue_of ei_id].
  rewrite bool_decide_eq_false_2.
  - apply IH. intros y Hy. apply Hno. right. exact Hy.
  - intros [= Heq]. apply (Hno wo); [left|exact Heq].
Qed.

(** C8. When no stored work order is an active order of the tenant (tenant
    read from [tenant_id] or else [tenantId], status compared up to case with
    assigned, pending and in_progress), the duplicate check answers
    [has_similar: false] with a count of zero and leaves the world as it
    found it: in particular the counter of secondary reasoning calls has not
    moved, whatever the oracle is. *)
Theorem check_similar_issues_fast_path (args : tool_args) (w : world) :
  (forall wo, wo ∈ read_work_orders w ->
              ~ is_active_for (arg_tenant_id args) wo) ->
  exists r,
    check_similar_issues args w = (r, w) /\
    has_similar r = false /\
    similar_order r = None /\
    error r = None /\
    active_orders_count r = Some 0 /\
    judge_calls (snd (check_similar_issues args w)) = judge_calls w.
Proof.
  intros Hno. unfold check_similar_issues.
  rewrite (filter_none _ _ Hno). cbn [length Nat.eqb].
  eexists. split; [reflexivity|]. cbn. auto 6.
Qed.

(** With an active order the secondary reasoning call is made exactly once. *)
Lemma check_similar_issues_slow_path (args : tool_args) (w : world) :
  filter (is_active_for (arg_tenant_id args)) (read_work_orders w) <> [] ->
  judge_calls (snd (check_similar_issues args w)) = S (judge_calls w).
Proof.
  intros Hne. unfold check_similar_issues, compareIssuesWithLLM.
  destruct (filter _ _) as [|wo l]; [congruence|]. cbn [length Nat.eqb].
  destruct (judge _ _) as [e|v]; [reflexivity|].
  destruct (is_similar v && truthy (matching_order_id v));
    [destruct (find _ _)|]; reflexivity.
Qed.

(** C2. The tenant has at least one active order.  If the secondary
    reasoning call throws, or if its verdict claims similarity and names a
    non-empty [matching_order_id] that is the id of no active order, the
    check answers [has_similar: false], with the [error] property set, the
    count of the active orders and their (id, summary, trade) list; the
    call has been made once. *)
Theorem check_similar_issues_fails_open (args : tool_args) (w : world) :
  let active :=
    filter (is_active_for (arg_tenant_id args)) (read_work_orders w) in
  let existing := map issue_of active in
  active <> [] ->
  ((exists e,
      judge (arg_new_issue_description args) existing = JudgeThrows e) \/
   (exists v id,
      judge (arg_new_issue_description args) existing = JudgeVerdict v /\
      is_similar v = true /\
      matching_order_id v = Some id /\ id <> "" /\
      forall wo, wo ∈ active -> wo_id wo <> id)) ->
  exists r w',
    check_similar_issues args w = (r, w') /\
    has_similar r = false /\
    similar_order r = None /\
    error r = Some "Could not perform semantic comparison" /\
    active_orders_count r = Some (length active) /\
    existing_issues r = Some (map brief_of existing) /\
    judge_calls w' = S (judge_calls w).
Proof.
  intros active existing Hne Hjudge.
  unfold check_similar_issues, compareIssuesWithLLM. fold active. fold existing.
  destruct active as [|wo0 rest] eqn:Hact; [congruence|].
  cbn [length Nat.eqb].
  destruct Hjudge as [[e ->]|(v & id & -> & Hsim & Hid & Hnonempty & Hno)].
  - eexists _, _. split; [reflexivity|]. cbn. auto 7.
  - rewrite Hsim, Hid. cbn [truthy andb].
    assert (Hne' : String.eqb id "" = false) by (apply String.eqb_neq; exact Hnonempty).
    rewrite Hne'. cbn [negb].
    subst existing. rewrite (find_issue_none id _ Hno).
    eexists _, _. split; [reflexivity|]. cbn. auto 7.
Qed.

(** ** searchKnowledge *)

Lemma sort_insert_perm (x : scored_article) (l : list scored_article) :
  sort_insert by_score_desc x l ≡ₚ x :: l.
Proof.
  induction l as [|y r IH]; [reflexivity|].
  cbn [sort_insert]. destruct (0 <? by_score_desc x y)%Z; [|reflexivity].
  rewrite IH. apply Permutation_swap.
Qed.

Lemma sort_perm (l : list scored_article) : sort by_score_desc l ≡ₚ l.
Proof.
  induction l as [|x l IH]; [reflexivity|].
  cbn [sort foldr]. rewrite sort_insert_perm. fold (sort by_score_desc l).
  rewrite IH. reflexivity.
Qed.

Lemma sort_insert_sorted (x : scored_article) (l : list scored_article) :
  StronglySorted (fun a b => sa_score b <= sa_score a) l ->
  StronglySorted (fun a b => sa_score b <= sa_score a)
                 (sort_insert by_score_desc x l).
Proof.
  induction l as [|y r IH]; intros Hs.
  - cbn. repeat constructor.
  - inversion Hs as [|? ? Hr Hy]; subst. cbn [sort_insert].
    unfold by_score_desc at 1.
    destruct (Z.ltb_spec 0 (Z.of_nat (sa_score y) - Z.of_nat (sa_score x))).
    + constructor; [apply IH; exact Hr|].
      rewrite sort_insert_perm. constructor; [lia|exact Hy].
    + constructor; [exact Hs|].
      constructor; [lia|].
      eapply Forall_impl; [exact Hy|]. cbn. intros z Hz. lia.
Qed.

Lemma sort_sorted (l : list scored_article) :
  StronglySorted (fun a b => sa_score b <= sa_score a) (sort by_score_desc l).
Proof.
  induction l as [|x l IH]; [constructor|].
  cbn [sort foldr]. apply sort_insert_sorted. exact IH.
Qed.

Lemma sorted_descending (l : list scored_article) :
  StronglySorted (fun a b => sa_score b <= sa_score a) l -> descending l.
Proof.
  intros Hs. induction Hs as [|x l Hl IH Hx]; intros i j a b Hij Hi Hj.
  - rewrite lookup_nil in Hi. discriminate.
  - destruct j as [|j]; [lia|]. cbn in Hj.
    destruct i as [|i].
    + cbn in Hi. injection Hi as ->.
      apply (proj1 (Forall_forall _ _) Hx).
      eapply list_elem_of_lookup_2; eauto.
    + cbn in Hi. apply (IH i j); [lia|assumption..].
Qed.

Lemma descending_take (n : nat) (l : list scored_article) :
  descending l -> descending (take n l).
Proof.
  intros Hd i j a b Hij Hi Hj.
  apply lookup_take_Some in Hi as [Hi _].
  apply lookup_take_Some in Hj as [Hj _].
  exact (Hd i j a b Hij Hi Hj).
Qed.

(** Sorting does not disturb the relative order of equal scores. *)
Lemma sort_insert_stable (s : nat) (x : scored_article)
    (l : list scored_article) :
  filter (fun r => sa_score r = s) (sort_insert by_score_desc x l)
  = filter (fun r => sa_score r = s) (x :: l).
Proof.
  induction l as [|y r IH]; [reflexivity|].
  cbn [sort_insert]. unfold by_score_desc at 1.
  destruct (Z.ltb_spec 0 (Z.of_nat (sa_score y) - Z.of_nat (sa_score x)));
    [|reflexivity].
  rewrite (filter_cons _ y), IH, !(filter_cons _ x), (filter_cons _ y).
  destruct (decide (sa_score y = s)), (decide (sa_score x = s));
    try reflexivity.
  lia.
Qed.

Lemma sort_stable (s : nat) (l : list scored_article) :
  filter (fun r => sa_score r = s) (sort by_score_desc l)
  = filter (fun r => sa_score r = s) l.
Proof.
  induction l as [|x l IH]; [reflexivity|].
  cbn [sort foldr]. rewrite sort_insert_stable. fold (sort by_score_desc l).
  rewrite !(filter_cons _ x), IH. reflexivity.
Qed.

Lemma filter_take_prefix {A} (P : A -> Prop) `{forall x, Decision (P x)}
    (n : nat) (l : list A) :
  filter P (take n l) `prefix_of` filter P l.
Proof.
  rewrite <- (take_drop n l) at 2. rewrite filter_app.
  apply prefix_app_r. reflexivity.
Qed.

Lemma filter_positive_score (s : nat) (l : list scored_article) :
  filter (fun r => sa_score r = s) (filter (fun r => 0 < sa_score r) l)
  `prefix_of` filter (fun r => sa_score r = s) l.
Proof.
  destruct s as [|k].
  - rewrite filter_none; [apply prefix_nil|].
    intros r Hr. apply list_elem_of_filter in Hr. lia.
  - replace (filter (fun r => sa_score r = S k)
               (filter (fun r => 0 < sa_score r) l))
      with (filter (fun r => sa_score r = S k) l); [reflexivity|].
    induction l as [|x l IH]; [reflexivity|].
    rewrite (filter_cons (fun r => 0 < sa_score r) x l).
    destruct (decide (0 < sa_score x)) as [Hp|Hp];
      rewrite !(filter_cons (fun r => sa_score r = S k) x);
      destruct (decide (sa_score x = S k)) as [Hs|Hs];
      first [ lia | rewrite IH; reflexivity | exact IH ].
Qed.

(** C7. For every query string and every corpus the search returns, and
    what it returns has at most 3 entries, each of them a scored article of
    the corpus with a score above zero; scores never increase along the
    result; and for each score value the returned articles with that score
    are, in this order, the first ones of the corpus with that score. *)
Theorem searchKnowledge_top3 (q : string) (w : world) :
  let terms := split_ws "" false (toLowerCase q) in
  let corpus := map (score_article terms) (default [] (knowledge_json w)) in
  exists results,
    searchKnowledge (Some q) w = Returns results /\
    length results <= 3 /\
    Forall (fun r => 0 < sa_score r) results /\
    descending results /\
    (forall r, r ∈ results -> r ∈ corpus) /\
    (forall s, filter (fun r => sa_score r = s) results
               `prefix_of` filter (fun r => sa_score r = s) corpus).
Proof.
  intros terms corpus. unfold searchKnowledge.
  destruct (knowledge_json w) as [knowledge|] eqn:Hk.
  2:{ exists []. split; [reflexivity|]. cbn.
      split; [lia|]. split; [constructor|].
      split; [intros i j a b _ Hi; rewrite lookup_nil in Hi; discriminate|].
      split; [intros r Hr; inversion Hr|].
      intros s. apply prefix_nil. }
  cbn [receiver]. fold terms. eexists. split; [reflexivity|].
  subst corpus. cbn [default from_option id].
  set (scored := map (score_article terms) knowledge).
  set (kept := filter (fun r => 0 < sa_score r) scored).
  split; [rewrite length_take; lia|].
  assert (Hpos : Forall (fun r => 0 < sa_score r) (sort by_score_desc kept)).
  { rewrite sort_perm. apply Forall_forall. intros r Hr.
    apply list_elem_of_filter in Hr. exact (proj1 Hr). }
  split; [apply Forall_take; exact Hpos|].
  split; [apply descending_take, sorted_descending, sort_sorted|].
  split.
  { intros r Hr. apply (subseteq_take 3) in Hr.
    rewrite sort_perm in Hr. apply list_elem_of_filter in Hr.
    exact (proj2 Hr). }
  intros s. etransitivity; [apply filter_take_prefix|].
  rewrite sort_stable. apply filter_positive_score.
Qed.

(** ** The controller *)

Lemma with_tenant_id_agree (v : option string) (a1 a2 : tool_args) :
  with_tenant_id None a1 = with_tenant_id None a2 ->
  with_tenant_id v a1 = with_tenant_id v a2.
Proof.
  unfold with_tenant_id. intros Heq. injection Heq. intros. congruence.
Qed.

Lemma execute_tool_dispatch t attachments functionName args w :
  execute_tool t attachments functionName args w
  = or_error_result
      (call_tool functionName
         (dispatched_args t attachments functionName args) w).
Proof.
  unfold execute_tool, call_tool, dispatched_args, or_error_result.
  repeat match goal with
         | |- context [String.eqb functionName ?y] =>
             destruct (String.eqb_spec functionName y) as [->|?];
             cbn [String.eqb Ascii.eqb Bool.eqb andb]
         end;
    repeat match goal with
           | |- context [lift _ ?r] => destruct r as [[?|?] ?]; cbn [lift]
           | |- context [check_similar_issues ?a ?w] =>
               destruct (check_similar_issues a w)
           end;
    reflexivity.
Qed.

(** C5. For the three tools that take a [tenant_id], the controller runs
    the tool implementation on an argument object whose [tenant_id] is the
    id of the tenant of the session, and two tool calls whose arguments
    agree on everything but [tenant_id] produce the same result and the
    same world. *)
Theorem tenant_id_overridden (t : tenant) (attachments : option (list attachment))
    (functionName : string) (args1 args2 : tool_args) (w : world) :
  tenant_scoped functionName ->
  with_tenant_id None args1 = with_tenant_id None args2 ->
  execute_tool t attachments functionName args1 w
    = or_error_result
        (call_tool functionName
           (dispatched_args t attachments functionName args1) w) /\
  arg_tenant_id (dispatched_args t attachments functionName args1)
    = Some (t_id t) /\
  execute_tool t attachments functionName args1 w
    = execute_tool t attachments functionName args2 w.
Proof.
  intros Hname Hagree.
  pose proof (with_tenant_id_agree (Some (t_id t)) _ _ Hagree) as Hsame.
  assert (Hd : dispatched_args t attachments functionName args1
               = dispatched_args t attachments functionName args2).
  { unfold dispatched_args.
    destruct Hname as [-> | [-> | ->]]; cbn; rewrite Hsame; reflexivity. }
  split; [apply execute_tool_dispatch|].
  split.
  { unfold dispatched_args. destruct Hname as [-> | [-> | ->]]; reflexivity. }
  rewrite !execute_tool_dispatch, Hd. reflexivity.
Qed.

Lemma create_engine_calls a w :
  engine_calls (snd (create_work_order a w)) = engine_calls w.
Proof.
  unfold create_work_order.
  destruct (find_contractor _ _) as [[c|]|]; [|reflexivity..].
  cbn [Date_now Date_toISOString snd]. unfold writeJSON_work_orders.
  destruct (disk _); reflexivity.
Qed.

Lemma update_engine_calls a w :
  engine_calls (snd (update_work_order a w)) = engine_calls w.
Proof.
  destruct (list_find (has_id (arg_work_order_id a)) (read_work_orders w))
    as [[i wo]|] eqn:Hf.
  - rewrite (update_found a w i wo Hf). cbn [snd]; unfold writeJSON_work_orders; destruct (disk _); reflexivity.
  - rewrite (update_missing a w Hf). reflexivity.
Qed.

Lemma complete_engine_calls a w :
  engine_calls (snd (complete_work_order a w)) = engine_calls w.
Proof.
  destruct (list_find (has_id (arg_work_order_id a)) (read_work_orders w))
    as [[i wo]|] eqn:Hf.
  - rewrite (complete_found a w i wo Hf). cbn [snd]; unfold writeJSON_work_orders; destruct (disk _); reflexivity.
  - rewrite (complete_missing a w Hf). reflexivity.
Qed.

Lemma delete_engine_calls a w :
  engine_calls (snd (delete_work_order a w)) = engine_calls w.
Proof.
  unfold delete_work_order.
  destruct (list_find _ _) as [[i wo]|]; [|reflexivity].
  cbn [snd]; unfold writeJSON_work_orders; destruct (disk _); reflexivity.
Qed.

Lemma check_engine_calls a w :
  engine_calls (snd (check_similar_issues a w)) = engine_calls w.
Proof.
  unfold check_similar_issues, compareIssuesWithLLM.
  destruct (length _ =? 0)%nat; [reflexivity|].
  destruct (judge _ _) as [e|v]; [reflexivity|].
  destruct (is_similar v && truthy (matching_order_id v));
    [destruct (find _ _)|]; reflexivity.
Qed.

Lemma lift_engine_calls {A} (f : A -> tool_result) (r : outcome A * world) :
  engine_calls (snd (lift f r)) = engine_calls (snd r).
Proof. destruct r as [[a|e] w]; reflexivity. Qed.

Lemma execute_tool_engine_calls t attachments functionName args w :
  engine_calls (snd (execute_tool t attachments functionName args w))
  = engine_calls w.
Proof.
  rewrite execute_tool_dispatch.
  generalize (dispatched_args t attachments functionName args). intros a.
  assert (Hgen : forall r : outcome tool_result * world,
             engine_calls (snd r) = engine_calls w ->
             engine_calls (snd (or_error_result r)) = engine_calls w).
  { intros [[x|e] w1]; cbn; auto. }
  apply Hgen. unfold call_tool.
  repeat match goal with
         | |- context [if String.eqb ?x ?y then _ else _] =>
             destruct (String.eqb x y)
         end;
    rewrite ?lift_engine_calls; cbn [snd];
    auto using create_engine_calls, update_engine_calls,
      complete_engine_calls, delete_engine_calls.
  pose proof (check_engine_calls a w) as Hc.
  destruct (check_similar_issues a w) as [r w1]. exact Hc.
Qed.

Lemma run_tool_calls_engine_calls t attachments calls conversation results w :
  engine_calls
    (snd (run_tool_calls t attachments calls conversation results w))
  = engine_calls w.
Proof.
  revert conversation results w.
  induction calls as [|tc calls IH]; intros conversation results w;
    [reflexivity|].
  cbn [run_tool_calls]. destruct (tc_arguments tc) as [a|]; [|reflexivity].
  pose proof (execute_tool_engine_calls t attachments (tc_name tc) a w) as He.
  destruct (execute_tool t attachments (tc_name tc) a w) as [r w1].
  rewrite IH. exact He.
Qed.

Lemma run_tool_calls_returns t attachments calls conversation results w :
  Forall (fun tc => is_Some (tc_arguments tc)) calls ->
  exists conversation' results' w',
    run_tool_calls t attachments calls conversation results w
    = (Returns (conversation', results'), w').
Proof.
  intros Hall. revert conversation results w.
  induction Hall as [|tc calls [a Ha] _ IH]; intros conversation results w.
  - cbn. eauto.
  - cbn [run_tool_calls]. rewrite Ha.
    destruct (execute_tool t attachments (tc_name tc) a w) as [r w1].
    apply IH.
Qed.

Lemma agent_loop_capped (Hbusy : always_calls_tools) (n : nat) t attachments :
  forall conversation calls results w,
    (exists w',
       agent_loop n t attachments conversation calls results w
       = (Returns (Status500 "Agent loop limit exceeded"), w') /\
       engine_calls w' = engine_calls w + n) \/
    (exists e w',
       agent_loop n t attachments conversation calls results w
       = (Throws e, w') /\
       engine_calls w' <= engine_calls w + n /\
       ~ arguments_parse).
Proof.
  induction n as [|n IH]; intros conversation calls results w.
  - left. exists w. split; [reflexivity|lia].
  - cbn [agent_loop].
    destruct (Hbusy conversation) as (m & tcs & Hm & Htcs).
    rewrite Hm, Htcs.
    pose proof (run_tool_calls_engine_calls t attachments tcs
                  (conversation ++ [Massistant m]) results
                  (count_engine_call w)) as Hcalls.
    destruct (run_tool_calls t attachments tcs
                (conversation ++ [Massistant m]) results
                (count_engine_call w)) as [[[conv' res']|e] w2] eqn:Hrun.
    + cbn [snd] in Hcalls.
      destruct (IH conv' (calls ++ tcs) res' w2)
        as [(w' & -> & Hw')|(e & w' & -> & Hw' & Hbad)].
      * left. exists w'. split; [reflexivity|]. rewrite Hw', Hcalls. cbn. lia.
      * right. exists e, w'. split; [reflexivity|].
        split; [rewrite Hcalls in Hw'; cbn in Hw'; lia|exact Hbad].
    + right. exists e, w2. split; [reflexivity|].
      cbn [snd] in Hcalls. split; [rewrite Hcalls; cbn; lia|].
      intros Hparse.
      destruct (run_tool_calls_returns t attachments tcs
                  (conversation ++ [Massistant m]) results
                  (count_engine_call w) (Hparse _ _ _ Hm Htcs))
        as (c & r & w' & Heq).
      rewrite Heq in Hrun. discriminate.
Qed.

(** C6. If every answer of the reasoning engine carries tool calls, the
    turn ends with a status-500 failure, never with an answer, after at most
    [MAX_LOOPS] = 5 calls of the engine.  If moreover the tenant store
    yields a tenant and the arguments of every tool call parse, the engine
    is called exactly 5 times and the failure is the loop-limit one. *)
Theorem chatHandler_stops_at_cap (req : request) (w : world) :
  always_calls_tools ->
  exists err w',
    chatHandler req w = (Status500 err, w') /\
    engine_calls w' <= engine_calls w + 5 /\
    (is_Some (tenants_json w ≫= head) -> arguments_parse ->
     err = "Agent loop limit exceeded" /\
     engine_calls w' = engine_calls w + 5).
Proof.
  intros Hbusy. unfold chatHandler.
  destruct (load_tenant (req_tenantId req) w) as [t|e] eqn:Hload.
  - unfold turn_for.
    destruct (agent_loop_capped Hbusy MAX_LOOPS t (req_attachments req)
                (Msystem (system_prompt t (req_attachments req))
                   :: recent_messages (req_messages req)) [] [] w)
      as [(w' & -> & Hw')|(e & w' & -> & Hw' & Hbad)].
    + exists "Agent loop limit exceeded", w'. split; [reflexivity|].
      unfold MAX_LOOPS in Hw'. split; [lia|]. intros _ _. split; [reflexivity|lia].
    + exists "Internal Server Error", w'. split; [reflexivity|].
      unfold MAX_LOOPS in Hw'. split; [lia|]. intros _ Hparse. tauto.
  - exists "Internal Server Error", w. split; [reflexivity|].
    split; [lia|]. intros Hsome _. exfalso.
    unfold load_tenant in Hload.
    destruct (tenants_json w) as [[|t0 rest]|]; cbn in Hsome;
      try (destruct Hsome; discriminate).
    destruct (find _ _); discriminate.
Qed.

(** What the neighbouring inputs do.  A verdict that does not claim
    similarity, or claims it without naming an order, is answered without
    the [error] property, whatever id it carries. *)
Lemma check_similar_issues_not_similar (args : tool_args) (w : world) v :
  filter (is_active_for (arg_tenant_id args)) (read_work_orders w) <> [] ->
  judge (arg_new_issue_description args)
        (map issue_of
           (filter (is_active_for (arg_tenant_id args)) (read_work_orders w)))
    = JudgeVerdict v ->
  is_similar v && truthy (matching_order_id v) = false ->
  has_similar (fst (check_similar_issues args w)) = false /\
  error (fst (check_similar_issues args w)) = None.
Proof.
  intros Hne Hj Hv. unfold check_similar_issues, compareIssuesWithLLM.
  destruct (filter _ _) as [|wo l]; [congruence|]. cbn [length Nat.eqb].
  rewrite Hj, Hv. split; reflexivity.
Qed.

(** A tenant store that is missing or empty ends the turn in the outer
    [catch], before the engine is called. *)
Lemma chatHandler_without_tenants (req : request) (w : world) :
  tenants_json w = None \/ tenants_json w = Some [] ->
  chatHandler req w = (Status500 "Internal Server Error", w).
Proof.
  intros [Hn|Hn]; unfold chatHandler, load_tenant; rewrite Hn; reflexivity.
Qed.

(** ** Further properties of the work-order tools *)

Lemma create_returns (args : tool_args) (w : world) view w' :
  create_work_order args w = (Returns view, w') ->
  exists c,
    find_contractor (default [] (contractors_json w)) (arg_contractor_id args)
      = Returns (Some c) /\
    ov_order view = without_attachments (created_record args c w) /\
    ov_attachments_count view = length (default [] (arg_attachments args)) /\
    w' = snd (writeJSON_work_orders
                (read_work_orders w ++ [created_record args c w])
                (tick (tick w))).
Proof.
  unfold create_work_order.
  destruct (find_contractor _ _) as [[c|]|] eqn:Hf; try discriminate.
  cbn [Date_now Date_toISOString]. intros [= <- <-].
  exists c. repeat split; reflexivity.
Qed.

Lemma delete_found args w i wo :
  list_find (has_id (arg_work_order_id args)) (read_work_orders w)
    = Some (i, wo) ->
  delete_work_order args w =
    (Returns {| del_success := true; deleted_order := view_of wo;
                del_message := "Work order " +:+ js_str (arg_work_order_id args)
                               +:+ " has been deleted." |},
     snd (writeJSON_work_orders (delete i (read_work_orders w)) w)).
Proof. intros Hf. unfold delete_work_order. rewrite Hf. reflexivity. Qed.

Lemma delete_missing args w :
  list_find (has_id (arg_work_order_id args)) (read_work_orders w) = None ->
  delete_work_order args w =
    (Throws (not_found_message (arg_work_order_id args)), w).
Proof. intros Hf. unfold delete_work_order. rewrite Hf. reflexivity. Qed.

(** X1. [delete_work_order] answers with the snapshot of the record it
    finds, without the attachments but with their count, and with the
    success flag.  When the write is accepted exactly that record is gone
    and the records before and after it keep their order; when the write
    is refused the answer is the same and the record is still stored.
    Neither the clock nor the other stores are touched. *)
Theorem delete_work_order_removes_one (args : tool_args) (w : world)
    (i : nat) (wo : work_order) :
  list_find (has_id (arg_work_order_id args)) (read_work_orders w)
    = Some (i, wo) ->
  exists d w',
    delete_work_order args w = (Returns d, w') /\
    del_success d = true /\
    deleted_order d = view_of wo /\
    ov_attachments_count (deleted_order d)
      = length (default [] (wo_attachments wo)) /\
    read_work_orders w
      = take i (read_work_orders w) ++ wo :: drop (S i) (read_work_orders w) /\
    read_work_orders w'
      = (if disk (writes w)
         then take i (read_work_orders w) ++ drop (S i) (read_work_orders w)
         else read_work_orders w) /\
    same_reference_data w w' /\
    ticks w' = ticks w.
Proof using.
  intros Hf.
  pose proof (proj1 (list_find_Some _ _ _ _) Hf) as (Hi & _ & _).
  rewrite (delete_found args w i wo Hf). eexists _, _.
  split; [reflexivity|]. cbn [del_success deleted_order].
  split; [reflexivity|]. split; [reflexivity|]. split; [reflexivity|].
  split; [symmetry; apply take_drop_middle; exact Hi|].
  rewrite read_written, <- delete_take_drop.
  split; [reflexivity|].
  destruct (writeJSON_touches (delete i (read_work_orders w)) w)
    as [[Href _] Hticks].
  split; [exact Href|exact Hticks].
Qed.

(** X2. When the stored ids are pairwise distinct, a [delete_work_order]
    that returns and whose write is accepted leaves no record with that id:
    the collection is the old one without it, and a following update,
    completion or deletion of the same id reports not-found and changes
    nothing. *)
Theorem delete_then_not_found (args : tool_args) (w : world) d w' :
  NoDup (map wo_id (read_work_orders w)) ->
  disk (writes w) = true ->
  delete_work_order args w = (Returns d, w') ->
  (forall wo, wo ∈ read_work_orders w' <->
              wo ∈ read_work_orders w /\
              ~ has_id (arg_work_order_id args) wo) /\
  update_work_order args w'
    = (Throws (not_found_message (arg_work_order_id args)), w') /\
  complete_work_order args w'
    = (Throws (not_found_message (arg_work_order_id args)), w') /\
  delete_work_order args w'
    = (Throws (not_found_message (arg_work_order_id args)), w').
Proof.
  intros Hnodup Hdisk Hdel.
  destruct (list_find (has_id (arg_work_order_id args)) (read_work_orders w))
    as [[i wo]|] eqn:Hf.
  2:{ rewrite (delete_missing args w Hf) in Hdel. discriminate. }
  rewrite (delete_found args w i wo Hf) in Hdel.
  injection Hdel as _ <-.
  pose proof (list_find_lookup _ _ _ _ Hf) as [Hi Hid].
  set (w1 := snd (writeJSON_work_orders (delete i (read_work_orders w)) w)).
  assert (Hread : read_work_orders w1
                  = take i (read_work_orders w)
                    ++ drop (S i) (read_work_orders w)).
  { subst w1. rewrite read_after_write by exact Hdisk.
    apply delete_take_drop. }
  clearbody w1. rewrite Hread.
  pose proof (take_drop_middle _ _ _ Hi) as Hsplit.
  set (l1 := take i (read_work_orders w)) in *.
  set (l2 := drop (S i) (read_work_orders w)) in *.
  rewrite <- Hsplit in Hnodup |- *.
  rewrite map_app in Hnodup. cbn [map] in Hnodup.
  apply NoDup_app in Hnodup as (_ & Hl1 & Hl2).
  apply NoDup_cons in Hl2 as [Hl2 _].
  assert (Hfresh : forall x, x ∈ l1 ++ l2 ->
                     ~ has_id (arg_work_order_id args) x).
  { intros x Hx Hhas. unfold has_id in *.
    assert (Heq : wo_id x = wo_id wo) by congruence.
    apply elem_of_app in Hx as [Hx|Hx].
    - apply (Hl1 (wo_id wo)); [|left].
      rewrite <- Heq. apply list_elem_of_In, in_map, list_elem_of_In. exact Hx.
    - apply Hl2. rewrite <- Heq.
      apply list_elem_of_In, in_map, list_elem_of_In. exact Hx. }
  assert (Hnone : list_find (has_id (arg_work_order_id args)) (l1 ++ l2) = None)
    by (apply list_find_absent; exact Hfresh).
  split.
  { intros x. split.
    - intros Hx. split; [|apply Hfresh; exact Hx].
      apply elem_of_app in Hx as [Hx|Hx]; apply elem_of_app;
        [left; exact Hx|right; right; exact Hx].
    - intros [Hx Hno]. apply elem_of_app in Hx as [Hx|Hx];
        apply elem_of_app; [left; exact Hx|].
      apply elem_of_cons in Hx as [->|Hx]; [contradiction|right; exact Hx]. }
  rewrite <- Hread in Hnone.
  split; [apply update_missing; exact Hnone|].
  split; [apply complete_missing; exact Hnone|].
  apply delete_missing. exact Hnone.
Qed.

(** X3. After a [create_work_order] that returns, for a tenant id that is
    a non-empty string, [get_work_orders] for that tenant without a status
    filter lists what it listed before followed by the new order, with
    status [assigned], the generated id and the count of its attachments,
    when the write was accepted; when the write was refused it lists what
    it listed before, although the creation answered with the order. *)
Theorem create_then_listed (args query : tool_args) (w : world) view w' :
  create_work_order args w = (Returns view, w') ->
  truthy (arg_tenant_id args) = true ->
  arg_tenant_id query = arg_tenant_id args ->
  truthy (arg_status_filter query) = false ->
  exists s,
    get_work_orders query w'
      = (if disk (writes w)
         then get_work_orders query w ++ [s]
         else get_work_orders query w) /\
    os_id s = wo_id (ov_order view) /\
    os_tenant_id s = arg_tenant_id args /\
    os_status s = Some "assigned" /\
    os_attachments_count s = ov_attachments_count view.
Proof.
  intros Hc Ht Hq Hs.
  apply create_returns in Hc as (c & _ & Hview & Hcount & ->).
  unfold get_work_orders. rewrite Hs, read_written, Hq.
  change (writes (tick (tick w))) with (writes w).
  change (read_work_orders (tick (tick w))) with (read_work_orders w).
  exists (summary_of (created_record args c w)). split.
  { destruct (disk (writes w)); [|reflexivity].
    rewrite filter_app, map_app.
    rewrite (filter_cons_True _ (created_record args c w)).
    2:{ cbn. unfold js_or. rewrite Ht. reflexivity. }
    rewrite filter_nil. reflexivity. }
  rewrite Hview, Hcount. cbn. unfold js_or. rewrite Ht.
  repeat split.
Qed.

(** X4. On the record it finds, [complete_work_order] changes the status,
    the two timestamps and, only when the notes are a non-empty string, the
    resolution notes; every other property (the attachments in particular)
    stays as it was.  Whether the write is accepted or refused, every other
    record stays as it was and the reference stores are not touched; the
    index found holds the new record when the write is accepted, and the
    collection is as before when it is refused. *)
Theorem complete_work_order_frame (args : tool_args) (w : world) (i : nat)
    (wo : work_order) :
  list_find (has_id (arg_work_order_id args)) (read_work_orders w)
    = Some (i, wo) ->
  exists wo' w',
    complete_work_order args w = (Returns (view_of wo'), w') /\
    (disk (writes w) = true -> read_work_orders w' !! i = Some wo') /\
    (disk (writes w) = false -> read_work_orders w' = read_work_orders w) /\
    length (read_work_orders w') = length (read_work_orders w) /\
    (forall j, j <> i -> read_work_orders w' !! j = read_work_orders w !! j) /\
    wo_resolution_notes wo' =
      (if truthy (arg_resolution_notes args)
       then arg_resolution_notes args
       else wo_resolution_notes wo) /\
    wo_attachments wo' = wo_attachments wo /\
    set_status (wo_status wo)
      (set_updated_at (wo_updated_at wo)
         (set_resolved_at (wo_resolved_at wo)
            (set_resolution_notes (wo_resolution_notes wo) wo'))) = wo /\
    same_reference_data w w'.
Proof.
  intros Hf. pose proof (list_find_lookup _ _ _ _ Hf) as [Hi _].
  assert (Hlt : i < length (read_work_orders w))
    by (eapply lookup_lt_Some; eauto).
  rewrite (complete_found args w i wo Hf). eexists _, _.
  split; [reflexivity|]. cbn [snd]. rewrite read_written.
  change (writes (tick (tick w))) with (writes w).
  change (read_work_orders (tick (tick w))) with (read_work_orders w).
  split; [intros ->; apply list_lookup_insert_eq; assumption|].
  split; [intros ->; reflexivity|].
  split; [destruct (disk (writes w)); [apply length_insert|reflexivity]|].
  split.
  { intros j Hj. destruct (disk (writes w)); [|reflexivity].
    apply list_lookup_insert_ne; congruence. }
  destruct (writeJSON_touches
              (<[i := completed_record args (toISOString (clock (ticks w)))
                         (toISOString (clock (S (ticks w)))) wo]>
                 (read_work_orders w)) (tick (tick w))) as [[Href _] _].
  unfold completed_record in *.
  destruct wo; destruct (truthy (arg_resolution_notes args)); cbn;
    (split; [reflexivity|]); (split; [reflexivity|]);
    (split; [reflexivity|]); exact Href.
Qed.

Lemma list_find_appended {A} (P : A -> Prop) `{forall x, Decision (P x)}
    (l : list A) (x : A) (r : list A) :
  (forall y, y ∈ l -> ~ P y) -> P x ->
  list_find P (l ++ x :: r) = Some (length l, x).
Proof.
  intros Hno HP. apply list_find_Some. split; [apply list_lookup_middle; reflexivity|].
  split; [exact HP|]. intros j y Hj Hlt.
  rewrite lookup_app_l in Hj by exact Hlt.
  apply Hno. eapply list_elem_of_lookup_2; eauto.
Qed.

(** X5. The id of a created order is [wo-] followed by the millisecond
    clock reading, nothing else.  Two creations that observe the same
    millisecond and whose writes are accepted therefore store two records
    with one id, and a completion by that id reaches the first of them
    only: the second one stays as it was created. *)
Theorem create_ids_follow_clock (a1 a2 c : tool_args) (w : world)
    v1 w1 v2 w2 :
  create_work_order a1 w = (Returns v1, w1) ->
  create_work_order a2 w1 = (Returns v2, w2) ->
  disk (writes w) = true ->
  disk (S (writes w)) = true ->
  clock (S (S (ticks w))) = clock (ticks w) ->
  (forall wo, wo ∈ read_work_orders w -> wo_id wo <> wo_id (ov_order v1)) ->
  arg_work_order_id c = Some (wo_id (ov_order v1)) ->
  wo_id (ov_order v1) = "wo-" +:+ pretty (clock (ticks w)) /\
  wo_id (ov_order v2) = wo_id (ov_order v1) /\
  exists n1 n2,
    read_work_orders w2 = read_work_orders w ++ [n1; n2] /\
    wo_id n1 = wo_id n2 /\
    wo_status n2 = Some "assigned" /\
    read_work_orders (snd (complete_work_order c w2))
      !! S (length (read_work_orders w)) = Some n2.
Proof.
  intros H1 H2 Hdisk1 Hdisk2 Hclock Hfresh Hc.
  apply create_returns in H1 as (c1 & _ & Hv1 & _ & Hw1).
  apply create_returns in H2 as (c2 & _ & Hv2 & _ & Hw2).
  set (n1 := created_record a1 c1 w) in *.
  set (n2 := created_record a2 c2 w1) in *.
  assert (Hs1 : read_work_orders w1 = read_work_orders w ++ [n1])
    by (rewrite Hw1; apply read_after_write; exact Hdisk1).
  assert (Hwrites : writes w1 = S (writes w))
    by (rewrite Hw1; exact (writes_after_write _ (tick (tick w)))).
  assert (Hticks : ticks w1 = S (S (ticks w)))
    by (rewrite Hw1; exact (proj2 (writeJSON_touches _ (tick (tick w))))).
  assert (Hs2 : read_work_orders w2 = read_work_orders w ++ [n1; n2]).
  { rewrite Hw2, read_after_write.
    - change (read_work_orders (tick (tick w1))) with (read_work_orders w1).
      rewrite Hs1, <- app_assoc. reflexivity.
    - change (writes (tick (tick w1))) with (writes w1).
      rewrite Hwrites. exact Hdisk2. }
  assert (Hid1 : wo_id (ov_order v1) = wo_id n1) by (rewrite Hv1; reflexivity).
  assert (Hid2 : wo_id n2 = wo_id n1).
  { subst n2 n1. cbn [wo_id created_record]. rewrite Hticks, Hclock.
    reflexivity. }
  split; [rewrite Hid1; reflexivity|].
  split; [rewrite Hv2, Hid1, <- Hid2; reflexivity|].
  exists n1, n2. split; [exact Hs2|]. split; [symmetry; exact Hid2|].
  split; [reflexivity|].
  assert (Hf : list_find (has_id (arg_work_order_id c)) (read_work_orders w2)
               = Some (length (read_work_orders w), n1)).
  { rewrite Hs2, Hc. apply list_find_appended.
    - intros y Hy Hhas. apply (Hfresh y Hy). unfold has_id in Hhas.
      injection Hhas as ->. reflexivity.
    - unfold has_id. rewrite Hid1. reflexivity. }
  rewrite (complete_found c w2 _ _ Hf). cbn [snd].
  rewrite read_written.
  change (read_work_orders (tick (tick w2))) with (read_work_orders w2).
  destruct (disk (writes (tick (tick w2))));
    [rewrite list_lookup_insert_ne by lia|];
    rewrite Hs2, lookup_app_r by lia;
    replace (S (length (read_work_orders w)) - length (read_work_orders w))
      with 1 by lia;
    reflexivity.
Qed.

Lemma includes_empty (s : string) : includes s "" = true.
Proof. destruct s; reflexivity. Qed.

Lemma filter_all {A} (P : A -> Prop) `{forall x, Decision (P x)} (l : list A) :
  (forall x, x ∈ l -> P x) -> filter P l = l.
Proof.
  induction l as [|x l IH]; intros Hall; [reflexivity|].
  rewrite filter_cons_True by (apply Hall; left).
  rewrite IH; [reflexivity|]. intros y Hy. apply Hall. right. exact Hy.
Qed.

(** X6. Called without a trade, or with the empty string,
    [get_available_contractors] returns the whole contractor store (every
    name contains the empty string), and the empty list when the store is
    missing. *)
Theorem get_available_contractors_no_trade (args : tool_args) (w : world) :
  truthy (arg_trade args) = false ->
  get_available_contractors args w = default [] (contractors_json w).
Proof.
  intros Ht. unfold get_available_contractors.
  destruct (contractors_json w) as [cs|]; [|reflexivity].
  assert (Hempty : toLowerCase (default "" (arg_trade args)) = "").
  { destruct (arg_trade args) as [s|]; [|reflexivity].
    cbn in Ht. apply negb_false_iff, String.eqb_eq in Ht. subst s. reflexivity. }
  rewrite Hempty. apply filter_all. intros c _. right. apply includes_empty.
Qed.

(** ** Further properties of the dispatch *)

Lemma touches_only_orders_refl (w : world) : touches_only_orders w w.
Proof. repeat split. Qed.

Lemma create_touches a w : touches_only_orders w (snd (create_work_order a w)).
Proof.
  unfold create_work_order.
  destruct (find_contractor _ _) as [[c|]|]; [|repeat split..].
  cbn [Date_now Date_toISOString snd]. unfold writeJSON_work_orders.
  destruct (disk _); repeat split.
Qed.

Lemma update_touches a w : touches_only_orders w (snd (update_work_order a w)).
Proof.
  destruct (list_find (has_id (arg_work_order_id a)) (read_work_orders w))
    as [[i wo]|] eqn:Hf.
  - rewrite (update_found a w i wo Hf). cbn [snd]; unfold writeJSON_work_orders; destruct (disk _); repeat split.
  - rewrite (update_missing a w Hf). repeat split.
Qed.

Lemma complete_touches a w :
  touches_only_orders w (snd (complete_work_order a w)).
Proof.
  destruct (list_find (has_id (arg_work_order_id a)) (read_work_orders w))
    as [[i wo]|] eqn:Hf.
  - rewrite (complete_found a w i wo Hf). cbn [snd]; unfold writeJSON_work_orders; destruct (disk _); repeat split.
  - rewrite (complete_missing a w Hf). repeat split.
Qed.

Lemma delete_touches a w : touches_only_orders w (snd (delete_work_order a w)).
Proof.
  destruct (list_find (has_id (arg_work_order_id a)) (read_work_orders w))
    as [[i wo]|] eqn:Hf.
  - rewrite (delete_found a w i wo Hf). cbn [snd]; unfold writeJSON_work_orders; destruct (disk _); repeat split.
  - rewrite (delete_missing a w Hf). repeat split.
Qed.

Lemma check_cases a w :
  snd (check_similar_issues a w) = w \/
  snd (check_similar_issues a w) = count_judge_call w.
Proof.
  unfold check_similar_issues, compareIssuesWithLLM.
  destruct (length _ =? 0)%nat; [left; reflexivity|]. right.
  destruct (judge _ _) as [e|v]; [reflexivity|].
  destruct (is_similar v && truthy (matching_order_id v));
    [destruct (find _ _)|]; reflexivity.
Qed.

Lemma snd_lift {A} (f : A -> tool_result) (r : outcome A * world) :
  snd (lift f r) = snd r.
Proof. destruct r as [[a|e] w]; reflexivity. Qed.

Lemma snd_or_error_result (r : outcome tool_result * world) :
  snd (or_error_result r) = snd r.
Proof. destruct r as [[a|e] w]; reflexivity. Qed.

(** X7. The tools that take a work-order id are dispatched with the
    arguments of the engine as they are: their result and their effect do
    not depend on the tenant of the session nor on the attachments of the
    request, whichever tenant the addressed order belongs to. *)
Theorem by_id_tools_ignore_tenant (t1 t2 : tenant)
    (atts1 atts2 : option (list attachment)) (functionName : string)
    (args : tool_args) (w : world) :
  addressed_by_id functionName ->
  execute_tool t1 atts1 functionName args w
    = or_error_result (call_tool functionName args w) /\
  execute_tool t1 atts1 functionName args w
    = execute_tool t2 atts2 functionName args w.
Proof.
  intros Hname.
  assert (Hd : forall t atts,
             dispatched_args t atts functionName args = args).
  { intros t atts. unfold dispatched_args.
    destruct Hname as [-> | [-> | ->]]; reflexivity. }
  rewrite !execute_tool_dispatch, !Hd. split; reflexivity.
Qed.

(** X8. Whatever arguments the engine supplies, [get_work_orders] run by
    the controller lists only orders whose tenant is the tenant of the
    session, and leaves the world as it is. *)
Theorem get_work_orders_only_session_tenant (t : tenant)
    (atts : option (list attachment)) (args : tool_args) (w : world) :
  exists l,
    execute_tool t atts "get_work_orders" args w = (ROrders l, w) /\
    l = get_work_orders (with_tenant_id (Some (t_id t)) args) w /\
    Forall (fun s => os_tenant_id s = Some (t_id t)) l.
Proof.
  eexists. split; [reflexivity|]. split; [reflexivity|].
  unfold get_work_orders. cbn [arg_tenant_id arg_status_filter with_tenant_id].
  apply Forall_forall. intros s Hs.
  apply list_elem_of_In, in_map_iff in Hs as (wo & <- & Hwo).
  apply list_elem_of_In in Hwo.
  destruct (truthy (arg_status_filter args));
    [apply list_elem_of_filter in Hwo as [_ Hwo]|];
    apply list_elem_of_filter in Hwo as [Hwo _]; exact Hwo.
Qed.

(** X9. A work order created through the controller carries the
    attachments of the request and the id of the session tenant, whatever
    attachments and tenant id the engine put in the arguments; the result
    that goes back to the conversation carries their count and no
    attachment.  The order is appended to the stored collection when the
    write is accepted; when the write is refused the collection is as
    before and the result is the same.  When the creation fails the world
    is unchanged. *)
Theorem create_uses_request_attachments (t : tenant)
    (atts : option (list attachment)) (args : tool_args) (w : world) :
  (exists e,
     execute_tool t atts "create_work_order" args w = (RError e, w)) \/
  (exists o n w',
     execute_tool t atts "create_work_order" args w = (ROrder o, w') /\
     read_work_orders w'
       = (if disk (writes w)
          then read_work_orders w ++ [n]
          else read_work_orders w) /\
     wo_attachments n = Some (default [] atts) /\
     wo_tenant_id n = Some (t_id t) /\
     ov_order o = without_attachments n /\
     ov_attachments_count o = length (default [] atts)).
Proof.
  rewrite execute_tool_dispatch.
  change (call_tool "create_work_order"
            (dispatched_args t atts "create_work_order" args) w)
    with (lift ROrder
            (create_work_order
               (with_attachments (Some (default [] atts))
                  (with_tenant_id (Some (t_id t)) args)) w)).
  destruct (create_work_order _ w) as [[v|e] w'] eqn:Hc.
  - right. apply create_returns in Hc as (c & _ & Hv & Hn & ->).
    eexists v, _, _. split; [reflexivity|]. rewrite read_written.
    split; [reflexivity|]. split; [reflexivity|]. split; [reflexivity|].
    split; [exact Hv|exact Hn].
  - left. apply create_work_order_failure_atomic in Hc as ->.
    exists e. reflexivity.
Qed.

(** X10. No tool changes the tenant, contractor or knowledge store, nor
    the count of engine calls.  Only the four writing tools change the
    work-order store or read the clock, and only [check_similar_issues]
    makes the secondary reasoning call. *)
Theorem execute_tool_frame (t : tenant) (atts : option (list attachment))
    (functionName : string) (args : tool_args) (w : world) :
  let w' := snd (execute_tool t atts functionName args w) in
  same_reference_data w w' /\
  engine_calls w' = engine_calls w /\
  (writes_orders functionName \/
   (work_orders_json w' = work_orders_json w /\ ticks w' = ticks w)) /\
  (functionName = "check_similar_issues" \/ judge_calls w' = judge_calls w).
Proof.
  cbv zeta. rewrite execute_tool_dispatch, snd_or_error_result.
  generalize (dispatched_args t atts functionName args). intros a.
  unfold call_tool.
  repeat match goal with
         | |- context [String.eqb functionName ?y] =>
             destruct (String.eqb_spec functionName y) as [->|?]
         end;
    rewrite ?snd_lift; cbn [snd];
    try (split; [repeat split|]; split; [reflexivity|];
         split; [right; split; reflexivity|right; reflexivity]).
  - pose proof (check_cases a w) as Hc.
    destruct (check_similar_issues a w) as [r w1]. cbn [snd] in *.
    destruct Hc as [-> | ->];
      (split; [repeat split|]; split; [reflexivity|];
       split; [right; split; reflexivity|left; reflexivity]).
  - destruct (create_touches a w) as (Hr & Hj & He).
    split; [exact Hr|]. split; [exact He|].
    split; [left; left; reflexivity|right; exact Hj].
  - destruct (update_touches a w) as (Hr & Hj & He).
    split; [exact Hr|]. split; [exact He|].
    split; [left; right; left; reflexivity|right; exact Hj].
  - destruct (complete_touches a w) as (Hr & Hj & He).
    split; [exact Hr|]. split; [exact He|].
    split; [left; right; right; left; reflexivity|right; exact Hj].
  - destruct (delete_touches a w) as (Hr & Hj & He).
    split; [exact Hr|]. split; [exact He|].
    split; [left; right; right; right; reflexivity|right; exact Hj].
Qed.

Lemma update_view_stripped a w v w' :
  update_work_order a w = (Returns v, w') ->
  wo_attachments (ov_order v) = None.
Proof.
  destruct (list_find (has_id (arg_work_order_id a)) (read_work_orders w))
    as [[i wo]|] eqn:Hf.
  - rewrite (update_found a w i wo Hf). intros [= <- _]. reflexivity.
  - rewrite (update_missing a w Hf). discriminate.
Qed.

Lemma complete_view_stripped a w v w' :
  complete_work_order a w = (Returns v, w') ->
  wo_attachments (ov_order v) = None.
Proof.
  destruct (list_find (has_id (arg_work_order_id a)) (read_work_orders w))
    as [[i wo]|] eqn:Hf.
  - rewrite (complete_found a w i wo Hf). intros [= <- _]. reflexivity.
  - rewrite (complete_missing a w Hf). discriminate.
Qed.

Lemma delete_view_stripped a w d w' :
  delete_work_order a w = (Returns d, w') ->
  wo_attachments (ov_order (deleted_order d)) = None.
Proof.
  destruct (list_find (has_id (arg_work_order_id a)) (read_work_orders w))
    as [[i wo]|] eqn:Hf.
  - rewrite (delete_found a w i wo Hf). intros [= <- _]. reflexivity.
  - rewrite (delete_missing a w Hf). discriminate.
Qed.

(** X11. No result of a tool call, for any tool name and any arguments,
    carries an attachment payload into the conversation: the order a
    creation, update, completion or deletion reports has its attachments
    removed. *)
Theorem execute_tool_without_payload (t : tenant)
    (atts : option (list attachment)) (functionName : string)
    (args : tool_args) (w : world) :
  without_payload (fst (execute_tool t atts functionName args w)).
Proof.
  rewrite execute_tool_dispatch.
  generalize (dispatched_args t atts functionName args). intros a.
  unfold call_tool.
  repeat match goal with
         | |- context [String.eqb functionName ?y] =>
             destruct (String.eqb_spec functionName y) as [->|?]
         end;
    try exact I.
  - destruct (searchKnowledge (arg_query a) w); exact I.
  - destruct (check_similar_issues a w). exact I.
  - destruct (create_work_order a w) as [[v|e] w'] eqn:Hc; [|exact I].
    apply create_returns in Hc as (c & _ & Hv & _). cbn. rewrite Hv.
    reflexivity.
  - destruct (update_work_order a w) as [[v|e] w'] eqn:Hc; [|exact I].
    exact (update_view_stripped a w v w' Hc).
  - destruct (complete_work_order a w) as [[v|e] w'] eqn:Hc; [|exact I].
    exact (complete_view_stripped a w v w' Hc).
  - destruct (delete_work_order a w) as [[v|e] w'] eqn:Hc; [|exact I].
    exact (delete_view_stripped a w v w' Hc).
Qed.

(** ** Further properties of the duplicate detector *)

(** X12. Whatever the secondary reasoning call answers, a positive answer
    of [check_similar_issues] names an order that is stored, belongs to the
    tenant and is active: the reported order is the image of such a record
    and its id is the one the verdict gave; no [error] is set. *)
Theorem check_similar_issues_sound (args : tool_args) (w : world) :
  has_similar (fst (check_similar_issues args w)) = true ->
  exists wo v,
    wo ∈ read_work_orders w /\
    is_active_for (arg_tenant_id args) wo /\
    similar_order (fst (check_similar_issues args w)) = Some (issue_of wo) /\
    judge (arg_new_issue_description args)
      (map issue_of
         (filter (is_active_for (arg_tenant_id args)) (read_work_orders w)))
      = JudgeVerdict v /\
    matching_order_id v = Some (wo_id wo) /\
    error (fst (check_similar_issues args w)) = None.
Proof.
  unfold check_similar_issues, compareIssuesWithLLM.
  set (active := filter (is_active_for (arg_tenant_id args))
                   (read_work_orders w)).
  destruct (length active =? 0)%nat; [discriminate|].
  destruct (judge _ _) as [e|v] eqn:Hj; [discriminate|].
  destruct (is_similar v && truthy (matching_order_id v)); [|discriminate].
  destruct (find _ _) as [o|] eqn:Hfind; [|discriminate].
  intros _. cbn [fst similar_order error].
  apply find_some in Hfind as [Hin Hid].
  apply in_map_iff in Hin as (wo & <- & Hwo).
  apply list_elem_of_In, list_elem_of_filter in Hwo as [Hact Hwo].
  apply bool_decide_eq_true in Hid. cbn [ei_id issue_of] in Hid.
  exists wo, v. repeat split; auto. apply Hact. apply Hact.
Qed.

(** X13. [check_similar_issues] writes nothing: the four stores, the clock
    and the count of engine calls are as before, and the secondary
    reasoning call is made at most once. *)
Theorem check_similar_issues_frame (args : tool_args) (w : world) :
  let w' := snd (check_similar_issues args w) in
  work_orders_json w' = work_orders_json w /\
  same_reference_data w w' /\
  ticks w' = ticks w /\
  engine_calls w' = engine_calls w /\
  judge_calls w <= judge_calls w' <= S (judge_calls w).
Proof.
  cbv zeta. destruct (check_cases args w) as [-> | ->]; cbn;
    repeat split; lia.
Qed.

(** ** Further properties of the knowledge search *)

Lemma append_cons (c : ascii) (s r : string) :
  String c s +:+ r = String c (s +:+ r).
Proof. reflexivity. Qed.

Lemma toLowerCase_app (s r : string) :
  toLowerCase (s +:+ r) = toLowerCase s +:+ toLowerCase r.
Proof.
  induction s as [|c s IH]; [reflexivity|].
  rewrite !append_cons. cbn [toLowerCase]. rewrite IH, append_cons.
  reflexivity.
Qed.

Lemma prefix_app_right (t s r : string) :
  String.prefix t s = true -> String.prefix t (s +:+ r) = true.
Proof.
  revert s. induction t as [|c t IH]; intros s Hp;
    [destruct (s +:+ r); reflexivity|].
  destruct s as [|d s]; [discriminate|].
  rewrite append_cons. cbn [String.prefix] in *.
  destruct (Ascii.ascii_dec c d); [apply IH; exact Hp|discriminate].
Qed.

Lemma includes_app_right (s r t : string) :
  includes s t = true -> includes (s +:+ r) t = true.
Proof.
  induction s as [|c s IH]; intros Hi.
  - cbn [includes] in Hi. rewrite orb_false_r in Hi.
    destruct t; [apply includes_empty|discriminate].
  - cbn [includes] in Hi. apply orb_true_iff in Hi as [Hp|Hr].
    + change (String c s +:+ r) with (String c (s +:+ r)).
      cbn [includes]. apply orb_true_iff. left.
      exact (prefix_app_right t (String c s) r Hp).
    + change (String c s +:+ r) with (String c (s +:+ r)).
      cbn [includes]. apply orb_true_iff. right. apply IH. exact Hr.
Qed.

Lemma in_title_in_text (a : article) (term : string) :
  in_title a term = true -> includes (text_of a) term = true.
Proof.
  unfold in_title, text_of. intros Ht.
  apply andb_true_iff in Ht as [_ Ht].
  rewrite toLowerCase_app. apply includes_app_right. exact Ht.
Qed.

Lemma add_term_points (a : article) (score : nat) (term : string) :
  add_term (text_of a) (default "" (art_title a)) score term
  = score + term_points a term.
Proof.
  unfold add_term, term_points. fold (in_title a term).
  destruct (in_title a term) eqn:Ht.
  - rewrite (in_title_in_text a term Ht). lia.
  - destruct (includes (text_of a) term); lia.
Qed.

Lemma list_sum_cons (x : nat) (l : list nat) :
  list_sum (x :: l) = x + list_sum l.
Proof. reflexivity. Qed.

Lemma fold_add_term (a : article) (terms : list string) (score : nat) :
  fold_left (add_term (text_of a) (default "" (art_title a))) terms score
  = score + list_sum (map (term_points a) terms).
Proof.
  revert score. induction terms as [|t terms IH]; intros score.
  - cbn. lia.
  - cbn [fold_left map]. rewrite IH, add_term_points, list_sum_cons. lia.
Qed.

Lemma score_of_sum (terms : list string) (a : article) :
  score_of terms a = list_sum (map (term_points a) terms).
Proof. unfold score_of. fold (text_of a). rewrite fold_add_term. reflexivity. Qed.

(** X14. The score of an article is the sum over the query terms of 3 for
    a term found in its non-empty title, 1 for a term found only in the
    body or the tags, and 0 otherwise: a term of the title always counts
    as found, because the title is part of the searched text.  So the score
    is at most three times the number of terms. *)
Theorem score_of_sums_term_points (terms : list string) (a : article) :
  score_of terms a = list_sum (map (term_points a) terms) /\
  score_of terms a <= 3 * length terms.
Proof.
  split; [apply score_of_sum|]. rewrite score_of_sum.
  induction terms as [|t terms IH]; [cbn; lia|].
  cbn [map length]. rewrite list_sum_cons.
  assert (term_points a t <= 3).
  { unfold term_points. destruct (in_title a t); [lia|].
    destruct (includes (text_of a) t); lia. }
  lia.
Qed.

Lemma is_space_lower (c : ascii) : is_space c = true -> lower_ascii c = c.
Proof.
  destruct c as [[] [] [] [] [] [] [] []]; intros H;
    first [reflexivity | discriminate H].
Qed.

Lemma blank_term (q : string) :
  q = "" \/ (exists c r, q = String c r /\ is_space c = true) ->
  "" ∈ terms_of q.
Proof.
  unfold terms_of. intros [-> | (c & r & -> & Hc)].
  - left.
  - cbn [toLowerCase split_ws]. rewrite (is_space_lower c Hc), Hc. left.
Qed.

Lemma score_positive_with_blank (terms : list string) (a : article) :
  "" ∈ terms -> 0 < score_of terms a.
Proof.
  intros Hin. rewrite score_of_sum.
  induction terms as [|t terms IH]; [inversion Hin|].
  cbn [map]. rewrite list_sum_cons.
  apply elem_of_cons in Hin as [<-|Hin].
  - unfold term_points. rewrite includes_empty.
    destruct (in_title a ""); lia.
  - specialize (IH Hin). lia.
Qed.

(** X15. A query that is empty or starts with white space has an empty
    term, and the empty term is found in every article: every article then
    scores above zero and the search returns three articles, or the whole
    corpus when it has fewer. *)
Theorem searchKnowledge_blank_query (q : string) (w : world) :
  q = "" \/ (exists c r, q = String c r /\ is_space c = true) ->
  exists results,
    searchKnowledge (Some q) w = Returns results /\
    length results = min 3 (length (default [] (knowledge_json w))).
Proof.
  intros Hq. apply blank_term in Hq. unfold searchKnowledge.
  destruct (knowledge_json w) as [knowledge|]; [|exists []; split; reflexivity].
  cbn [receiver default from_option id]. fold (terms_of q).
  eexists. split; [reflexivity|].
  rewrite length_take. f_equal.
  rewrite (Permutation_length (sort_perm _)).
  rewrite filter_all; [apply length_map|].
  intros r Hr. apply list_elem_of_In, in_map_iff in Hr as (a & <- & _).
  cbn [sa_score score_article]. apply score_positive_with_blank. exact Hq.
Qed.

Lemma length_append (s r : string) :
  String.length (s +:+ r) = String.length s + String.length r.
Proof.
  induction s as [|c s IH]; [reflexivity|].
  rewrite append_cons. cbn [String.length]. rewrite IH. reflexivity.
Qed.

Lemma length_substring_0 (n : nat) (s : string) :
  String.length (String.substring 0 n s) = min n (String.length s).
Proof.
  revert s. induction n as [|n IH]; intros s.
  - destruct s; reflexivity.
  - destruct s as [|c s]; [reflexivity|].
    cbn [String.substring String.length]. rewrite IH. reflexivity.
Qed.

(** X16. The title shown for an article is its own title when that is a
    non-empty string.  Otherwise, when the article has content, it is the
    trimmed first line of the content if that has at most 50 characters,
    else its first 47 characters followed by three dots: in both cases at
    most 50 characters. *)
Theorem display_title_bounded (a : article) :
  (truthy (art_title a) = true /\ display_title a = art_title a) \/
  (truthy (art_title a) = false /\ default "" (art_content a) = "" /\
   display_title a = art_title a) \/
  (truthy (art_title a) = false /\
   exists s,
     display_title a = Some s /\
     String.length s <= 50 /\
     let firstLine := trim (first_line (default "" (art_content a))) in
     (String.length firstLine <= 50 /\ s = firstLine \/
      50 < String.length firstLine /\
      s = String.substring 0 47 firstLine +:+ "...")).
Proof.
  unfold display_title.
  destruct (truthy (art_title a)) eqn:Ht; [left; split; reflexivity|].
  right. cbn [negb andb].
  destruct (String.eqb_spec (default "" (art_content a)) "") as [He|Hne].
  - left. cbn [negb]. repeat split. exact He.
  - right. cbn [negb]. split; [reflexivity|].
    set (firstLine := trim (first_line (default "" (art_content a)))).
    destruct (Nat.ltb_spec 50 (String.length firstLine)) as [Hlong|Hshort].
    + eexists. split; [reflexivity|]. split.
      * rewrite length_append, length_substring_0.
        change (String.length "...") with 3. lia.
      * right. split; [exact Hlong|reflexivity].
    + eexists. split; [reflexivity|]. split; [exact Hshort|].
      left. split; [exact Hshort|reflexivity].
Qed.

(** X17. The search returns the best articles: the articles scoring above
    zero are, up to order, the returned ones followed by some others, and
    none of the others scores more than a returned one. *)
Theorem searchKnowledge_returns_best (q : string) (w : world) :
  exists results others,
    searchKnowledge (Some q) w = Returns results /\
    results ++ others ≡ₚ
      filter (fun r => 0 < sa_score r)
        (map (score_article (terms_of q)) (default [] (knowledge_json w))) /\
    (others <> [] -> length results = 3) /\
    forall r x, r ∈ results -> x ∈ others -> sa_score x <= sa_score r.
Proof.
  unfold searchKnowledge.
  destruct (knowledge_json w) as [knowledge|].
  2:{ exists [], []. split; [reflexivity|]. split; [reflexivity|].
      split; [congruence|]. intros r x Hr. inversion Hr. }
  cbn [receiver default from_option id]. fold (terms_of q).
  set (kept := filter (fun r => 0 < sa_score r)
                 (map (score_article (terms_of q)) knowledge)).
  exists (take 3 (sort by_score_desc kept)), (drop 3 (sort by_score_desc kept)).
  split; [reflexivity|].
  split; [rewrite take_drop; apply sort_perm|].
  split.
  { intros Hne. rewrite length_take. 
    destruct (Nat.le_gt_cases 3 (length (sort by_score_desc kept)))
      as [Hle|Hgt]; [lia|].
    exfalso. apply Hne. apply drop_ge. lia. }
  intros r x Hr Hx.
  apply list_elem_of_lookup in Hr as [i Hi].
  apply list_elem_of_lookup in Hx as [j Hj].
  apply lookup_take_Some in Hi as [Hi Hlt].
  rewrite lookup_drop in Hj.
  apply (sorted_descending _ (sort_sorted kept) i (3 + j) r x);
    [lia|exact Hi|exact Hj].
Qed.

(** ** Further properties of the controller *)

Lemma same_reference_data_trans (w1 w2 w3 : world) :
  same_reference_data w1 w2 -> same_reference_data w2 w3 ->
  same_reference_data w1 w3.
Proof.
  unfold same_reference_data. intros (?&?&?) (?&?&?).
  repeat split; congruence.
Qed.

Lemma same_reference_data_refl (w : world) : same_reference_data w w.
Proof. repeat split. Qed.

Lemma execute_tool_reference_data t atts functionName args w :
  same_reference_data w (snd (execute_tool t atts functionName args w)).
Proof.
  rewrite execute_tool_dispatch, snd_or_error_result.
  generalize (dispatched_args t atts functionName args). intros a.
  unfold call_tool.
  repeat match goal with
         | |- context [String.eqb functionName ?y] =>
             destruct (String.eqb_spec functionName y) as [->|?]
         end;
    rewrite ?snd_lift; cbn [snd];
    try apply same_reference_data_refl.
  - pose proof (check_cases a w) as Hc.
    destruct (check_similar_issues a w) as [r w1]. cbn [snd] in *.
    destruct Hc as [-> | ->]; repeat split.
  - apply create_touches.
  - apply update_touches.
  - apply complete_touches.
  - apply delete_touches.
Qed.

Lemma run_tool_calls_reference_data t atts calls conversation results w :
  same_reference_data w
    (snd (run_tool_calls t atts calls conversation results w)).
Proof.
  revert conversation results w.
  induction calls as [|tc calls IH]; intros conversation results w;
    [apply same_reference_data_refl|].
  cbn [run_tool_calls].
  destruct (tc_arguments tc) as [a|]; [|apply same_reference_data_refl].
  pose proof (execute_tool_reference_data t atts (tc_name tc) a w) as He.
  destruct (execute_tool t atts (tc_name tc) a w) as [r w1].
  eapply same_reference_data_trans; [exact He|apply IH].
Qed.

Lemma run_tool_calls_trace t atts calls conversation results w
    conversation' results' w' :
  run_tool_calls t atts calls conversation results w
    = (Returns (conversation', results'), w') ->
  map tr_name results' = map tr_name results ++ map tc_name calls.
Proof.
  revert conversation results w.
  induction calls as [|tc calls IH]; intros conversation results w Hrun.
  - cbn in Hrun. injection Hrun as _ <- _. cbn. rewrite app_nil_r. reflexivity.
  - cbn [run_tool_calls] in Hrun.
    destruct (tc_arguments tc) as [a|]; [|discriminate].
    destruct (execute_tool t atts (tc_name tc) a w) as [r w1].
    apply IH in Hrun. rewrite Hrun, map_app, <- app_assoc. reflexivity.
Qed.

Lemma agent_loop_general (n : nat) t atts :
  forall conversation calls results w,
    let out := agent_loop n t atts conversation calls results w in
    engine_calls (snd out) <= engine_calls w + n /\
    same_reference_data w (snd out) /\
    (map tc_name calls = map tr_name results ->
     forall m cs rs,
       fst out = Returns (Json m cs rs) ->
       am_tool_calls m = None /\ map tc_name cs = map tr_name rs).
Proof.
  induction n as [|n IH]; intros conversation calls results w; cbv zeta.
  - cbn. split; [lia|]. split; [apply same_reference_data_refl|].
    intros _ m cs rs H. discriminate.
  - cbn [agent_loop].
    destruct (engine conversation) as [e|m].
    { cbn. split; [lia|]. split; [repeat split|]. intros _ ? ? ? H.
      discriminate. }
    destruct (am_tool_calls m) as [tcs|] eqn:Htcs.
    2:{ cbn. split; [lia|]. split; [repeat split|].
        intros Hal m' cs rs [= <- <- <-]. split; assumption. }
    pose proof (run_tool_calls_engine_calls t atts tcs
                  (conversation ++ [Massistant m]) results
                  (count_engine_call w)) as Hcalls.
    pose proof (run_tool_calls_reference_data t atts tcs
                  (conversation ++ [Massistant m]) results
                  (count_engine_call w)) as Href.
    destruct (run_tool_calls t atts tcs (conversation ++ [Massistant m])
                results (count_engine_call w))
      as [[[conv' res']|e] w2] eqn:Hrun; cbn [snd] in *.
    + specialize (IH conv' (calls ++ tcs) res' w2). cbv zeta in IH.
      destruct IH as (Hb & Hr & Ht).
      split; [rewrite Hcalls in Hb; cbn in Hb; lia|].
      split.
      { eapply same_reference_data_trans; [|exact Hr].
        eapply same_reference_data_trans; [|exact Href]. repeat split. }
      intros Hal. apply Ht.
      rewrite (run_tool_calls_trace _ _ _ _ _ _ _ _ _ Hrun), map_app, Hal.
      reflexivity.
    + split; [rewrite Hcalls; cbn; lia|].
      split.
      { eapply same_reference_data_trans; [|exact Href]. repeat split. }
      intros _ ? ? ? H. discriminate.
Qed.

(** X18. Whatever the engine answers, a turn calls it at most 5 times and
    never changes the tenant, contractor or knowledge store. *)
Theorem chatHandler_bounded (req : request) (w : world) :
  engine_calls (snd (chatHandler req w)) <= engine_calls w + 5 /\
  same_reference_data w (snd (chatHandler req w)).
Proof.
  unfold chatHandler.
  destruct (load_tenant (req_tenantId req) w) as [t|e].
  - unfold turn_for.
    pose proof (agent_loop_general MAX_LOOPS t (req_attachments req)
                  (Msystem (system_prompt t (req_attachments req))
                     :: recent_messages (req_messages req)) [] [] w) as H.
    cbv zeta in H. destruct H as (Hb & Hr & _).
    destruct (agent_loop _ _ _ _ _ _ _) as [[r|e] w']; cbn [snd or_internal_error] in *;
      unfold MAX_LOOPS in Hb; split; assumption.
  - cbn. split; [lia|repeat split].
Qed.

(** X19. When a turn ends with an answer, the answer carries no tool call
    and the two traces delivered with it are aligned: they have the same
    length and the k-th result bears the name of the k-th tool call. *)
Theorem chatHandler_traces_aligned (req : request) (w : world) m calls
    results w' :
  chatHandler req w = (Json m calls results, w') ->
  am_tool_calls m = None /\
  map tc_name calls = map tr_name results /\
  length calls = length results.
Proof.
  unfold chatHandler. intros Hc.
  destruct (load_tenant (req_tenantId req) w) as [t|e]; [|discriminate].
  unfold turn_for in Hc.
  pose proof (agent_loop_general MAX_LOOPS t (req_attachments req)
                (Msystem (system_prompt t (req_attachments req))
                   :: recent_messages (req_messages req)) [] [] w) as H.
  cbv zeta in H. destruct H as (_ & _ & Ht).
  destruct (agent_loop _ _ _ _ _ _ _) as [[r|e] w2]; [|discriminate].
  cbn [or_internal_error] in Hc. injection Hc as -> <-.
  destruct (Ht eq_refl m calls results eq_refl) as [Hm Hal].
  split; [exact Hm|]. split; [exact Hal|].
  rewrite <- (length_map tc_name calls), Hal. apply length_map.
Qed.

Lemma recent_messages_window (older recent : list chat_message) :
  length recent = 4 -> recent_messages (older ++ recent) = recent.
Proof.
  intros Hlen. unfold recent_messages, MAX_HISTORY_MESSAGES.
  rewrite length_app, Hlen.
  destruct (Nat.ltb_spec 4 (length older + 4)) as [Hlt|Hge].
  - replace (length older + 4 - 4) with (length older) by lia.
    apply drop_app_length.
  - destruct older; [reflexivity|cbn in Hge; lia].
Qed.

(** X20. A turn depends on the last four messages of the history only: a
    request whose history ends with four given messages is answered like
    the request that carries those four alone, with the same world. *)
Theorem chatHandler_reads_last_four (older recent : list chat_message)
    (tenantId : option string) (atts : option (list attachment)) (w : world) :
  length recent = 4 ->
  chatHandler {| req_messages := older ++ recent; req_tenantId := tenantId;
                 req_attachments := atts |} w
  = chatHandler {| req_messages := recent; req_tenantId := tenantId;
                   req_attachments := atts |} w.
Proof.
  intros Hlen. unfold chatHandler, turn_for.
  cbn [req_messages req_tenantId req_attachments].
  rewrite (recent_messages_window older recent Hlen).
  pose proof (recent_messages_window [] recent Hlen) as Hown.
  cbn [app] in Hown. rewrite Hown. reflexivity.
Qed.

Lemma run_tool_calls_interrupted t atts done bad rest :
  Forall (fun tc => is_Some (tc_arguments tc)) done ->
  tc_arguments bad = None ->
  forall conversation results w,
  exists conversation' results' w',
    run_tool_calls t atts done conversation results w
      = (Returns (conversation', results'), w') /\
    run_tool_calls t atts (done ++ bad :: rest) conversation results w
      = (Throws "Unexpected token in JSON", w').
Proof.
  intros Hall Hbad. induction Hall as [|tc done [a Ha] _ IH];
    intros conversation results w.
  - eexists _, _, _. split; [reflexivity|]. cbn. rewrite Hbad. reflexivity.
  - cbn [run_tool_calls app]. rewrite Ha.
    destruct (execute_tool t atts (tc_name tc) a w) as [r w1]. apply IH.
Qed.

(** X21. A turn is not undone when it fails.  If the first answer of the
    engine asks for tool calls of which one has arguments that do not
    parse, the calls before it are executed, the turn ends with the
    generic status-500 failure, and the world it leaves is the world those
    executed calls produced: what they wrote stays written. *)
Theorem aborted_turn_keeps_effects (req : request) (w : world) (t : tenant)
    (m : assistant_message) (done rest : list tool_call) (bad : tool_call) :
  load_tenant (req_tenantId req) w = Returns t ->
  engine (Msystem (system_prompt t (req_attachments req))
            :: recent_messages (req_messages req)) = EngineMessage m ->
  am_tool_calls m = Some (done ++ bad :: rest) ->
  Forall (fun tc => is_Some (tc_arguments tc)) done ->
  tc_arguments bad = None ->
  exists conversation' results' w',
    run_tool_calls t (req_attachments req) done
      ((Msystem (system_prompt t (req_attachments req))
          :: recent_messages (req_messages req)) ++ [Massistant m])
      [] (count_engine_call w)
      = (Returns (conversation', results'), w') /\
    chatHandler req w = (Status500 "Internal Server Error", w').
Proof.
  intros Hload Hm Htcs Hdone Hbad.
  destruct (run_tool_calls_interrupted t (req_attachments req) done bad rest
              Hdone Hbad
              ((Msystem (system_prompt t (req_attachments req))
                  :: recent_messages (req_messages req)) ++ [Massistant m])
              [] (count_engine_call w))
    as (c' & r' & w' & Hrun & Hfail).
  exists c', r', w'. split; [exact Hrun|].
  unfold chatHandler, turn_for. rewrite Hload.
  change MAX_LOOPS with (S 4). cbn [agent_loop].
  rewrite Hm, Htcs, Hfail. reflexivity.
Qed.

(** ** Properties of the REST routes *)

Lemma valid_status_truthy (status : option string) :
  valid_status status ->
  truthy status = true /\ bool_decide (js_str status ∈ validStatuses) = true.
Proof.
  intros (s & -> & Hs). split.
  - cbn. destruct (String.eqb_spec s ""); [|reflexivity].
    subst s. exfalso. revert Hs. unfold validStatuses.
    rewrite !elem_of_cons, elem_of_nil. intuition discriminate.
  - apply bool_decide_eq_true. exact Hs.
Qed.

Lemma checked_status_valid (status : option string) :
  truthy status = true ->
  bool_decide (js_str status ∈ validStatuses) = true ->
  valid_status status.
Proof.
  intros Ht Hv. destruct status as [s|]; [|discriminate].
  exists s. split; [reflexivity|]. apply bool_decide_eq_true in Hv. exact Hv.
Qed.

(** X22. When the PATCH route answers with a record, the write succeeded,
    the status asked for is one of the five statuses and is the status of
    the record, [updated_at] is stamped, and [resolved_at] is stamped
    exactly when the status is [solved] or [completed] (it is left as it
    was otherwise); the record replaces the first one with the id and keeps
    its attachments. *)
Theorem patch_work_order_stamps (write_ok : bool) (id : string)
    (status : option string) (w : world) (wo' : work_order) (w' : world) :
  patch_work_order write_ok id status w = (Sent wo', w') ->
  write_ok = true /\
  valid_status status /\
  wo_status wo' = status /\
  wo_id wo' = id /\
  wo_updated_at wo' = Some (toISOString (clock (ticks w))) /\
  (resolved_status wo' ->
   wo_resolved_at wo' = Some (toISOString (clock (S (ticks w))))) /\
  exists i wo,
    list_find (has_id (Some id)) (read_work_orders w) = Some (i, wo) /\
    read_work_orders w' = <[i := wo']> (read_work_orders w) /\
    (~ resolved_status wo' -> wo_resolved_at wo' = wo_resolved_at wo) /\
    wo_attachments wo' = wo_attachments wo.
Proof.
  unfold patch_work_order.
  destruct (truthy status) eqn:Ht; cbn [negb]; [|discriminate].
  destruct (bool_decide (js_str status ∈ validStatuses)) eqn:Hv; cbn [negb];
    [|discriminate].
  pose proof (checked_status_valid status Ht Hv) as Hvalid.
  destruct (list_find (has_id (Some id)) (read_work_orders w))
    as [[i wo]|] eqn:Hf; [|discriminate].
  pose proof (list_find_lookup _ _ _ _ Hf) as [Hi Hid].
  assert (Hlt : i < length (read_work_orders w))
    by (eapply lookup_lt_Some; eauto).
  unfold has_id in Hid. injection Hid as Hid.
  cbn [Date_toISOString].
  destruct (bool_decide (status = Some "solved" \/ status = Some "completed"))
    eqn:Hres; cbn [Date_toISOString];
    (destruct write_ok; [|discriminate]);
    rewrite ?list_alter_alter_eq;
    rewrite (alter_as_insert _ _ _ _ Hi);
    rewrite list_lookup_insert_eq by assumption;
    intros [= <- <-]; rewrite read_stored_orders;
    (split; [reflexivity|]); (split; [exact Hvalid|]);
    (split; [reflexivity|]); (split; [exact Hid|]);
    (split; [reflexivity|]).
  - split; [intros _; reflexivity|].
    exists i, wo. split; [reflexivity|]. split; [reflexivity|].
    split; [|reflexivity].
    intros Hno. exfalso. apply Hno.
    apply bool_decide_eq_true in Hres.
    unfold resolved_status. cbn. destruct Hres; [right|left]; assumption.
  - apply bool_decide_eq_false in Hres. split.
    + intros Hr. exfalso. apply Hres. unfold resolved_status in Hr.
      cbn in Hr. destruct Hr; [right|left]; assumption.
    + exists i, wo. repeat split.
Qed.

(** X23. When the PATCH route answers with a failure, the work-order store
    and the reference stores are as before.  The failure is 400 exactly
    when the status is missing or not one of the five, 404 when the status
    is valid and no record has the id, and 500 when the write failed. *)
Theorem patch_work_order_failure (write_ok : bool) (id : string)
    (status : option string) (w : world) (code : nat) (e : string)
    (w' : world) :
  patch_work_order write_ok id status w = (Failed code e, w') ->
  work_orders_json w' = work_orders_json w /\
  same_reference_data w w' /\
  (code = 400 /\ ~ valid_status status /\ w' = w \/
   code = 404 /\ valid_status status /\ w' = w /\
     (forall wo, wo ∈ read_work_orders w -> wo_id wo <> id) \/
   code = 500 /\ valid_status status /\ write_ok = false).
Proof.
  unfold patch_work_order.
  destruct (truthy status) eqn:Ht; cbn [negb].
  2:{ intros [= <- <- <-]. split; [reflexivity|]. split; [repeat split|].
      left. split; [reflexivity|]. split; [|reflexivity].
      intros Hv. apply valid_status_truthy in Hv as [Hv _]. congruence. }
  destruct (bool_decide (js_str status ∈ validStatuses)) eqn:Hv; cbn [negb].
  2:{ intros [= <- <- <-]. split; [reflexivity|]. split; [repeat split|].
      left. split; [reflexivity|]. split; [|reflexivity].
      intros Hval. apply valid_status_truthy in Hval as [_ Hval]. congruence. }
  pose proof (checked_status_valid status Ht Hv) as Hvalid.
  destruct (list_find (has_id (Some id)) (read_work_orders w))
    as [[i wo]|] eqn:Hf.
  2:{ intros [= <- <- <-]. split; [reflexivity|]. split; [repeat split|].
      right. left. split; [reflexivity|]. split; [exact Hvalid|].
      split; [reflexivity|].
      apply list_find_None in Hf. intros x Hx Heq.
      apply (proj1 (Forall_forall _ _) Hf x Hx). unfold has_id. congruence. }
  pose proof (list_find_lookup _ _ _ _ Hf) as [Hi _].
  assert (Hlt : i < length (read_work_orders w))
    by (eapply lookup_lt_Some; eauto).
  cbn [Date_toISOString].
  destruct (bool_decide (status = Some "solved" \/ status = Some "completed"));
    cbn [Date_toISOString]; destruct write_ok;
    rewrite ?list_alter_alter_eq;
    rewrite ?(alter_as_insert _ _ _ _ Hi);
    rewrite ?list_lookup_insert_eq by assumption;
    try discriminate;
    intros [= <- <- <-]; (split; [reflexivity|]); (split; [repeat split|]);
    right; right; auto.
Qed.

Lemma sublist_map {A B} (f : A -> B) (l k : list A) :
  l `sublist_of` k -> map f l `sublist_of` map f k.
Proof.
  induction 1; cbn [map]; [constructor|apply sublist_skip|apply sublist_cons];
    assumption.
Qed.

Lemma filter_weaker_sublist {A B} (P Q : A -> Prop)
    `{forall x, Decision (P x)} `{forall x, Decision (Q x)}
    (f g : A -> B) (l : list A) :
  (forall x, P x -> Q x) -> (forall x, f x = g x) ->
  map f (filter P l) `sublist_of` map g (filter Q l).
Proof.
  intros HPQ Hfg. induction l as [|x l IH]; [constructor|].
  rewrite (filter_cons P), (filter_cons Q).
  destruct (decide (P x)) as [HP|HP].
  - rewrite decide_True by (apply HPQ; exact HP).
    cbn [map]. rewrite Hfg. apply sublist_skip. exact IH.
  - destruct (decide (Q x)); [cbn [map]; apply sublist_cons|]; exact IH.
Qed.

(** X24. Every order [get_work_orders] lists for a tenant is also sent by
    the route [GET /api/work-orders/:tenantId] for that tenant, in the same
    relative order: the route tests each of the two tenant properties on
    its own, where the tool reads the second only when the first is empty
    or absent. *)
Theorem tool_listing_within_route (tenantId : string) (args : tool_args)
    (w : world) :
  arg_tenant_id args = Some tenantId ->
  map os_id (get_work_orders args w)
  `sublist_of` map ol_id (list_work_orders_route tenantId w).
Proof.
  intros Ht. unfold get_work_orders, list_work_orders_route.
  rewrite Ht. rewrite !map_map. cbn [os_id summary_of ol_id listing_of].
  etransitivity.
  2:{ apply (filter_weaker_sublist
               (fun wo => js_or (wo_tenant_id wo) (wo_tenantId wo)
                          = Some tenantId)
               (fun wo => wo_tenant_id wo = Some tenantId \/
                          wo_tenantId wo = Some tenantId)
               wo_id wo_id (read_work_orders w)); [|reflexivity].
      intros wo. unfold js_or.
      destruct (truthy (wo_tenant_id wo)); intros Hjs; [left|right]; exact Hjs. }
  destruct (truthy (arg_status_filter args)); [|reflexivity].
  apply sublist_map, sublist_filter.
Qed.

Lemma find_pointwise {A} (f g : A -> bool) (l : list A) :
  (forall x, f x = g x) -> find f l = find g l.
Proof.
  intros Hfg. induction l as [|x l IH]; [reflexivity|].
  cbn [find]. rewrite Hfg, IH. reflexivity.
Qed.

(** X25. With a tenant store that has a first tenant, the route
    [GET /api/tenants/:id] and the chat handler look the tenant up alike
    when it exists; an id of no tenant gets 404 from the route, while the
    chat handler runs the turn for the first tenant. *)
Theorem tenant_route_and_chat (id : string) (w : world) (t0 : tenant)
    (rest : list tenant) :
  tenants_json w = Some (t0 :: rest) ->
  (exists t,
     t ∈ t0 :: rest /\ t_id t = id /\
     get_tenant_route id w = Returns (Sent t) /\
     load_tenant (Some id) w = Returns t) \/
  ((forall t, t ∈ t0 :: rest -> t_id t <> id) /\
   get_tenant_route id w = Returns (Failed 404 "Tenant not found") /\
   load_tenant (Some id) w = Returns t0).
Proof.
  intros Hstore. unfold get_tenant_route, load_tenant. rewrite Hstore.
  rewrite (find_pointwise
             (fun t => bool_decide (Some (t_id t) = Some id))
             (fun t => bool_decide (t_id t = id))).
  2:{ intros t. apply bool_decide_ext. split; congruence. }
  destruct (find (fun t => bool_decide (t_id t = id)) (t0 :: rest))
    as [t|] eqn:Hfind.
  - left. exists t. apply find_some in Hfind as [Hin Hid].
    apply bool_decide_eq_true in Hid. apply list_elem_of_In in Hin.
    repeat split; assumption.
  - right. split; [|split; reflexivity].
    intros t Hin Hid. apply list_elem_of_In in Hin.
    pose proof (find_none _ _ Hfind t Hin) as Hn.
    apply bool_decide_eq_false in Hn. contradiction.
Qed.

(** ** A further invariant of the state machine *)

Lemma map_insert_same {A B} (f : A -> B) (l : list A) (i : nat) (x y : A) :
  l !! i = Some x -> f y = f x -> map f (<[i := y]> l) = map f l.
Proof.
  revert i. induction l as [|z l IH]; intros i Hi Hf; [reflexivity|].
  destruct i as [|i].
  - cbn in Hi. injection Hi as ->.
    change (<[0 := y]> (x :: l)) with (y :: l). cbn [map].
    rewrite Hf. reflexivity.
  - change (<[S i := y]> (z :: l)) with (z :: <[i := y]> l). cbn [map].
    f_equal. apply IH; [exact Hi|exact Hf].
Qed.

Lemma apply_op_keeps_identities (o : op) (w : world) :
  map identity_of (read_work_orders w)
  `prefix_of` map identity_of (read_work_orders (apply_op o w)).
Proof.
  destruct (apply_op_cases o w)
    as [-> | [(a & c & _ & ->) | [(a & i & wo & _ & Hf & ->)
                                 | (a & i & wo & _ & Hf & ->)]]].
  - reflexivity.
  - rewrite map_app. apply prefix_app_r. reflexivity.
  - pose proof (list_find_lookup _ _ _ _ Hf) as [Hi _].
    rewrite (map_insert_same identity_of _ i wo); [reflexivity|exact Hi|].
    unfold updated_record, identity_of.
    destruct (arg_issue_summary a), (arg_priority a), (arg_status a);
      reflexivity.
  - pose proof (list_find_lookup _ _ _ _ Hf) as [Hi _].
    rewrite (map_insert_same identity_of _ i wo); [reflexivity|exact Hi|].
    unfold completed_record, identity_of.
    destruct (truthy (arg_resolution_notes a)); reflexivity.
Qed.

(** X26. Create, update and complete never remove or reorder a stored
    order and never change its id, tenant, contractor, creation time or
    attachments: after any sequence of them the collection starts with the
    old records under these properties, followed by the created ones. *)
Theorem run_keeps_identities (ops : list op) (w : world) :
  map identity_of (read_work_orders w)
  `prefix_of` map identity_of (read_work_orders (run ops w)).
Proof.
  revert w. induction ops as [|o ops IH]; intros w; [reflexivity|].
  cbn [run fold_left]. etransitivity; [apply apply_op_keeps_identities|].
  apply IH.
Qed.

(** ** Duplicate checking and the other operations *)

(** X27. The answer of [check_similar_issues] depends on the stored orders
    only through the active orders of the tenant: two worlds whose
    collections have the same active orders for the tenant get the same
    answer, whatever else they store (orders of other tenants, closed
    orders). *)
Theorem check_similar_issues_isolated (args : tool_args) (w1 w2 : world) :
  filter (is_active_for (arg_tenant_id args)) (read_work_orders w1)
    = filter (is_active_for (arg_tenant_id args)) (read_work_orders w2) ->
  fst (check_similar_issues args w1) = fst (check_similar_issues args w2).
Proof.
  intros Hsame. unfold check_similar_issues, compareIssuesWithLLM.
  rewrite Hsame.
  destruct (length _ =? 0)%nat; [reflexivity|].
  destruct (judge _ _) as [e|v]; [reflexivity|].
  destruct (is_similar v && truthy (matching_order_id v));
    [destruct (find _ _)|]; reflexivity.
Qed.

(** X28. After a creation that returns and whose write is accepted, for a
    tenant id that is a non-empty string, the new order is among the active
    orders of that tenant, so a duplicate check for the tenant is never
    answered by the fast path: it makes the secondary reasoning call. *)
Theorem create_then_checked (args check : tool_args) (w : world) view w' :
  create_work_order args w = (Returns view, w') ->
  disk (writes w) = true ->
  truthy (arg_tenant_id args) = true ->
  arg_tenant_id check = arg_tenant_id args ->
  (exists wo,
     wo ∈ filter (is_active_for (arg_tenant_id check)) (read_work_orders w') /\
     wo_id wo = wo_id (ov_order view)) /\
  judge_calls (snd (check_similar_issues check w')) = S (judge_calls w').
Proof.
  intros Hc Hdisk Ht Hq.
  apply create_returns in Hc as (c & _ & Hview & _ & ->).
  assert (Hin : created_record args c w
                ∈ filter (is_active_for (arg_tenant_id check))
                    (read_work_orders
                       (snd (writeJSON_work_orders
                               (read_work_orders w ++ [created_record args c w])
                               (tick (tick w)))))).
  { rewrite read_after_write by exact Hdisk.
    apply list_elem_of_filter. split.
    - unfold is_active_for. cbn. unfold js_or. rewrite Ht, Hq.
      split; [reflexivity|left; reflexivity].
    - apply elem_of_app. right. left. }
  split.
  - eexists. split; [exact Hin|]. rewrite Hview. reflexivity.
  - apply check_similar_issues_slow_path. intros Hnil.
    rewrite Hnil in Hin. inversion Hin.
Qed.

(** X29. For the duplicate check, completing an order is like deleting it:
    after a [complete_work_order] whose write is accepted the active orders
    of any tenant are those of the collection without the completed
    record. *)
Theorem completed_order_leaves_active_set (args : tool_args) (w : world)
    (i : nat) (wo : work_order) (tenant_id : option string) :
  list_find (has_id (arg_work_order_id args)) (read_work_orders w)
    = Some (i, wo) ->
  disk (writes w) = true ->
  filter (is_active_for tenant_id)
    (read_work_orders (snd (complete_work_order args w)))
  = filter (is_active_for tenant_id) (delete i (read_work_orders w)).
Proof.
  intros Hf Hdisk. pose proof (list_find_lookup _ _ _ _ Hf) as [Hi _].
  assert (Hlt : i < length (read_work_orders w))
    by (eapply lookup_lt_Some; eauto).
  rewrite (complete_found args w i wo Hf). cbn [snd].
  rewrite read_after_write by exact Hdisk.
  rewrite insert_take_drop by exact Hlt.
  rewrite delete_take_drop, !filter_app.
  rewrite filter_cons_False; [reflexivity|].
  unfold is_active_for, completed_record.
  destruct (truthy (arg_resolution_notes args)); cbn;
    intros [_ [H | [H | H]]]; discriminate H.
Qed.

(** ** The tenant of a turn *)

Lemma expand_replacement_plain (matched before after rep : string) :
  free_of "$" rep = true ->
  expand_replacement matched before after rep = rep.
Proof.
  induction rep as [|c r IH]; [reflexivity|].
  cbn [free_of expand_replacement]. intros H.
  apply andb_true_iff in H as [Hc Hr]. apply negb_true_iff in Hc.
  rewrite Hc, (IH Hr). reflexivity.
Qed.

(** A replacement text without dollar sign does not look at what precedes
    the match. *)
Lemma replace_from_before (pat rep : string) (k : nat) (b b' s : string) :
  free_of "$" rep = true ->
  replace_from pat rep k b s = replace_from pat rep k b' s.
Proof.
  intros Hrep. revert k b b'.
  induction s as [|c r IH]; intros k b b'; [reflexivity|].
  cbn [replace_from]. destruct k as [|k]; [|apply IH].
  destruct (String.prefix pat (String c r)).
  - rewrite !expand_replacement_plain by exact Hrep. f_equal. apply IH.
  - f_equal. apply IH.
Qed.

Lemma replace_from_skip (pat rep b s r : string) :
  free_of "$" rep = true ->
  replace_from pat rep (String.length s) b (s +:+ r)
  = replace_from pat rep 0 b r.
Proof.
  intros Hrep. revert b. induction s as [|c s IH]; intros b; [reflexivity|].
  rewrite append_cons. cbn [String.length replace_from]. rewrite IH.
  apply replace_from_before. exact Hrep.
Qed.

Lemma prefix_self (s r : string) : String.prefix s (s +:+ r) = true.
Proof.
  apply prefix_app_right. induction s as [|c s IH]; [reflexivity|].
  cbn [String.prefix]. destruct (Ascii.ascii_dec c c); [exact IH|congruence].
Qed.

(** At a match the replacement text takes the place of the pattern. *)
Lemma replace_from_match (c0 : ascii) (pat' rep b r : string) :
  free_of "$" rep = true ->
  replace_from (String c0 pat') rep 0 b (String c0 pat' +:+ r)
  = rep +:+ replace_from (String c0 pat') rep 0 b r.
Proof.
  intros Hrep.
  change (String c0 pat' +:+ r) with (String c0 (pat' +:+ r)) at 1.
  cbn [replace_from].
  change (String c0 (pat' +:+ r)) with (String c0 pat' +:+ r).
  rewrite prefix_self, expand_replacement_plain by exact Hrep.
  change (String.length (String c0 pat') - 1)
    with (String.length pat' - 0).
  rewrite Nat.sub_0_r, replace_from_skip by exact Hrep.
  f_equal. apply replace_from_before. exact Hrep.
Qed.

(** Text without brace is copied. *)
Lemma replace_from_text (pat' rep b s r : string) :
  free_of "$" rep = true ->
  free_of "{" s = true ->
  replace_from (String "{" pat') rep 0 b (s +:+ r)
  = s +:+ replace_from (String "{" pat') rep 0 b r.
Proof.
  intros Hrep. revert b. induction s as [|c s IH]; intros b Hs; [reflexivity|].
  cbn [free_of] in Hs. apply andb_true_iff in Hs as [Hc Hs].
  apply negb_true_iff in Hc.
  rewrite !append_cons. cbn [replace_from String.prefix].
  destruct (Ascii.ascii_dec "{" c) as [<-|_]; [discriminate Hc|].
  f_equal. rewrite (IH _ Hs). f_equal. apply replace_from_before. exact Hrep.
Qed.

(** A character at which the pattern does not start is copied. *)
Lemma replace_from_copy (pat rep b : string) (c : ascii) (s : string) :
  free_of "$" rep = true ->
  String.prefix pat (String c s) = false ->
  replace_from pat rep 0 b (String c s)
  = String c (replace_from pat rep 0 b s).
Proof.
  intros Hrep Hp. cbn [replace_from]. rewrite Hp. f_equal.
  apply replace_from_before. exact Hrep.
Qed.

(** Another placeholder is copied. *)
Lemma replace_from_other (which p : piece) (rep b r : string) :
  same_placeholder which which = true ->
  same_placeholder p p = true ->
  same_placeholder which p = false ->
  free_of "$" rep = true ->
  replace_from (piece_text which) rep 0 b (piece_text p +:+ r)
  = piece_text p +:+ replace_from (piece_text which) rep 0 b r.
Proof.
  intros Hw Hp Hne Hrep.
  destruct which; try discriminate Hw; destruct p; try discriminate Hp;
    try discriminate Hne; cbn [piece_text];
    match goal with
    | |- replace_from ?pat _ _ _ (String ?c1 (String ?c2 ?s) +:+ _) = _ =>
        change (String c1 (String c2 s) +:+ r)
          with (String c1 (String c2 (s +:+ r)));
        rewrite (replace_from_copy pat rep b c1) by (exact Hrep || reflexivity);
        rewrite (replace_from_copy pat rep b c2) by (exact Hrep || reflexivity);
        rewrite (replace_from_text _ rep b s r) by (exact Hrep || reflexivity)
    end;
    reflexivity.
Qed.

Lemma replace_pieces (which : piece) (rep b : string) (pieces : list piece) :
  same_placeholder which which = true ->
  free_of "$" rep = true ->
  forallb plain_piece pieces = true ->
  replace_from (piece_text which) rep 0 b (template_of pieces)
  = template_of (map (substituted which rep) pieces).
Proof.
  intros Hw Hrep. revert b.
  induction pieces as [|p ps IH]; intros b Hplain; [reflexivity|].
  cbn [forallb] in Hplain. apply andb_true_iff in Hplain as [Hp Hps].
  change (template_of (p :: ps)) with (piece_text p +:+ template_of ps).
  change (template_of (map (substituted which rep) (p :: ps)))
    with (piece_text (substituted which rep p)
          +:+ template_of (map (substituted which rep) ps)).
  rewrite <- (IH b Hps). unfold substituted.
  destruct (same_placeholder which p) eqn:Hsame.
  - assert (p = which) as ->
      by (destruct which, p; try discriminate; reflexivity).
    destruct which; try discriminate Hw; cbn [piece_text];
      apply replace_from_match; exact Hrep.
  - destruct p as [s| | |].
    + destruct which; try discriminate Hw; cbn [piece_text];
        apply replace_from_text; assumption.
    + apply replace_from_other; auto.
    + apply replace_from_other; auto.
    + apply replace_from_other; auto.
Qed.

Lemma substituted_plain (which : piece) (rep : string) (pieces : list piece) :
  free_of "{" rep = true ->
  forallb plain_piece pieces = true ->
  forallb plain_piece (map (substituted which rep) pieces) = true.
Proof.
  intros Hrep. induction pieces as [|p ps IH]; intros Hplain; [reflexivity|].
  cbn [forallb map] in *. apply andb_true_iff in Hplain as [Hp Hps].
  rewrite (IH Hps), andb_true_r. unfold substituted.
  destruct (same_placeholder which p); [exact Hrep|exact Hp].
Qed.

Lemma filled_by_substitution (t : tenant) (pieces : list piece) :
  template_of
    (map (substituted TenantUnit (t_unit t))
       (map (substituted TenantName (t_name t))
          (map (substituted TenantId (t_id t)) pieces)))
  = filled_with t pieces.
Proof.
  induction pieces as [|p ps IH]; [reflexivity|].
  cbn [map]. unfold template_of, filled_with in *. cbn [foldr].
  rewrite IH. destruct p; reflexivity.
Qed.

(** On a template whose text holds no brace, and for a tenant with plain
    properties, the three replacements put the tenant's id, name and unit
    in the place of every placeholder. *)
Lemma tenant_context_filled (t : tenant) (pieces : list piece) :
  SYSTEM_PROMPT = template_of pieces ->
  forallb plain_piece pieces = true ->
  plain_field (t_id t) = true ->
  plain_field (t_name t) = true ->
  plain_field (t_unit t) = true ->
  tenant_context t = filled_with t pieces.
Proof.
  intros Htpl Hplain Hid Hname Hunit.
  apply andb_true_iff in Hid as [Hid1 Hid2].
  apply andb_true_iff in Hname as [Hname1 Hname2].
  apply andb_true_iff in Hunit as [Hunit1 Hunit2].
  unfold tenant_context, replace_all. rewrite Htpl.
  rewrite (replace_pieces TenantId) by (reflexivity || assumption).
  rewrite (replace_pieces TenantName)
    by (reflexivity || assumption || (apply substituted_plain; assumption)).
  rewrite (replace_pieces TenantUnit)
    by (reflexivity || assumption ||
        (apply substituted_plain; [assumption|];
         apply substituted_plain; assumption)).
  apply filled_by_substitution.
Qed.

(** C10, as amended.  When the tenant store has a first tenant and no
    tenant of the store has the requested id, loading the tenant does not
    throw but yields the first tenant; the turn is the one run for that
    tenant, and it coincides with the turn of the same request carrying the
    first tenant's own id.  The context of that turn is the first tenant's:
    on a template whose literal text holds no brace, and when the first
    tenant's id, name and unit hold neither brace nor dollar sign, the
    turn is the agent loop run for the first tenant (whose id the tool
    calls are dispatched with) on a conversation that starts with the
    template in which every [{{TENANT_ID}}], [{{TENANT_NAME}}] and
    [{{TENANT_UNIT}}] has become the first tenant's id, name and unit,
    followed by the note on the attachments. *)
Theorem unknown_tenant_defaults_to_first (req : request) (w : world)
    (t0 : tenant) (rest : list tenant) :
  tenants_json w = Some (t0 :: rest) ->
  (forall t, t ∈ t0 :: rest -> Some (t_id t) <> req_tenantId req) ->
  load_tenant (req_tenantId req) w = Returns t0 /\
  chatHandler req w = or_internal_error (turn_for t0 req w) /\
  chatHandler req w = chatHandler (with_tenantId (Some (t_id t0)) req) w /\
  (forall pieces,
     SYSTEM_PROMPT = template_of pieces ->
     forallb plain_piece pieces = true ->
     plain_field (t_id t0) = true ->
     plain_field (t_name t0) = true ->
     plain_field (t_unit t0) = true ->
     chatHandler req w
     = or_internal_error
         (agent_loop MAX_LOOPS t0 (req_attachments req)
            (Msystem (with_attachments_note (req_attachments req)
                        (filled_with t0 pieces))
               :: recent_messages (req_messages req))
            [] [] w)).
Proof.
  intros Hstore Hunknown.
  assert (Hload : load_tenant (req_tenantId req) w = Returns t0).
  { unfold load_tenant. rewrite Hstore.
    rewrite (find_first_where _ (fun t => Some (t_id t) = req_tenantId req))
      by (intros t; apply bool_decide_eq_true).
    rewrite list_find_absent by exact Hunknown. reflexivity. }
  assert (Hown : load_tenant (Some (t_id t0)) w = Returns t0).
  { unfold load_tenant. rewrite Hstore. cbn [find].
    rewrite bool_decide_eq_true_2 by reflexivity. reflexivity. }
  split; [exact Hload|].
  unfold chatHandler. rewrite Hload. split; [reflexivity|].
  split.
  { cbn [with_tenantId req_tenantId]. rewrite Hown. reflexivity. }
  intros pieces Htpl Hplain Hid Hname Hunit.
  unfold turn_for, system_prompt.
  rewrite (tenant_context_filled t0 pieces Htpl Hplain Hid Hname Hunit).
  reflexivity.
Qed.

End Agent.

(** ** The definitions at work on the sample data *)

Example toLowerCase_sample : toLowerCase "AquaFix Plumbing" = "aquafix plumbing".
Proof. reflexivity. Qed.

Example includes_sample :
  includes "bright sparks gas" "sparks" = true /\
  includes "bright sparks gas" "" = true /\
  includes "bright sparks" "gas" = false.
Proof. repeat split. Qed.

Example split_ws_sample :
  split_ws "" false " smoke  alarm " = [""; "smoke"; "alarm"; ""] /\
  split_ws "" false "" = [""].
Proof. split; reflexivity. Qed.

Example replace_all_sample :
  system_prompt sample_prompt (List.hd (Build_tenant "" "" "") sample_tenants)
    None
  = "Tenant ID: tenant-001; Tenant: Ada; Unit: 1A".
Proof. vm_compute. reflexivity. Qed.

(** A replacement text is read for its dollar patterns. *)
Example replace_all_dollar_sample :
  replace_all "{{TENANT_NAME}}" "A$&B$$" "Tenant: {{TENANT_NAME}}."
  = "Tenant: A{{TENANT_NAME}}B$.".
Proof. vm_compute. reflexivity. Qed.

(** The note counts every attachment of the request. *)
Example attachments_note_sample :
  includes
    (with_attachments_note
       (Some [ {| att_id := "a1"; att_url := "data:1";
                  att_filename := "tap.jpg"; att_mediaType := "image/jpeg" |} ])
       "")
    "has attached 1 photo(s)" = true.
Proof. vm_compute. reflexivity. Qed.

Example searchKnowledge_sample :
  (fun l => map (fun r => (art_title (sa_article r), sa_score r)) l)
    <$> (match searchKnowledge (Some "alarm") sample_world with
         | Returns l => Some l
         | Throws _ => None
         end)
  = Some [ (Some "Smoke alarm", 3); (Some "Alarm", 3);
           (Some "smoke alarm beeping means battery", 1) ].
Proof. vm_compute. reflexivity. Qed.

Example create_by_name_sample :
  wo_contractor_id <$>
    read_work_orders
      (snd (create_work_order sample_clock sample_iso sample_disk
              (sample_create "bright sparks") sample_world))
  = [Some "contractor-002"].
Proof. vm_compute. reflexivity. Qed.

Example create_by_part_sample :
  wo_contractor_id <$>
    read_work_orders
      (snd (create_work_order sample_clock sample_iso sample_disk
              (sample_create "gas") sample_world))
  = [Some "contractor-003"].
Proof. vm_compute. reflexivity. Qed.

(** On a file system that refuses the write, the creation answers as it
    does when the write is accepted, and nothing is stored. *)
Example create_on_full_disk_sample :
  fst (create_work_order sample_clock sample_iso sample_disk_full
         (sample_create "contractor-001") sample_world)
  = fst (create_work_order sample_clock sample_iso sample_disk
           (sample_create "contractor-001") sample_world) /\
  read_work_orders
    (snd (create_work_order sample_clock sample_iso sample_disk_full
            (sample_create "contractor-001") sample_world)) = [].
Proof. vm_compute. split; reflexivity. Qed.

(** ** The theorems on the sample data *)





Lemma create_work_order_resolves_contractor_witness :
  arg_contractor_id (sample_create "bright sparks") = Some "bright sparks" /\
  exists newOrder view w',
    create_work_order sample_clock sample_iso sample_disk (sample_create "bright sparks")
      sample_world = (Returns view, w') /\
    work_orders_json w' = Some (read_work_orders sample_world ++ [newOrder]) /\
    wo_contractor_id newOrder = Some "contractor-002" /\
    wo_contractor_name newOrder = Some "Bright Sparks".
Proof.
  assert (H1 : arg_contractor_id (sample_create "bright sparks")
               = Some "bright sparks") by reflexivity.
  split; [exact H1|].
  pose proof (create_work_order_resolves_contractor sample_clock sample_iso sample_disk
                (sample_create "bright sparks") sample_world "bright sparks" H1)
    as Hthm.
  cbv zeta in Hthm.
  change (designated_contractor (default [] (contractors_json sample_world))
            "bright sparks")
    with (Some {| c_id := "contractor-002"; c_name := "Bright Sparks";
                  c_service := Some "electrical"; c_rest := [] |}) in Hthm.
  destruct Hthm as (n & v & w' & Heq & Hw & _ & Hid & Hname & _).
  exists n, v, w'. split; [exact Heq|]. split; [exact Hw|].
  split; [exact Hid|exact Hname].
Defined.

Lemma check_similar_issues_fast_path_witness :
  (forall wo, wo ∈ read_work_orders sample_world_with_orders ->
              ~ is_active_for (Some "tenant-002") wo) /\
  exists r,
    check_similar_issues sample_judge_hallucinating (sample_check "tenant-002")
      sample_world_with_orders = (r, sample_world_with_orders) /\
    has_similar r = false /\
    similar_order r = None /\
    error r = None /\
    active_orders_count r = Some 0 /\
    judge_calls
      (snd (check_similar_issues sample_judge_hallucinating
              (sample_check "tenant-002") sample_world_with_orders))
    = judge_calls sample_world_with_orders.
Proof.
  assert (H1 : forall wo, wo ∈ read_work_orders sample_world_with_orders ->
                          ~ is_active_for (Some "tenant-002") wo).
  { apply Forall_forall.
    repeat constructor; intros [Ht _]; cbn in Ht; discriminate Ht. }
  split; [exact H1|].
  exact (check_similar_issues_fast_path sample_judge_hallucinating
           (sample_check "tenant-002") sample_world_with_orders H1).
Defined.

Lemma check_similar_issues_fails_open_witness :
  filter (is_active_for (Some "tenant-001"))
    (read_work_orders sample_world_with_orders) <> [] /\
  (forall wo,
     wo ∈ filter (is_active_for (Some "tenant-001"))
            (read_work_orders sample_world_with_orders) ->
     wo_id wo <> "wo-999") /\
  exists r w',
    check_similar_issues sample_judge_hallucinating (sample_check "tenant-001")
      sample_world_with_orders = (r, w') /\
    has_similar r = false /\
    similar_order r = None /\
    error r = Some "Could not perform semantic comparison" /\
    active_orders_count r = Some 1 /\
    existing_issues r
      = Some [ {| ib_id := "wo-2";
                  ib_issue_summary := Some "kitchen tap is dripping";
                  ib_trade := Some "plumbing" |} ] /\
    judge_calls w' = 1.
Proof.
  assert (H1 : filter (is_active_for (Some "tenant-001"))
                 (read_work_orders sample_world_with_orders) <> [])
    by discriminate.
  assert (H2 : forall wo,
             wo ∈ filter (is_active_for (Some "tenant-001"))
                    (read_work_orders sample_world_with_orders) ->
             wo_id wo <> "wo-999").
  { apply Forall_forall. repeat constructor. cbn. discriminate. }
  split; [exact H1|]. split; [exact H2|].
  refine (check_similar_issues_fails_open sample_judge_hallucinating
            (sample_check "tenant-001") sample_world_with_orders H1
            (or_intror _)).
  eexists _, "wo-999". split; [reflexivity|]. split; [reflexivity|].
  split; [reflexivity|]. split; [discriminate|exact H2].
Defined.

Lemma tenant_id_overridden_witness :
  tenant_scoped "create_work_order" /\
  with_tenant_id None (sample_create "contractor-001")
    = with_tenant_id None
        (with_tenant_id (Some "tenant-002") (sample_create "contractor-001")) /\
  arg_tenant_id
    (dispatched_args (Build_tenant "tenant-001" "Ada" "1A") None
       "create_work_order"
       (with_tenant_id (Some "tenant-002") (sample_create "contractor-001")))
    = Some "tenant-001" /\
  execute_tool sample_clock sample_iso sample_disk sample_judge_hallucinating
    (Build_tenant "tenant-001" "Ada" "1A") None "create_work_order"
    (with_tenant_id (Some "tenant-002") (sample_create "contractor-001"))
    sample_world
  = execute_tool sample_clock sample_iso sample_disk sample_judge_hallucinating
      (Build_tenant "tenant-001" "Ada" "1A") None "create_work_order"
      (sample_create "contractor-001") sample_world.
Proof.
  assert (H1 : tenant_scoped "create_work_order") by (right; left; reflexivity).
  assert (H2 : with_tenant_id None
                 (with_tenant_id (Some "tenant-002")
                    (sample_create "contractor-001"))
               = with_tenant_id None (sample_create "contractor-001"))
    by reflexivity.
  split; [exact H1|]. split; [symmetry; exact H2|].
  destruct (tenant_id_overridden sample_clock sample_iso sample_disk
              sample_judge_hallucinating
              (Build_tenant "tenant-001" "Ada" "1A") None "create_work_order"
              (with_tenant_id (Some "tenant-002")
                 (sample_create "contractor-001"))
              (sample_create "contractor-001") sample_world H1 H2)
    as (_ & Hid & Hexec).
  split; [exact Hid|exact Hexec].
Defined.

Lemma chatHandler_stops_at_cap_witness :
  always_calls_tools sample_engine_busy /\
  exists err w',
    chatHandler sample_clock sample_iso sample_disk sample_judge_hallucinating
      sample_engine_busy sample_prompt (sample_request "tenant-001")
      sample_world = (Status500 err, w') /\
    engine_calls w' <= engine_calls sample_world + 5 /\
    (is_Some (tenants_json sample_world ≫= head) ->
     arguments_parse sample_engine_busy ->
     err = "Agent loop limit exceeded" /\
     engine_calls w' = engine_calls sample_world + 5).
Proof.
  assert (H1 : always_calls_tools sample_engine_busy).
  { intros conversation. eexists _, _. split; reflexivity. }
  split; [exact H1|].
  exact (chatHandler_stops_at_cap sample_clock sample_iso sample_disk
           sample_judge_hallucinating sample_engine_busy sample_prompt
           (sample_request "tenant-001") sample_world H1).
Defined.

Example chatHandler_busy_sample :
  fst (chatHandler sample_clock sample_iso sample_disk sample_judge_hallucinating
         sample_engine_busy sample_prompt (sample_request "tenant-001")
         sample_world)
  = Status500 "Agent loop limit exceeded" /\
  engine_calls
    (snd (chatHandler sample_clock sample_iso sample_disk sample_judge_hallucinating
            sample_engine_busy sample_prompt (sample_request "tenant-001")
            sample_world)) = 5.
Proof. vm_compute. split; reflexivity. Qed.

(** C10, as stated, fails on a tenant store that holds no tenant: no
    tenant has the requested id, there is no first tenant to fall back on,
    and the turn ends with the generic failure before the engine is
    called. *)
Lemma unknown_tenant_counterexample :
  tenants_json sample_world_no_tenants = Some [] /\
  (forall t, t ∈ default [] (tenants_json sample_world_no_tenants) ->
             Some (t_id t) <> req_tenantId (sample_request "tenant-999")) /\
  chatHandler sample_clock sample_iso sample_disk sample_judge_hallucinating
    sample_engine_busy sample_prompt (sample_request "tenant-999")
    sample_world_no_tenants
  = (Status500 "Internal Server Error", sample_world_no_tenants).
Proof.
  split; [reflexivity|]. split; [|reflexivity].
  intros t Ht. inversion Ht.
Qed.

Lemma unknown_tenant_defaults_to_first_witness :
  tenants_json sample_world
    = Some (Build_tenant "tenant-001" "Ada" "1A"
            :: [Build_tenant "tenant-002" "Grace" "2B"]) /\
  (forall t, t ∈ sample_tenants ->
             Some (t_id t) <> req_tenantId (sample_request "tenant-999")) /\
  load_tenant (Some "tenant-999") sample_world
    = Returns (Build_tenant "tenant-001" "Ada" "1A") /\
  chatHandler sample_clock sample_iso sample_disk sample_judge_hallucinating
    sample_engine_busy sample_prompt (sample_request "tenant-999") sample_world
  = chatHandler sample_clock sample_iso sample_disk sample_judge_hallucinating
      sample_engine_busy sample_prompt (sample_request "tenant-001")
      sample_world /\
  chatHandler sample_clock sample_iso sample_disk sample_judge_hallucinating
    sample_engine_busy sample_prompt (sample_request "tenant-999") sample_world
  = or_internal_error
      (agent_loop sample_clock sample_iso sample_disk
         sample_judge_hallucinating sample_engine_busy MAX_LOOPS
         (Build_tenant "tenant-001" "Ada" "1A") None
         [ Msystem "Tenant ID: tenant-001; Tenant: Ada; Unit: 1A";
           Mchat "user" "my tap drips" ]
         [] [] sample_world).
Proof.
  assert (H1 : tenants_json sample_world
               = Some (Build_tenant "tenant-001" "Ada" "1A"
                       :: [Build_tenant "tenant-002" "Grace" "2B"]))
    by reflexivity.
  assert (H2 : forall t, t ∈ sample_tenants ->
                 Some (t_id t) <> req_tenantId (sample_request "tenant-999")).
  { apply Forall_forall. repeat constructor; cbn; discriminate. }
  split; [exact H1|]. split; [exact H2|].
  destruct (unknown_tenant_defaults_to_first sample_clock sample_iso sample_disk
              sample_judge_hallucinating sample_engine_busy sample_prompt
              (sample_request "tenant-999") sample_world _ _ H1 H2)
    as (Hload & _ & Hsame & Hcontext).
  split; [exact Hload|]. split; [exact Hsame|].
  exact (Hcontext sample_pieces eq_refl eq_refl eq_refl eq_refl eq_refl).
Defined.

(** ** The further properties on the sample data *)

Lemma delete_work_order_removes_one_witness :
  list_find (has_id (Some "wo-2")) (read_work_orders sample_world_with_orders)
    = Some (1, sample_order "wo-2" "assigned") /\
  exists d w',
    delete_work_order sample_disk (by_id (Some "wo-2")) sample_world_with_orders
      = (Returns d, w') /\
    ov_attachments_count (deleted_order d) = 1 /\
    read_work_orders w' = [sample_order "wo-1" "solved"].
Proof.
  assert (H1 : list_find (has_id (Some "wo-2"))
                 (read_work_orders sample_world_with_orders)
               = Some (1, sample_order "wo-2" "assigned")) by reflexivity.
  split; [exact H1|].
  destruct (delete_work_order_removes_one sample_disk (by_id (Some "wo-2"))
              sample_world_with_orders 1 (sample_order "wo-2" "assigned") H1)
    as (d & w' & Heq & _ & _ & Hcount & _ & Hstore & _).
  exists d, w'. split; [exact Heq|]. split; [exact Hcount|exact Hstore].
Defined.

Lemma delete_then_not_found_witness :
  NoDup (map wo_id (read_work_orders sample_world_with_orders)) /\
  sample_disk (writes sample_world_with_orders) = true /\
  exists d w',
    delete_work_order sample_disk (by_id (Some "wo-2")) sample_world_with_orders
      = (Returns d, w') /\
    complete_work_order sample_clock sample_iso sample_disk (by_id (Some "wo-2")) w'
      = (Throws "Work order wo-2 not found.", w') /\
    update_work_order sample_clock sample_iso sample_disk (by_id (Some "wo-2")) w'
      = (Throws "Work order wo-2 not found.", w').
Proof.
  assert (H1 : NoDup (map wo_id (read_work_orders sample_world_with_orders))).
  { apply (bool_decide_unpack _). vm_compute. exact I. }
  assert (Hd : sample_disk (writes sample_world_with_orders) = true)
    by reflexivity.
  split; [exact H1|]. split; [exact Hd|].
  let v := eval vm_compute in
             (delete_work_order sample_disk (by_id (Some "wo-2")) sample_world_with_orders)
  in match v with
     | (Returns ?d, ?w') =>
         assert (H2 : delete_work_order sample_disk (by_id (Some "wo-2"))
                        sample_world_with_orders = (Returns d, w'))
           by (vm_compute; reflexivity);
         exists d, w'; split; [exact H2|];
         destruct (delete_then_not_found sample_clock sample_iso sample_disk
                     (by_id (Some "wo-2")) sample_world_with_orders d w' H1 Hd
                     H2)
           as (_ & Hu & Hc & _);
         split; [exact Hc|exact Hu]
     end.
Defined.

Lemma create_then_listed_witness :
  truthy (arg_tenant_id (sample_create "contractor-001")) = true /\
  exists view w' s,
    create_work_order sample_clock sample_iso sample_disk (sample_create "contractor-001")
      sample_world_with_orders = (Returns view, w') /\
    get_work_orders (with_tenant_id (Some "tenant-001") no_args) w'
      = get_work_orders (with_tenant_id (Some "tenant-001") no_args)
          sample_world_with_orders ++ [s] /\
    os_id s = wo_id (ov_order view) /\
    os_status s = Some "assigned".
Proof.
  assert (H1 : truthy (arg_tenant_id (sample_create "contractor-001")) = true)
    by reflexivity.
  split; [exact H1|].
  let v := eval vm_compute in
             (create_work_order sample_clock sample_iso sample_disk
                (sample_create "contractor-001") sample_world_with_orders)
  in match v with
     | (Returns ?view, ?w') =>
         assert (H2 : create_work_order sample_clock sample_iso sample_disk
                        (sample_create "contractor-001")
                        sample_world_with_orders = (Returns view, w'))
           by (vm_compute; reflexivity);
         destruct (create_then_listed sample_clock sample_iso sample_disk
                     (sample_create "contractor-001")
                     (with_tenant_id (Some "tenant-001") no_args)
                     sample_world_with_orders view w' H2 H1 eq_refl eq_refl)
           as (s & Hl & Hid & _ & Hs & _);
         exists view, w', s; split; [exact H2|]; split; [exact Hl|];
         split; [exact Hid|exact Hs]
     end.
Defined.

Lemma complete_work_order_frame_witness :
  list_find (has_id (Some "wo-2")) (read_work_orders sample_world_with_orders)
    = Some (1, sample_order "wo-2" "assigned") /\
  exists wo' w',
    complete_work_order sample_clock sample_iso sample_disk (by_id (Some "wo-2"))
      sample_world_with_orders = (Returns (view_of wo'), w') /\
    read_work_orders w' !! 0 = Some (sample_order "wo-1" "solved") /\
    wo_resolution_notes wo' = None /\
    wo_attachments wo' = wo_attachments (sample_order "wo-2" "assigned").
Proof.
  assert (H1 : list_find (has_id (Some "wo-2"))
                 (read_work_orders sample_world_with_orders)
               = Some (1, sample_order "wo-2" "assigned")) by reflexivity.
  split; [exact H1|].
  destruct (complete_work_order_frame sample_clock sample_iso sample_disk
              (by_id (Some "wo-2")) sample_world_with_orders 1
              (sample_order "wo-2" "assigned") H1)
    as (wo' & w' & Heq & _ & _ & _ & Hother & Hnotes & Hatt & _).
  exists wo', w'. split; [exact Heq|].
  split; [rewrite Hother by discriminate; reflexivity|].
  split; [exact Hnotes|exact Hatt].
Defined.

Lemma create_ids_follow_clock_witness :
  sample_disk (writes sample_world) = true /\
  sample_disk (S (writes sample_world)) = true /\
  exists v1 w1 v2 w2,
    create_work_order sample_frozen_clock sample_iso sample_disk
      (sample_create "contractor-001") sample_world = (Returns v1, w1) /\
    create_work_order sample_frozen_clock sample_iso sample_disk
      (sample_create "contractor-002") w1 = (Returns v2, w2) /\
    wo_id (ov_order v1) = "wo-1700000000000" /\
    wo_id (ov_order v2) = "wo-1700000000000" /\
    wo_status <$>
      (read_work_orders
         (snd (complete_work_order sample_frozen_clock sample_iso sample_disk
                 (by_id (Some "wo-1700000000000")) w2)) !! 1)
    = Some (Some "assigned").
Proof.
  split; [reflexivity|]. split; [reflexivity|].
  let r1 := eval vm_compute in
              (create_work_order sample_frozen_clock sample_iso sample_disk
                 (sample_create "contractor-001") sample_world)
  in match r1 with
     | (Returns ?v1, ?w1) =>
         let r2 := eval vm_compute in
                     (create_work_order sample_frozen_clock sample_iso sample_disk
                        (sample_create "contractor-002") w1)
         in match r2 with
            | (Returns ?v2, ?w2) =>
                assert (H1 : create_work_order sample_frozen_clock sample_iso sample_disk
                               (sample_create "contractor-001") sample_world
                             = (Returns v1, w1)) by (vm_compute; reflexivity);
                assert (H2 : create_work_order sample_frozen_clock sample_iso sample_disk
                               (sample_create "contractor-002") w1
                             = (Returns v2, w2)) by (vm_compute; reflexivity);
                assert (H3 : forall wo, wo ∈ read_work_orders sample_world ->
                                        wo_id wo <> wo_id (ov_order v1))
                  by (intros wo Hwo; inversion Hwo);
                destruct (create_ids_follow_clock sample_frozen_clock
                            sample_iso sample_disk (sample_create "contractor-001")
                            (sample_create "contractor-002")
                            (by_id (Some "wo-1700000000000")) sample_world
                            v1 w1 v2 w2 H1 H2 eq_refl eq_refl eq_refl H3
                            eq_refl)
                  as (Hid1 & Hid2 & n1 & n2 & _ & _ & Hst & Hkeep);
                exists v1, w1, v2, w2;
                split; [exact H1|]; split; [exact H2|];
                split; [exact Hid1|];
                split; [rewrite Hid2; exact Hid1|];
                change (S (length (read_work_orders sample_world))) with 1
                  in Hkeep;
                rewrite Hkeep; cbn; rewrite Hst; reflexivity
            end
     end.
Defined.

Lemma get_available_contractors_no_trade_witness :
  truthy (arg_trade no_args) = false /\
  get_available_contractors no_args sample_world = sample_contractors.
Proof.
  assert (H1 : truthy (arg_trade no_args) = false) by reflexivity.
  split; [exact H1|].
  exact (get_available_contractors_no_trade no_args sample_world H1).
Defined.

Lemma by_id_tools_ignore_tenant_witness :
  addressed_by_id "complete_work_order" /\
  execute_tool sample_clock sample_iso sample_disk sample_judge_hallucinating
    (Build_tenant "tenant-002" "Grace" "2B") None "complete_work_order"
    (by_id (Some "wo-2")) sample_world_with_orders
  = execute_tool sample_clock sample_iso sample_disk sample_judge_hallucinating
      (Build_tenant "tenant-001" "Ada" "1A") None "complete_work_order"
      (by_id (Some "wo-2")) sample_world_with_orders.
Proof.
  assert (H1 : addressed_by_id "complete_work_order")
    by (right; left; reflexivity).
  split; [exact H1|].
  exact (proj2 (by_id_tools_ignore_tenant sample_clock sample_iso sample_disk
                  sample_judge_hallucinating
                  (Build_tenant "tenant-002" "Grace" "2B")
                  (Build_tenant "tenant-001" "Ada" "1A") None None
                  "complete_work_order" (by_id (Some "wo-2"))
                  sample_world_with_orders H1)).
Defined.

Lemma check_similar_issues_sound_witness :
  has_similar
    (fst (check_similar_issues sample_judge_matching (sample_check "tenant-001")
            sample_world_with_orders)) = true /\
  exists wo,
    wo ∈ read_work_orders sample_world_with_orders /\
    is_active_for (Some "tenant-001") wo /\
    wo_id wo = "wo-2" /\
    similar_order
      (fst (check_similar_issues sample_judge_matching
              (sample_check "tenant-001") sample_world_with_orders))
    = Some (issue_of wo).
Proof.
  assert (H1 : has_similar
                 (fst (check_similar_issues sample_judge_matching
                         (sample_check "tenant-001")
                         sample_world_with_orders)) = true) by reflexivity.
  split; [exact H1|].
  destruct (check_similar_issues_sound sample_judge_matching
              (sample_check "tenant-001") sample_world_with_orders H1)
    as (wo & v & Hin & Hact & Hso & Hj & Hid & _).
  exists wo. split; [exact Hin|]. split; [exact Hact|].
  split; [|exact Hso].
  injection Hj as <-. injection Hid as Hid. symmetry. exact Hid.
Defined.

Lemma searchKnowledge_blank_query_witness :
  (" boiler" = "" \/
   exists c r, " boiler" = String c r /\ is_space c = true) /\
  exists results,
    searchKnowledge (Some " boiler") sample_world = Returns results /\
    length results = 3.
Proof.
  assert (H1 : " boiler" = "" \/
               exists c r, " boiler" = String c r /\ is_space c = true).
  { right. eexists _, _. split; reflexivity. }
  split; [exact H1|].
  exact (searchKnowledge_blank_query " boiler" sample_world H1).
Defined.

Lemma chatHandler_traces_aligned_witness :
  exists m calls results w',
    chatHandler sample_clock sample_iso sample_disk sample_judge_hallucinating
      sample_engine_once sample_prompt (sample_request "tenant-001")
      sample_world = (Json m calls results, w') /\
    am_tool_calls m = None /\
    map tc_name calls = ["create_work_order"] /\
    map tr_name results = ["create_work_order"].
Proof.
  let v := eval vm_compute in
             (chatHandler sample_clock sample_iso sample_disk sample_judge_hallucinating
                sample_engine_once sample_prompt (sample_request "tenant-001")
                sample_world)
  in match v with
     | (Json ?m ?calls ?results, ?w') =>
         assert (H1 : chatHandler sample_clock sample_iso sample_disk
                        sample_judge_hallucinating sample_engine_once
                        sample_prompt (sample_request "tenant-001")
                        sample_world = (Json m calls results, w'))
           by (vm_compute; reflexivity);
         destruct (chatHandler_traces_aligned sample_clock sample_iso sample_disk
                     sample_judge_hallucinating sample_engine_once
                     sample_prompt (sample_request "tenant-001") sample_world
                     m calls results w' H1) as (Hm & Hal & _);
         exists m, calls, results, w';
         split; [exact H1|]; split; [exact Hm|];
         split; [reflexivity|rewrite <- Hal; reflexivity]
     end.
Defined.

Lemma chatHandler_reads_last_four_witness :
  length (drop 1 sample_history) = 4 /\
  chatHandler sample_clock sample_iso sample_disk sample_judge_hallucinating
    sample_engine_once sample_prompt
    {| req_messages := sample_history; req_tenantId := Some "tenant-001";
       req_attachments := None |} sample_world
  = chatHandler sample_clock sample_iso sample_disk sample_judge_hallucinating
      sample_engine_once sample_prompt
      {| req_messages := drop 1 sample_history;
         req_tenantId := Some "tenant-001"; req_attachments := None |}
      sample_world.
Proof.
  assert (H1 : length (drop 1 sample_history) = 4) by reflexivity.
  split; [exact H1|].
  exact (chatHandler_reads_last_four sample_clock sample_iso sample_disk
           sample_judge_hallucinating sample_engine_once sample_prompt
           (take 1 sample_history) (drop 1 sample_history)
           (Some "tenant-001") None sample_world H1).
Defined.

Lemma aborted_turn_keeps_effects_witness :
  load_tenant (req_tenantId (sample_request "tenant-001")) sample_world
    = Returns (Build_tenant "tenant-001" "Ada" "1A") /\
  Forall (fun tc => is_Some (tc_arguments tc)) [sample_create_call] /\
  tc_arguments sample_broken_call = None /\
  exists w',
    chatHandler sample_clock sample_iso sample_disk sample_judge_hallucinating
      sample_engine_broken sample_prompt (sample_request "tenant-001")
      sample_world = (Status500 "Internal Server Error", w') /\
    wo_status <$> read_work_orders w' = [Some "assigned"].
Proof.
  assert (H1 : load_tenant (req_tenantId (sample_request "tenant-001"))
                 sample_world
               = Returns (Build_tenant "tenant-001" "Ada" "1A"))
    by reflexivity.
  assert (H2 : Forall (fun tc => is_Some (tc_arguments tc))
                 [sample_create_call]).
  { repeat constructor. eexists. reflexivity. }
  assert (H3 : tc_arguments sample_broken_call = None) by reflexivity.
  split; [exact H1|]. split; [exact H2|]. split; [exact H3|].
  destruct (aborted_turn_keeps_effects sample_clock sample_iso sample_disk
              sample_judge_hallucinating sample_engine_broken sample_prompt
              (sample_request "tenant-001") sample_world
              (Build_tenant "tenant-001" "Ada" "1A")
              {| am_content := None;
                 am_tool_calls := Some ([sample_create_call] ++
                                        sample_broken_call :: []) |}
              [sample_create_call] [] sample_broken_call
              H1 eq_refl eq_refl H2 H3)
    as (c' & r' & w' & Hrun & Hch).
  exists w'. split; [exact Hch|].
  vm_compute in Hrun. injection Hrun as _ _ <-. reflexivity.
Defined.

Lemma patch_work_order_stamps_witness :
  exists wo' w',
    patch_work_order sample_clock sample_iso true "wo-2" (Some "completed")
      sample_world_with_orders = (Sent wo', w') /\
    wo_status wo' = Some "completed" /\
    wo_updated_at wo' = Some (sample_iso (sample_clock 0)) /\
    wo_resolved_at wo' = Some (sample_iso (sample_clock 1)).
Proof.
  let v := eval vm_compute in
             (patch_work_order sample_clock sample_iso true "wo-2"
                (Some "completed") sample_world_with_orders)
  in match v with
     | (Sent ?wo', ?w') =>
         assert (H1 : patch_work_order sample_clock sample_iso true "wo-2"
                        (Some "completed") sample_world_with_orders
                      = (Sent wo', w')) by (vm_compute; reflexivity);
         destruct (patch_work_order_stamps sample_clock sample_iso true "wo-2"
                     (Some "completed") sample_world_with_orders wo' w' H1)
           as (_ & _ & Hs & _ & Hu & Hr & _);
         exists wo', w'; split; [exact H1|]; split; [exact Hs|];
         split; [exact Hu|]; apply Hr; left; exact Hs
     end.
Defined.

Lemma patch_work_order_failure_witness :
  exists e w',
    patch_work_order sample_clock sample_iso true "wo-2" (Some "done")
      sample_world_with_orders = (Failed 400 e, w') /\
    ~ valid_status (Some "done") /\
    work_orders_json w' = work_orders_json sample_world_with_orders.
Proof.
  let v := eval vm_compute in
             (patch_work_order sample_clock sample_iso true "wo-2"
                (Some "done") sample_world_with_orders)
  in match v with
     | (Failed ?code ?e, ?w') =>
         assert (H1 : patch_work_order sample_clock sample_iso true "wo-2"
                        (Some "done") sample_world_with_orders
                      = (Failed 400 e, w')) by (vm_compute; reflexivity);
         destruct (patch_work_order_failure sample_clock sample_iso true
                     "wo-2" (Some "done") sample_world_with_orders 400 e w' H1)
           as (Hstore & _ & [(_ & Hinv & _) | [(Hc & _) | (Hc & _)]]);
         try discriminate Hc;
         exists e, w'; split; [exact H1|]; split; [exact Hinv|exact Hstore]
     end.
Defined.

Lemma tool_listing_within_route_witness :
  arg_tenant_id (sample_listing "tenant-001" "ASSIGNED") = Some "tenant-001" /\
  map os_id
    (get_work_orders (sample_listing "tenant-001" "ASSIGNED")
       sample_world_with_orders)
  `sublist_of`
  map ol_id (list_work_orders_route "tenant-001" sample_world_with_orders).
Proof.
  assert (H1 : arg_tenant_id (sample_listing "tenant-001" "ASSIGNED")
               = Some "tenant-001") by reflexivity.
  split; [exact H1|].
  exact (tool_listing_within_route "tenant-001"
           (sample_listing "tenant-001" "ASSIGNED") sample_world_with_orders
           H1).
Defined.

Lemma tenant_route_and_chat_witness :
  tenants_json sample_world
    = Some (Build_tenant "tenant-001" "Ada" "1A"
            :: [Build_tenant "tenant-002" "Grace" "2B"]) /\
  get_tenant_route "tenant-999" sample_world
    = Returns (Failed 404 "Tenant not found") /\
  load_tenant (Some "tenant-999") sample_world
    = Returns (Build_tenant "tenant-001" "Ada" "1A").
Proof.
  assert (H1 : tenants_json sample_world
               = Some (Build_tenant "tenant-001" "Ada" "1A"
                       :: [Build_tenant "tenant-002" "Grace" "2B"]))
    by reflexivity.
  split; [exact H1|].
  destruct (tenant_route_and_chat "tenant-999" sample_world _ _ H1)
    as [(t & _ & _ & Hr & _) | (_ & Hr & Hl)].
  - vm_compute in Hr. discriminate Hr.
  - split; [exact Hr|exact Hl].
Defined.

Lemma check_similar_issues_isolated_witness :
  filter (is_active_for (Some "tenant-001"))
    (read_work_orders sample_world_with_orders)
  = filter (is_active_for (Some "tenant-001"))
      (read_work_orders
         (store_work_orders
            [sample_order "wo-2" "assigned"; sample_order "wo-7" "completed"]
            sample_world)) /\
  fst (check_similar_issues sample_judge_matching (sample_check "tenant-001")
         sample_world_with_orders)
  = fst (check_similar_issues sample_judge_matching
           (sample_check "tenant-001")
           (store_work_orders
              [sample_order "wo-2" "assigned"; sample_order "wo-7" "completed"]
              sample_world)).
Proof.
  assert (H1 : filter (is_active_for (Some "tenant-001"))
                 (read_work_orders sample_world_with_orders)
               = filter (is_active_for (Some "tenant-001"))
                   (read_work_orders
                      (store_work_orders
                         [sample_order "wo-2" "assigned";
                          sample_order "wo-7" "completed"] sample_world)))
    by reflexivity.
  split; [exact H1|].
  exact (check_similar_issues_isolated sample_judge_matching
           (sample_check "tenant-001") sample_world_with_orders _ H1).
Defined.

Lemma create_then_checked_witness :
  truthy (arg_tenant_id (sample_create "contractor-001")) = true /\
  sample_disk (writes sample_world) = true /\
  exists view w',
    create_work_order sample_clock sample_iso sample_disk (sample_create "contractor-001")
      sample_world = (Returns view, w') /\
    judge_calls
      (snd (check_similar_issues sample_judge_hallucinating
              (sample_check "tenant-001") w')) = 1.
Proof.
  assert (H1 : truthy (arg_tenant_id (sample_create "contractor-001")) = true)
    by reflexivity.
  assert (Hd : sample_disk (writes sample_world) = true) by reflexivity.
  split; [exact H1|]. split; [exact Hd|].
  let v := eval vm_compute in
             (create_work_order sample_clock sample_iso sample_disk
                (sample_create "contractor-001") sample_world)
  in match v with
     | (Returns ?view, ?w') =>
         assert (H2 : create_work_order sample_clock sample_iso sample_disk
                        (sample_create "contractor-001") sample_world
                      = (Returns view, w')) by (vm_compute; reflexivity);
         exists view, w'; split; [exact H2|];
         exact (proj2 (create_then_checked sample_clock sample_iso sample_disk
                         sample_judge_hallucinating
                         (sample_create "contractor-001")
                         (sample_check "tenant-001") sample_world view w'
                         H2 Hd H1 eq_refl))
     end.
Defined.

Lemma completed_order_leaves_active_set_witness :
  list_find (has_id (Some "wo-2")) (read_work_orders sample_world_with_orders)
    = Some (1, sample_order "wo-2" "assigned") /\
  sample_disk (writes sample_world_with_orders) = true /\
  filter (is_active_for (Some "tenant-001"))
    (read_work_orders
       (snd (complete_work_order sample_clock sample_iso sample_disk (by_id (Some "wo-2"))
               sample_world_with_orders))) = [].
Proof.
  assert (H1 : list_find (has_id (Some "wo-2"))
                 (read_work_orders sample_world_with_orders)
               = Some (1, sample_order "wo-2" "assigned")) by reflexivity.
  assert (Hd : sample_disk (writes sample_world_with_orders) = true)
    by reflexivity.
  split; [exact H1|]. split; [exact Hd|].
  rewrite (completed_order_leaves_active_set sample_clock sample_iso sample_disk
             (by_id (Some "wo-2")) sample_world_with_orders 1
             (sample_order "wo-2" "assigned") (Some "tenant-001") H1 Hd).
  reflexivity.
Defined.
